(** * The FlightAware adept protocol, client side

    A shallow embedding of [flightaware/client/adeptclient.py]:
    the UDP datagram batcher ([UdpServerConnection]), the line reader
    ([AdeptReader]) and the line writer ([AdeptWriter]).

    Conventions.
    - Python integers are [Z]; buffer offsets and lengths are [nat].
    - The bytes of the UDP buffer and of message payloads are [Z] values in
      [0, 256); the bytes of the text streams are [Byte.byte].
    - A method that mutates [self] becomes a function from the object's state
      to an [outcome]: either a normal return or a raised exception, in both
      cases together with the state the object was left in. *)

From Stdlib Require Import ZArith List Strings.String Strings.Ascii Strings.Byte Lia Bool.
From Stdlib Require DecimalString HexadecimalString.
From Stdlib Require HexadecimalN HexadecimalPos DecimalPos.
From stdpp Require Import gmap strings list.
Import ListNotations.

Local Open Scope Z_scope.

(** ** Exceptions and outcomes *)

(** The two ways [struct.pack_into] fails: the buffer has no room for the
    struct at the offset, or a value does not fit its format. *)
Inductive struct_failure : Type := NoRoom | BadValue.

(** An [OSError] comes from the operating system, or is the one the
    writer raises with the message "Server write buffer overflow (too much
    unsent data)". *)
Inductive os_failure : Type := FromSystem | BufferOverflow.

Inductive exn : Type :=
| StructError (why : struct_failure)   (* struct.error *)
| TypeError
| AttributeError
| OverflowError
| KeyError
| ValueError
| UnicodeError     (* UnicodeDecodeError / UnicodeEncodeError *)
| OSError (why : os_failure).   (* also named IOError and socket.error *)

Inductive outcome (S : Type) : Type :=
| Return (s : S)
| Raise (e : exn) (s : S).
Arguments Return {S} s.
Arguments Raise {S} e s.

Definition bind {S : Type} (o : outcome S) (k : S -> outcome S) : outcome S :=
  match o with
  | Return s => k s
  | Raise e s => Raise e s
  end.

Notation "o >>= k" := (bind o k) (at level 58, left associativity).

(** The state an operation leaves behind, whether it returned or raised. *)
Definition final {S : Type} (o : outcome S) : S :=
  match o with
  | Return s => s
  | Raise _ s => s
  end.

Definition returned {S : Type} (o : outcome S) : bool :=
  match o with
  | Return _ => true
  | Raise _ _ => false
  end.

(** [ensures o Q E]: [o] returns in a state satisfying [Q], or raises an
    exception [e] in a state [s] with [E e s]. *)
Definition ensures {S : Type} (o : outcome S) (Q : S -> Prop)
    (E : exn -> S -> Prop) : Prop :=
  match o with
  | Return s => Q s
  | Raise e s => E e s
  end.

(** ** [struct.Struct]: big-endian packing *)

Module Struct.

(** Format characters of the structs used by the protocol (all with the
    [>] prefix: big-endian, standard sizes, no padding). *)
Inductive fmt : Type :=
| fmt_B            (* unsigned char *)
| fmt_H            (* unsigned short *)
| fmt_I            (* unsigned int *)
| fmt_Q            (* unsigned long long *)
| fmt_i            (* signed int *)
| fmt_s (n : nat). (* n bytes *)

Inductive arg : Type :=
| Int (z : Z)
| Bytes (b : list Z).

Definition fmt_size (f : fmt) : nat :=
  match f with
  | fmt_B => 1
  | fmt_H => 2
  | fmt_I => 4
  | fmt_Q => 8
  | fmt_i => 4
  | fmt_s n => n
  end%nat.

Fixpoint size (fs : list fmt) : nat :=
  match fs with
  | [] => 0
  | f :: fs' => fmt_size f + size fs'
  end%nat.

(** The [n] low-order bytes of [v], most significant first.  On a negative
    [v] this is the two's complement representation. *)
Fixpoint be_bytes (n : nat) (v : Z) : list Z :=
  match n with
  | O => []
  | S k => Z.land (Z.shiftr v (8 * Z.of_nat k)) 255 :: be_bytes k v
  end.

(** The unsigned value of a big-endian byte string. *)
Definition be_value (l : list Z) : Z :=
  fold_left (fun acc b => acc * 256 + b) l 0.

(** The signed 32-bit reading of a 4-byte field. *)
Definition be_signed32 (l : list Z) : Z :=
  let u := be_value l in
  if u <? 2 ^ 31 then u else u - 2 ^ 32.

Definition in_range (lo hi z : Z) : bool := (lo <=? z) && (z <=? hi).

(** A byte string truncated or padded with null bytes to [n] bytes. *)
Definition fit (n : nat) (b : list Z) : list Z := firstn n (b ++ repeat 0 n).

(** Packing one value; [None] is [struct.error] (value out of range for
    the format, or of the wrong type).  An [s] field is truncated or
    padded with null bytes to its width. *)
Definition pack_field (f : fmt) (a : arg) : option (list Z) :=
  match f, a with
  | fmt_B, Int z => if in_range 0 255 z then Some (be_bytes 1 z) else None
  | fmt_H, Int z => if in_range 0 65535 z then Some (be_bytes 2 z) else None
  | fmt_I, Int z => if in_range 0 4294967295 z then Some (be_bytes 4 z) else None
  | fmt_Q, Int z =>
      if in_range 0 18446744073709551615 z then Some (be_bytes 8 z) else None
  | fmt_i, Int z =>
      if in_range (-2147483648) 2147483647 z then Some (be_bytes 4 z) else None
  | fmt_s n, Bytes b => Some (fit n b)
  | _, _ => None
  end.

Inductive packed : Type :=
| Packed (b : list Z)
| Failed (why : struct_failure) (b : list Z).

(** [data] written over [b] starting at [off]. *)
Definition write_at (b : list Z) (off : nat) (data : list Z) : list Z :=
  firstn off b ++ data ++ skipn (off + length data) b.

(** The fields are converted and stored one after the other; the first
    value that does not fit raises, leaving the fields before it written. *)
Fixpoint pack_fields (fs : list fmt) (args : list arg)
    (b : list Z) (off : nat) : packed :=
  match fs, args with
  | [], [] => Packed b
  | f :: fs', a :: args' =>
      match pack_field f a with
      | Some data => pack_fields fs' args' (write_at b off data) (off + length data)
      | None => Failed BadValue b
      end
  | _, _ => Failed BadValue b
  end.

(** [Struct.pack_into(buffer, offset, v1, v2, ...)]: the argument count and
    the room left in the buffer are checked before anything is written;
    then the region of the struct is cleared and the fields are stored. *)
Definition pack_into (fs : list fmt) (b : list Z) (off : nat)
    (args : list arg) : packed :=
  if negb (length fs =? length args)%nat then Failed BadValue b
  else if (length b <? off + size fs)%nat then Failed NoRoom b
  else pack_fields fs args (write_at b off (repeat 0 (size fs))) off.

(** [Struct.pack(v1, v2, ...)], used to describe buffer contents. *)
Fixpoint pack (fs : list fmt) (args : list arg) : option (list Z) :=
  match fs, args with
  | [], [] => Some []
  | f :: fs', a :: args' =>
      match pack_field f a, pack fs' args' with
      | Some d, Some ds => Some (d ++ ds)
      | _, _ => None
      end
  | _, _ => None
  end.

End Struct.

(** A region of a buffer: [n] bytes from offset [off]. *)
Definition slice (b : list Z) (off n : nat) : list Z := firstn n (skipn off b).

(** ** Messages (the external input type) *)

(** [address], [timestamp] and [df] are the attributes of a decoded
    message; [payload] is [bytes(message)] (and [len(message)] its length);
    [text] is [str(message)]. *)
Record message : Type := mkMessage {
  address : Z;
  timestamp : Z;
  payload : list Z;
  df : Z;
  text : string
}.

(** The data model's invariant on messages. *)
Definition is_byte (b : Z) : Prop := 0 <= b < 256.

Record valid_message (m : message) : Prop := {
  valid_address : 0 <= address m < 2 ^ 24;
  valid_timestamp : 0 <= timestamp m < 2 ^ 64;
  valid_length : length (payload m) = 7%nat \/ length (payload m) = 14%nat;
  valid_payload : Forall is_byte (payload m)
}.

(** ** Integer arithmetic through floats *)

(** [round53 a], for [a >= 0]: the integer nearest to [a] that has at most
    53 significant bits, ties going to the even significand.  This is the
    conversion of the integer [a] to a double. *)
Definition round53 (a : Z) : Z :=
  let n := Z.log2 a + 1 in
  if n <=? 53 then a
  else
    let sh := n - 53 in
    let q := Z.shiftr a sh in
    let r := Z.land a (Z.ones sh) in
    let half := 2 ^ (sh - 1) in
    let q' := if (half <? r) || ((r =? half) && Z.odd q) then q + 1 else q in
    Z.shiftl q' sh.

(** [int(s / 2)] for an integer [s]: the true quotient [s / 2] is rounded
    to the nearest double (division by two only changes the exponent),
    which [int] then truncates toward zero.  [None] is the [OverflowError]
    of a quotient too large for a float. *)
Definition int_half (s : Z) : option Z :=
  let m := round53 (Z.abs s) in
  if 2 ^ 1025 <=? m then None else Some (Z.sgn s * (m / 2)).

(** ** The UDP datagram batcher *)

Module Udp.

Import Struct.

(** UDP protocol submessages *)
Definition TYPE_SYNC : Z := 1.
Definition TYPE_MLAT_SHORT : Z := 2.
Definition TYPE_MLAT_LONG : Z := 3.
Definition TYPE_REBASE : Z := 5.
Definition TYPE_ABS_SYNC : Z := 6.

Definition STRUCT_HEADER : list fmt := [fmt_I; fmt_H; fmt_Q].
Definition STRUCT_SYNC : list fmt :=
  [fmt_B; fmt_B; fmt_B; fmt_B; fmt_i; fmt_i; fmt_s 14; fmt_s 14].
Definition STRUCT_MLAT_SHORT : list fmt :=
  [fmt_B; fmt_B; fmt_B; fmt_B; fmt_i; fmt_s 7].
Definition STRUCT_MLAT_LONG : list fmt :=
  [fmt_B; fmt_B; fmt_B; fmt_B; fmt_i; fmt_s 14].
Definition STRUCT_REBASE : list fmt := [fmt_B; fmt_Q].
Definition STRUCT_ABS_SYNC : list fmt :=
  [fmt_B; fmt_B; fmt_B; fmt_B; fmt_Q; fmt_Q; fmt_s 14; fmt_s 14].

(** What [sock.send] does with a datagram: it is accepted, or
    [socket.error] is raised. *)
Inductive send_result : Type := Sent | SendFailed.

Inductive socket : Type := Open | Closed.

(** The object's attributes, followed by the two pieces of the environment
    it acts on: [wire], the datagrams handed to [sock.send] with what
    became of each, and the statistics counter. *)
Record UdpServerConnection : Type := mkUdp {
  key : Z;
  base_timestamp : option Z;
  buf : list Z;
  used : nat;
  seq : Z;
  count : Z;
  sock : option socket;
  wire : list (list Z * send_result);
  server_udp_bytes : Z
}.

Definition init (key : Z) : UdpServerConnection :=
  {| key := key; base_timestamp := None; buf := repeat 0 1500; used := 0;
     seq := 0; count := 0; sock := None; wire := []; server_udp_bytes := 0 |}.

Definition set_base (t : option Z) (s : UdpServerConnection) :=
  {| key := key s; base_timestamp := t; buf := buf s; used := used s;
     seq := seq s; count := count s; sock := sock s; wire := wire s;
     server_udp_bytes := server_udp_bytes s |}.

Definition set_buf (b : list Z) (s : UdpServerConnection) :=
  {| key := key s; base_timestamp := base_timestamp s; buf := b;
     used := used s; seq := seq s; count := count s; sock := sock s;
     wire := wire s; server_udp_bytes := server_udp_bytes s |}.

Definition set_used (u : nat) (s : UdpServerConnection) :=
  {| key := key s; base_timestamp := base_timestamp s; buf := buf s;
     used := u; seq := seq s; count := count s; sock := sock s;
     wire := wire s; server_udp_bytes := server_udp_bytes s |}.

Definition set_sock (k : option socket) (s : UdpServerConnection) :=
  {| key := key s; base_timestamp := base_timestamp s; buf := buf s;
     used := used s; seq := seq s; count := count s; sock := k;
     wire := wire s; server_udp_bytes := server_udp_bytes s |}.

(** What [start] meets: the socket is created and connected, or
    [socket.socket] raises, or [connect] does (as when the host name does
    not resolve), the new socket then being in place.  [Open] is a socket
    that was not closed. *)
Inductive start_result : Type := Started | SocketFailed | ConnectFailed.

Definition start (r : start_result) (s : UdpServerConnection)
    : outcome UdpServerConnection :=
  match r with
  | Started => Return (set_sock (Some Open) s)
  | SocketFailed => Raise (OSError FromSystem) s
  | ConnectFailed => Raise (OSError FromSystem) (set_sock (Some Open) s)
  end.

(** [STRUCT.pack_into(self.buf, off, ...)] followed by
    [self.used += STRUCT.size]; the increment is not reached when
    [pack_into] raises. *)
Definition pack_and_advance (fs : list fmt) (off : nat) (args : list arg)
    (s : UdpServerConnection) : outcome UdpServerConnection :=
  match pack_into fs (buf s) off args with
  | Packed b => Return (set_used (used s + size fs) (set_buf b s))
  | Failed why b => Raise (StructError why) (set_buf b s)
  end.

Definition prepare_header (t : Z) (s : UdpServerConnection)
    : outcome UdpServerConnection :=
  let s := set_base (Some t) s in
  pack_and_advance STRUCT_HEADER 0 [Int (key s); Int (seq s); Int t] s.

Definition rebase (t : Z) (s : UdpServerConnection)
    : outcome UdpServerConnection :=
  let s := set_base (Some t) s in
  pack_and_advance STRUCT_REBASE (used s) [Int TYPE_REBASE; Int t] s.

Definition flush (r : send_result) (s : UdpServerConnection)
    : outcome UdpServerConnection :=
  if (used s =? 0)%nat then Return s
  else
    match sock s with
    | None => Raise AttributeError s
    | Some _ =>
        Return
          {| key := key s; base_timestamp := None; buf := buf s; used := 0;
             seq := Z.land (seq s + 1) 0xffff; count := count s + 1;
             sock := sock s;
             wire := wire s ++ [(firstn (used s) (buf s), r)];
             server_udp_bytes := server_udp_bytes s + Z.of_nat (used s) |}
    end.

(** The three address bytes of a submessage. *)
Definition address_args (a : Z) : list arg :=
  [Int (Z.shiftr a 16); Int (Z.land (Z.shiftr a 8) 255); Int (Z.land a 255)].

Definition flush_if_full (r : send_result) (s : UdpServerConnection)
    : outcome UdpServerConnection :=
  if (1400 <? used s)%nat then flush r s else Return s.

(** [r] is the fate of the datagram, should this call flush one. *)
Definition send_mlat (m : message) (r : send_result)
    (s : UdpServerConnection) : outcome UdpServerConnection :=
  (if (used s =? 0)%nat then prepare_header (timestamp m) s else Return s)
  >>= fun s =>
  match base_timestamp s with
  | None => Raise TypeError s
  | Some base =>
      let delta := timestamp m - base in
      let far := 0x7FFFFFF0 <? Z.abs delta in
      (if far then rebase (timestamp m) s else Return s) >>= fun s =>
      let delta := if far then 0 else delta in
      (if (length (payload m) =? 7)%nat then
         pack_and_advance STRUCT_MLAT_SHORT (used s)
           (Int TYPE_MLAT_SHORT :: address_args (address m)
              ++ [Int delta; Bytes (payload m)]) s
       else
         pack_and_advance STRUCT_MLAT_LONG (used s)
           (Int TYPE_MLAT_LONG :: address_args (address m)
              ++ [Int delta; Bytes (payload m)]) s) >>= fun s =>
      flush_if_full r s
  end.

(** [self.prepare_header(int((em.timestamp + om.timestamp) / 2))] and the
    same for [rebase]: the argument is evaluated first. *)
Definition with_mean (em om : message)
    (k : Z -> UdpServerConnection -> outcome UdpServerConnection)
    (s : UdpServerConnection) : outcome UdpServerConnection :=
  match int_half (timestamp em + timestamp om) with
  | None => Raise OverflowError s
  | Some t => k t s
  end.

Definition pack_sync (em om : message) (edelta odelta : Z)
    (s : UdpServerConnection) : outcome UdpServerConnection :=
  pack_and_advance STRUCT_SYNC (used s)
    (Int TYPE_SYNC :: address_args (address em)
       ++ [Int edelta; Int odelta; Bytes (payload em); Bytes (payload om)]) s.

Definition send_sync (em om : message) (r : send_result)
    (s : UdpServerConnection) : outcome UdpServerConnection :=
  (if (used s =? 0)%nat then with_mean em om prepare_header s else Return s)
  >>= fun s =>
  (if 0xFFFFFFF0 <? Z.abs (timestamp em - timestamp om) then
     (* use abs sync *)
     pack_and_advance STRUCT_ABS_SYNC (used s)
       (Int TYPE_ABS_SYNC :: address_args (address em)
          ++ [Int (timestamp em); Int (timestamp om);
              Bytes (payload em); Bytes (payload om)]) s
   else
     match base_timestamp s with
     | None => Raise TypeError s
     | Some base =>
         let edelta := timestamp em - base in
         let odelta := timestamp om - base in
         if (0x7FFFFFF0 <? Z.abs edelta) || (0x7FFFFFF0 <? Z.abs odelta)
         then
           with_mean em om rebase s >>= fun s =>
           match base_timestamp s with
           | None => Raise TypeError s
           | Some base =>
               pack_sync em om (timestamp em - base) (timestamp om - base) s
           end
         else pack_sync em om edelta odelta s
     end) >>= fun s =>
  flush_if_full r s.

Definition close (s : UdpServerConnection) : UdpServerConnection :=
  let s := set_used 0 s in
  match sock s with
  | Some _ => set_sock (Some Closed) s
  | None => s
  end.

(** Calls of the two append methods, and a caller that makes a sequence of
    them on one object, carrying on after a call that raised with the
    object as that call left it. *)
Inductive append : Type :=
| AppendMlat (m : message) (r : send_result)
| AppendSync (em om : message) (r : send_result).

Definition apply (a : append) (s : UdpServerConnection)
    : outcome UdpServerConnection :=
  match a with
  | AppendMlat m r => send_mlat m r s
  | AppendSync em om r => send_sync em om r s
  end.

Fixpoint run (ops : list append) (s : UdpServerConnection)
    : UdpServerConnection :=
  match ops with
  | [] => s
  | a :: ops' => run ops' (final (apply a s))
  end.

Fixpoint all_returned (ops : list append) (s : UdpServerConnection) : bool :=
  match ops with
  | [] => true
  | a :: ops' => returned (apply a s) && all_returned ops' (final (apply a s))
  end.

(** The invariant of the data model. *)
Definition batch_invariant (s : UdpServerConnection) : Prop :=
  used s = 0%nat <-> base_timestamp s = None.

(** *** Layouts and conditions used to state the properties *)

(** The three address bytes, as they appear in a submessage. *)
Definition address_bytes (a : Z) : list Z :=
  [Z.shiftr a 16; Z.land (Z.shiftr a 8) 255; Z.land a 255].

(** The tag [send_mlat] chooses. *)
Definition mlat_tag (m : message) : Z :=
  if (length (payload m) =? 7)%nat then TYPE_MLAT_SHORT else TYPE_MLAT_LONG.

(** The two 14-byte payload fields of a sync submessage. *)
Definition sync_payloads (em om : message) : list Z :=
  fit 14 (payload em) ++ fit 14 (payload om).

(** How a primitive step moves the state: occupancy grows by [n], the
    buffer keeps its size, the base timestamp stays. *)
Definition advanced (s : UdpServerConnection) (n : nat)
    (s' : UdpServerConnection) : Prop :=
  used s' = (used s + n)%nat /\ length (buf s') = length (buf s) /\
  base_timestamp s' = base_timestamp s.

(** A failed [pack_into] is a bad value unless the struct does not fit. *)
Definition pack_failure (room : Prop) (e : exn) : Prop :=
  exists why, e = StructError why /\ (room -> why = BadValue).

(** What every append guarantees, from any state whose buffer is the
    1500-byte one: it returns with at most 1400 bytes occupied; if it
    raises, the occupancy is still within the buffer, and when it started
    with at most 1400 bytes occupied the failure is not a struct that
    found no room. *)
Definition append_returns (s' : UdpServerConnection) : Prop :=
  (used s' <= 1400)%nat /\ length (buf s') = 1500%nat.

Definition append_raises (s : UdpServerConnection) (e : exn)
    (s' : UdpServerConnection) : Prop :=
  (used s' <= 1500)%nat /\ length (buf s') = 1500%nat /\
  ((used s <= 1400)%nat -> e <> StructError NoRoom).

End Udp.

(** ** Sequences of operations on the batcher *)

Module UdpOps.

Import Udp.

(** The methods a connection calls on its UDP transport. *)
Inductive operation : Type :=
| Start (r : start_result)
| SendMlat (m : message) (r : send_result)
| SendSync (em om : message) (r : send_result)
| Flush (r : send_result)
| Close.

Definition perform (o : operation) (s : UdpServerConnection)
    : outcome UdpServerConnection :=
  match o with
  | Start r => start r s
  | SendMlat m r => send_mlat m r s
  | SendSync em om r => send_sync em om r s
  | Flush r => flush r s
  | Close => Return (close s)
  end.

(** A caller that goes on after a call that raised. *)
Fixpoint play (ops : list operation) (s : UdpServerConnection)
    : UdpServerConnection :=
  match ops with
  | [] => s
  | o :: ops' => play ops' (final (perform o s))
  end.

(** The bytes of the datagrams handed to the socket. *)
Definition wire_bytes (w : list (list Z * send_result)) : Z :=
  fold_right (fun d n => Z.of_nat (length d.1) + n) 0 w.

(** The first six bytes of a datagram: key and sequence number. *)
Definition datagram_start (k q : Z) : list Z :=
  Struct.be_bytes 4 k ++ Struct.be_bytes 2 q.

(** A batch that is not empty starts with the header of the datagram it
    will become. *)
Definition headed (s : UdpServerConnection) : Prop :=
  used s <> 0%nat ->
  (14 <= used s <= 1500)%nat /\
  firstn 6 (buf s) = datagram_start (key s) (seq s).

(** The payload field of the submessage [send_mlat] writes: 7 bytes for a
    7-byte message, 14 bytes for any other. *)
Definition mlat_payload (m : message) : list Z :=
  Struct.fit (if (length (payload m) =? 7)%nat then 7 else 14) (payload m).

(** Nothing was sent between [s0] and [s1]. *)
Definition unsent (s0 s1 : UdpServerConnection) : Prop :=
  wire s1 = wire s0 /\ count s1 = count s0 /\ seq s1 = seq s0 /\
  server_udp_bytes s1 = server_udp_bytes s0.

(** [s1] differs from [s0] in the batch only: same key, counters and
    datagrams sent, and a batch that, when not empty, has its header. *)
Definition batching (s0 s1 : UdpServerConnection) : Prop :=
  key s1 = key s0 /\ seq s1 = seq s0 /\ count s1 = count s0 /\
  wire s1 = wire s0 /\ server_udp_bytes s1 = server_udp_bytes s0 /\
  length (buf s1) = length (buf s0) /\ headed s1.

(** The counters agree with what was handed to the socket. *)
Record accounted (k : Z) (s : UdpServerConnection) : Prop := {
  acc_key : key s = k;
  acc_buf : length (buf s) = 1500%nat;
  acc_count : count s = Z.of_nat (length (wire s));
  acc_seq : seq s = count s mod 2 ^ 16;
  acc_bytes : server_udp_bytes s = wire_bytes (wire s);
  acc_headed : headed s;
  acc_wire : forall i d r, wire s !! i = Some (d, r) ->
               (14 <= length d <= 1500)%nat /\
               firstn 6 d = datagram_start k (Z.of_nat i mod 2 ^ 16)
}.

End UdpOps.

(** ** Python strings and integers *)

Module Py.

Definition TAB : ascii := "009"%char.
Definition NL : ascii := "010"%char.
Definition tab : string := String TAB "".
Definition nl : string := String NL "".

(** [b.decode('ascii')]; [None] is [UnicodeDecodeError]. *)
Definition decode_ascii (b : list byte) : option string :=
  if forallb (fun x => (Byte.to_N x <? 128)%N) b
  then Some (string_of_list_byte b) else None.

(** [s.encode('ascii')]; [None] is [UnicodeEncodeError]. *)
Definition encode_ascii (s : string) : option (list byte) :=
  let b := list_byte_of_string s in
  if forallb (fun x => (Byte.to_N x <? 128)%N) b then Some b else None.

(** [b.split(sep)] for a one-byte separator: the pieces between the
    occurrences of [sep], of which there is always at least one. *)
Fixpoint split_bytes (sep : byte) (b : list byte) : list (list byte) :=
  match b with
  | [] => [[]]
  | x :: b' =>
      if Byte.eqb x sep then [] :: split_bytes sep b'
      else match split_bytes sep b' with
           | [] => [[x]]
           | p :: ps => (x :: p) :: ps
           end
  end.

(** [s.split(sep)] for a one-character separator. *)
Fixpoint split (sep : ascii) (s : string) : list string :=
  match s with
  | EmptyString => [EmptyString]
  | String c s' =>
      if Ascii.eqb c sep then EmptyString :: split sep s'
      else match split sep s' with
           | [] => [String c EmptyString]
           | p :: ps => String c p :: ps
           end
  end.

(** [l[0::2]]; [l[1::2]] is [every_other (tail l)]. *)
Fixpoint every_other {A : Type} (l : list A) : list A :=
  match l with
  | [] => []
  | x :: l' => x :: match l' with
                    | [] => []
                    | _ :: l'' => every_other l''
                    end
  end.

(** [dict(pairs)]: the pairs are inserted in order, so that of two pairs
    with the same key the later one stays. *)
Definition dict (pairs : list (string * string)) : gmap string string :=
  fold_left (fun m kv => <[kv.1 := kv.2]> m) pairs ∅.

(** The characters [int] strips from both ends of its argument: tab, line
    feed, vertical tab, form feed, carriage return and the space. *)
Definition is_space (c : ascii) : bool :=
  let n := N_of_ascii c in
  ((9 <=? n) && (n <=? 13) || (n =? 32))%N.

Definition digit_value (c : ascii) : option Z :=
  let n := Z.of_N (N_of_ascii c) in
  if (48 <=? n) && (n <=? 57) then Some (n - 48)
  else if (97 <=? n) && (n <=? 122) then Some (n - 87)
  else if (65 <=? n) && (n <=? 90) then Some (n - 55)
  else None.

Fixpoint lstrip (s : list ascii) : list ascii :=
  match s with
  | c :: s' => if is_space c then lstrip s' else s
  | [] => []
  end.

Definition strip (s : list ascii) : list ascii :=
  rev (lstrip (rev (lstrip s))).

(** Digits in [base], single underscores allowed between them. *)
Fixpoint digits (base acc : Z) (after_underscore : bool) (s : list ascii)
    : option Z :=
  match s with
  | [] => if after_underscore then None else Some acc
  | c :: s' =>
      if Ascii.eqb c "_" then
        if after_underscore then None else digits base acc true s'
      else
        match digit_value c with
        | Some d => if d <? base then digits base (acc * base + d) false s'
                    else None
        | None => None
        end
  end.

(** The most digits [int] accepts in a base that is not a power of two
    ([sys.get_int_max_str_digits()], which the program leaves at its
    default). *)
Definition MAX_STR_DIGITS : Z := 4300.

(** The digits of a literal: its characters other than underscores. *)
Definition digit_count (cs : list ascii) : Z :=
  Z.of_nat (length (List.filter (fun c => negb (Ascii.eqb c "_")) cs)).

(** [int(s, base)] for base 10 or 16; [None] is [ValueError].  Surrounding
    whitespace is ignored, a sign may come first, and in base 16 a
    [0x] or [0X] prefix, which may be followed by one underscore.  In
    base 10 a literal of more than [MAX_STR_DIGITS] digits is refused. *)
Definition int (base : Z) (s : string) : option Z :=
  let cs := strip (list_ascii_of_string s) in
  let (sign, cs) :=
    match cs with
    | "+"%char :: r => (1, r)
    | "-"%char :: r => (-1, r)
    | _ => (1, cs)
    end in
  let cs :=
    if base =? 16 then
      match cs with
      | "0"%char :: x :: r =>
          if Ascii.eqb x "x" || Ascii.eqb x "X" then
            match r with
            | "_"%char :: r' => r'
            | _ => r
            end
          else cs
      | _ => cs
      end
    else cs in
  match cs with
  | [] => None
  | c :: _ =>
      if Ascii.eqb c "_" then None
      else if negb (Z.land base (base - 1) =? 0)
              && (MAX_STR_DIGITS <? digit_count cs) then None
      else option_map (Z.mul sign) (digits base 0 false cs)
  end.

(** [str(n)] and the [{}] format of an integer. *)
Definition str (n : Z) : string :=
  DecimalString.NilZero.string_of_int (Z.to_int n).

Definition upper (c : ascii) : ascii :=
  let n := N_of_ascii c in
  if ((97 <=? n) && (n <=? 122))%N then ascii_of_N (n - 32) else c.

Fixpoint map_string (f : ascii -> ascii) (s : string) : string :=
  match s with
  | EmptyString => EmptyString
  | String c s' => String (f c) (map_string f s')
  end.

Fixpoint zeros (n : nat) : string :=
  match n with
  | O => EmptyString
  | S k => String "0" (zeros k)
  end.

(** The formats [{:0<width>x}] and, with [upper], [{:0<width>X}] of an
    integer: hexadecimal digits, after the sign of a negative number, padded
    with zeros to [width] characters. *)
Definition format_hex (uppercase : bool) (width : nat) (n : Z) : string :=
  let d := HexadecimalString.NilZero.string_of_uint
             (N.to_hex_uint (Z.to_N (Z.abs n))) in
  let d := if uppercase then map_string upper d else d in
  let sign := if n <? 0 then "-"%string else ""%string in
  String.append sign
    (String.append (zeros (width - String.length sign - String.length d)) d).

(** The characters that are digits in base 16. *)
Definition is_hex_digit (c : ascii) : bool :=
  match digit_value c with
  | Some d => d <? 16
  | None => false
  end.

(** A token that can travel in a line: ASCII, with no tab and no newline
    in it. *)
Definition plain (t : string) : Prop :=
  Forall (fun c => (N_of_ascii c < 128)%N /\ c <> TAB /\ c <> NL)
    (list_ascii_of_string t).

End Py.

(** ** Reading records *)

Module Reader.

(** Values computed on the way to a call; [Err] is a raised exception. *)
Inductive result (A : Type) : Type :=
| Ok (a : A)
| Err (e : exn).
Arguments Ok {A} a.
Arguments Err {A} e.

Definition and_then {A B : Type} (r : result A) (k : A -> result B)
    : result B :=
  match r with
  | Ok a => k a
  | Err e => Err e
  end.

Notation "r >>? k" := (and_then r k) (at level 58, left associativity).

Definition or_raise {A : Type} (e : exn) (o : option A) : result A :=
  match o with
  | Some a => Ok a
  | None => Err e
  end.

(** [benign r]: [r] is not a raised [OSError], the one kind of exception
    that the loop of [handle_read] lets through ([except IOError: raise]). *)
Definition benign {A : Type} (r : result A) : Prop :=
  match r with
  | Err (OSError _) => False
  | _ => True
  end.

(** The integers of a [hexids] value: none for the empty string, else the
    tokens between spaces read in base 16 ([None] if one is not a
    number). *)
Definition hex_tokens (h : string) : option (list Z) :=
  if String.eqb h "" then Some [] else mapM (Py.int 16) (Py.split " " h).

Section Reader.

(** Floating-point numbers and [float(s)] ([None] is [ValueError]) are
    those of the Python runtime. *)
Variable F : Type.
Variable float : string -> option F.

(** What the reader does to its collaborators: the calls on the
    coordinator (which are taken to return), the assignments to
    [connection.state], [connection.disconnect()], and the exceptions
    handed to [util.log_exc]. *)
Inductive event : Type :=
| server_start_sending (wanted : gset Z)
| server_stop_sending (unwanted : gset Z)
| server_mlat_result (addr : Z) (lat lon alt nsvel ewvel vrate : F)
| set_state (state : string)
| disconnect
| log_exc (e : exn).

Record AdeptReader : Type := mkReader {
  partial_line : list byte;
  closed : bool;
  server_rx_bytes : Z;
  trace : list event
}.

Definition init : AdeptReader :=
  {| partial_line := []; closed := false; server_rx_bytes := 0; trace := [] |}.

Definition emit (ev : event) (s : AdeptReader) : AdeptReader :=
  {| partial_line := partial_line s; closed := closed s;
     server_rx_bytes := server_rx_bytes s; trace := trace s ++ [ev] |}.

(** [message[key]] *)
Definition item (message : gmap string string) (key : string)
    : result string :=
  or_raise KeyError (message !! key).

Fixpoint traverse {A B : Type} (f : A -> result B) (l : list A)
    : result (list B) :=
  match l with
  | [] => Ok []
  | x :: l' => f x >>? fun y => traverse f l' >>? fun ys => Ok (y :: ys)
  end.

(** The set of addresses of a [hexids] field. *)
Definition hexids (message : gmap string string) : result (gset Z) :=
  item message "hexids" >>? fun h =>
  if String.eqb h "" then Ok ∅
  else
    traverse (fun x => or_raise ValueError (Py.int 16 x)) (Py.split " " h)
    >>? fun l => Ok (list_to_set l).

Definition process_wanted_message (message : gmap string string)
    : result event :=
  hexids message >>? fun wanted => Ok (server_start_sending wanted).

Definition process_unwanted_message (message : gmap string string)
    : result event :=
  hexids message >>? fun unwanted => Ok (server_stop_sending unwanted).

Definition float_item (message : gmap string string) (key : string)
    : result F :=
  item message key >>? fun v => or_raise ValueError (float v).

Definition process_result_message (message : gmap string string)
    : result event :=
  item message "hexid" >>? fun h =>
  or_raise ValueError (Py.int 16 h) >>? fun addr =>
  float_item message "lat" >>? fun lat =>
  float_item message "lon" >>? fun lon =>
  float_item message "alt" >>? fun alt =>
  float_item message "nsvel" >>? fun nsvel =>
  float_item message "ewvel" >>? fun ewvel =>
  float_item message "fpm" >>? fun vrate =>
  Ok (server_mlat_result addr lat lon alt nsvel ewvel vrate).

Definition process_status_message (message : gmap string string)
    : result event :=
  let s := default "unknown"%string (message !! "status") in
  match message !! "receiver_sync_count" with
  | Some v => or_raise ValueError (Py.int 10 v)
  | None => Ok 0
  end >>? fun r =>
  if String.eqb s "ok" then
    Ok (set_state (String.append "synchronized with "
                     (String.append (Py.str r) " nearby receivers")))
  else if String.eqb s "unstable" then Ok (set_state "clock unstable")
  else if String.eqb s "no_sync" then
    Ok (set_state "not synchronized with any nearby receivers")
  else Ok (set_state (String.append s (String.append " " (Py.str r)))).

(** [self.handlers.get(name)] *)
Definition handlers (name : string)
    : option (gmap string string -> result event) :=
  if String.eqb name "mlat_wanted" then Some process_wanted_message
  else if String.eqb name "mlat_unwanted" then Some process_unwanted_message
  else if String.eqb name "mlat_result" then Some process_result_message
  else if String.eqb name "mlat_status" then Some process_status_message
  else None.

(** The first two statements of [process_line]: the tokens at even
    positions are keys, those at odd positions their values. *)
Definition pairs (fields : list string) : list (string * string) :=
  zip (Py.every_other fields) (Py.every_other (tail fields)).

Definition parse_message (line : string) : gmap string string :=
  Py.dict (pairs (Py.split Py.TAB line)).

(** [process_line]: the event of the handler that ran, if one did. *)
Definition process_line (line : string) : result (option event) :=
  let message := parse_message line in
  item message "type" >>? fun name =>
  match handlers name with
  | Some handler => handler message >>? fun ev => Ok (Some ev)
  | None => Ok None
  end.

Definition close (s : AdeptReader) : AdeptReader :=
  if closed s then s
  else emit disconnect
         {| partial_line := partial_line s; closed := true;
            server_rx_bytes := server_rx_bytes s; trace := trace s |}.

(** One round of the loop of [handle_read]: an [IOError] goes on to the
    caller, any other exception is logged. *)
Definition process_one (line : list byte) (s : AdeptReader)
    : outcome AdeptReader :=
  match or_raise UnicodeError (Py.decode_ascii line) >>? process_line with
  | Ok (Some ev) => Return (emit ev s)
  | Ok None => Return s
  | Err (OSError why) => Raise (OSError why) s
  | Err e => Return (emit (log_exc e) s)
  end.

Fixpoint process_all (lines : list (list byte)) (s : AdeptReader)
    : outcome AdeptReader :=
  match lines with
  | [] => Return s
  | line :: rest => process_one line s >>= process_all rest
  end.

(** The events a complete line gives rise to: that of its handler, the
    exception it is logged with, or none. *)
Definition line_events (line : list byte) : list event :=
  match or_raise UnicodeError (Py.decode_ascii line) >>? process_line with
  | Ok (Some ev) => [ev]
  | Ok None => []
  | Err e => [log_exc e]
  end.

Definition log (evs : list event) (s : AdeptReader) : AdeptReader :=
  {| partial_line := partial_line s; closed := closed s;
     server_rx_bytes := server_rx_bytes s; trace := trace s ++ evs |}.

(** What [self.recv(16384)] gives. *)
Inductive recv_result : Type :=
| Received (moredata : list byte)
| WouldBlock      (* socket.error with errno EAGAIN *)
| RecvFailed.     (* any other socket.error *)

Definition handle_read (r : recv_result) (s : AdeptReader)
    : outcome AdeptReader :=
  match r with
  | WouldBlock => Return s
  | RecvFailed => Raise (OSError FromSystem) s
  | Received [] => Return (close s)
  | Received moredata =>
      let s := {| partial_line := partial_line s; closed := closed s;
                  server_rx_bytes :=
                    server_rx_bytes s + Z.of_nat (length moredata);
                  trace := trace s |} in
      let data := partial_line s ++ moredata in
      let lines := Py.split_bytes "010"%byte data in
      process_all (List.removelast lines) s >>= fun s =>
      Return {| partial_line := List.last lines []; closed := closed s;
                server_rx_bytes := server_rx_bytes s; trace := trace s |}
  end.

(** The reader fed a sequence of chunks, one [handle_read] for each. *)
Fixpoint feed (chunks : list (list byte)) (s : AdeptReader)
    : outcome AdeptReader :=
  match chunks with
  | [] => Return s
  | c :: rest => handle_read (Received c) s >>= feed rest
  end.

End Reader.

Arguments server_start_sending {F}.
Arguments server_stop_sending {F}.
Arguments set_state {F}.
Arguments disconnect {F}.
Arguments log_exc {F}.
Arguments init {F}.
Arguments mkReader {F}.
Arguments partial_line {F}.
Arguments closed {F}.
Arguments server_rx_bytes {F}.
Arguments trace {F}.
Arguments emit {F}.
Arguments log {F}.
Arguments close {F}.

End Reader.

(** ** Writing records *)

Module Writer.

Section Writer.

(** The formatting of a rate, [{:.2f}], is that of the Python runtime, and
    [CLIENT_VERSION] is a constant of the [version] module. *)
Variable F : Type.
Variable format_2f : F -> string.
Variable CLIENT_VERSION : string.

Record AdeptWriter : Type := mkWriter {
  writebuf : list byte;
  closed : bool;
  server_tx_bytes : Z
}.

Definition init : AdeptWriter :=
  {| writebuf := []; closed := false; server_tx_bytes := 0 |}.

Definition writable (w : AdeptWriter) : bool :=
  negb (length (writebuf w) =? 0)%nat.

(** What [self.send(self.writebuf)] does: the stream takes the first
    [sent] bytes (none if it would block); or it has hung up (a broken
    pipe, a reset), and [send] calls [handle_close] and gives 0; or the
    write raises another error. *)
Inductive write_result : Type :=
| Wrote (sent : nat)
| Hangup
| WriteFailed.

(** [AdeptWriter.close], as far as the writer goes; what the call of
    [connection.disconnect()] does is the connection's. *)
Definition close (w : AdeptWriter) : AdeptWriter :=
  {| writebuf := writebuf w; closed := true;
     server_tx_bytes := server_tx_bytes w |}.

(** The statements of [handle_write] after the call of [send]. *)
Definition drain (sent : nat) (w : AdeptWriter) : outcome AdeptWriter :=
  let w := {| writebuf := skipn sent (writebuf w); closed := closed w;
              server_tx_bytes := server_tx_bytes w + Z.of_nat sent |} in
  if 65536 <? Z.of_nat (length (writebuf w)) then
    Raise (OSError BufferOverflow) w
  else Return w.

Definition handle_write (r : write_result) (w : AdeptWriter)
    : outcome AdeptWriter :=
  if writable w then
    match r with
    | WriteFailed => Raise (OSError FromSystem) w
    | Wrote sent => drain sent w
    | Hangup => drain 0 (close w)
    end
  else Return w.

(** [self.writebuf += line.encode('ascii')] *)
Definition append_line (line : string) (w : AdeptWriter)
    : outcome AdeptWriter :=
  match Py.encode_ascii line with
  | Some b => Return {| writebuf := writebuf w ++ b; closed := closed w;
                        server_tx_bytes := server_tx_bytes w |}
  | None => Raise UnicodeError w
  end.


(** A line of tab-separated tokens. *)
Definition tabbed (tokens : list string) : string :=
  String.append (String.concat Py.tab tokens) Py.nl.

Definition spaced (tokens : list string) : string :=
  String.concat " " tokens.

Definition send_message (kwargs : list (string * string))
    (w : AdeptWriter) : outcome AdeptWriter :=
  append_line (tabbed (flat_map (fun kv => [kv.1; kv.2]) kwargs)) w.

Definition send_mlat (m : message) (w : AdeptWriter) : outcome AdeptWriter :=
  let line :=
    if df m <=? 15 then   (* DF 0..15 are 56-bit messages *)
      tabbed ["type"; "mlat_mlat"; "hexid"; Py.format_hex true 6 (address m);
              "m_short";
              spaced [Py.format_hex false 12 (timestamp m); text m]]%string
    else                  (* DF 16..31 are 112-bit messages *)
      tabbed ["type"; "mlat_mlat"; "hexid"; Py.format_hex true 6 (address m);
              "m_long";
              spaced [Py.format_hex false 12 (timestamp m); text m]]%string in
  append_line line w.

Definition send_sync (em om : message) (w : AdeptWriter)
    : outcome AdeptWriter :=
  append_line
    (tabbed ["type"; "mlat_sync"; "hexid"; Py.format_hex true 6 (address em);
             "m_sync";
             spaced [Py.format_hex false 12 (timestamp em); text em;
                     Py.format_hex false 12 (timestamp om); text om]]%string)
    w.

Definition send_seen (aclist : list Z) (w : AdeptWriter) :=
  send_message [("type", "mlat_seen");
                ("hexids", spaced (map (Py.format_hex true 6) aclist))]%string w.

Definition send_lost (aclist : list Z) (w : AdeptWriter) :=
  send_message [("type", "mlat_lost");
                ("hexids", spaced (map (Py.format_hex true 6) aclist))]%string w.

Definition send_rate_report (report : list (Z * F)) (w : AdeptWriter) :=
  send_message
    [("type", "mlat_rates");
     ("rates",
      spaced (map (fun ir => spaced [Py.format_hex true 6 ir.1; format_2f ir.2])
                report))]%string w.

Definition send_ready (w : AdeptWriter) :=
  send_message [("type", "mlat_event"); ("event", "ready");
                ("mlat_client_version", CLIENT_VERSION)]%string w.

Definition send_input_connected (w : AdeptWriter) :=
  send_message [("type", "mlat_event"); ("event", "connected")]%string w.

Definition send_input_disconnected (w : AdeptWriter) :=
  send_message [("type", "mlat_event"); ("event", "disconnected")]%string w.

Definition send_clock_reset (w : AdeptWriter) :=
  send_message [("type", "mlat_event"); ("event", "clock_reset")]%string w.

Definition send_udp_report (count : Z) (w : AdeptWriter) :=
  send_message [("type", "mlat_udp_report");
                ("messages_sent", Py.str count)]%string w.

(** The calls that append to the buffer. *)
Inductive request : Type :=
| Message (kwargs : list (string * string))
| Mlat (m : message)
| Sync (em om : message)
| Seen (aclist : list Z)
| Lost (aclist : list Z)
| RateReport (report : list (Z * F))
| Ready
| InputConnected
| InputDisconnected
| ClockReset
| UdpReport (count : Z).

Definition send (q : request) (w : AdeptWriter) : outcome AdeptWriter :=
  match q with
  | Message kwargs => send_message kwargs w
  | Mlat m => send_mlat m w
  | Sync em om => send_sync em om w
  | Seen aclist => send_seen aclist w
  | Lost aclist => send_lost aclist w
  | RateReport report => send_rate_report report w
  | Ready => send_ready w
  | InputConnected => send_input_connected w
  | InputDisconnected => send_input_disconnected w
  | ClockReset => send_clock_reset w
  | UdpReport count => send_udp_report count w
  end.


(** The writer in use: requests and writes of the stream in any order.
    [taken] collects the bytes the stream took, which are those
    [handle_write] deletes from the front of the buffer. *)
Inductive step : Type :=
| Append (q : request)
| Write (r : write_result).

Definition do_step (st : step) (tw : list byte * AdeptWriter)
    : list byte * AdeptWriter :=
  match st with
  | Append q => (tw.1, final (send q tw.2))
  | Write (Wrote sent) =>
      (tw.1 ++ firstn sent (writebuf tw.2),
       final (handle_write (Wrote sent) tw.2))
  | Write Hangup => (tw.1, final (handle_write Hangup tw.2))
  | Write WriteFailed => (tw.1, final (handle_write WriteFailed tw.2))
  end.

Definition do_steps (sts : list step) (tw : list byte * AdeptWriter)
    : list byte * AdeptWriter :=
  fold_left (fun tw st => do_step st tw) sts tw.

(** The bytes a step adds to the buffer: the encoded line of a request
    that returns. *)
Definition line_bytes (st : step) : list byte :=
  match st with
  | Append q => writebuf (final (send q init))
  | Write _ => []
  end.

End Writer.

Arguments Message {F}.
Arguments Mlat {F}.
Arguments Sync {F}.
Arguments Seen {F}.
Arguments Lost {F}.
Arguments RateReport {F}.
Arguments Ready {F}.
Arguments InputConnected {F}.
Arguments InputDisconnected {F}.
Arguments ClockReset {F}.
Arguments UdpReport {F}.

End Writer.

(** ** The connection *)

Module Connection.

(** The two notifications the connection itself gives the coordinator. *)
Inductive notification : Type :=
| server_connected
| server_disconnected.

Section Connection.

(** Floats and [float(s)] as for the reader; the time of
    [util.monotonic_time()], with [after now t] for [now > t] and
    [later t] for [t + self.UDP_REPORT_INTERVAL]; [version.CLIENT_VERSION]. *)
Variable F : Type.
Variable float : string -> option F.
Variable T : Type.
Variable after : T -> T -> bool.
Variable later : T -> T.
Variable CLIENT_VERSION : string.

(** The attributes of the object; [started] tells whether [start] has set
    the attributes it creates ([send_mlat], [next_udp_report], ...);
    [notified] are the calls of [server_connected] and
    [server_disconnected] on the coordinator. *)
Record AdeptConnection : Type := mkConnection {
  reader : option (Reader.AdeptReader F);
  writer : option Writer.AdeptWriter;
  coordinator : bool;
  closed : bool;
  udp_transport : option Udp.UdpServerConnection;
  state : string;
  started : bool;
  next_udp_report : option T;
  notified : list notification
}.

Definition init (udp_transport : option Udp.UdpServerConnection)
    : AdeptConnection :=
  {| reader := None; writer := None; coordinator := false; closed := false;
     udp_transport := udp_transport; state := "init"; started := false;
     next_udp_report := None; notified := [] |}.

Definition set_reader (r : option (Reader.AdeptReader F)) (c : AdeptConnection) :=
  {| reader := r; writer := writer c; coordinator := coordinator c;
     closed := closed c; udp_transport := udp_transport c; state := state c;
     started := started c; next_udp_report := next_udp_report c;
     notified := notified c |}.

Definition set_writer (w : option Writer.AdeptWriter) (c : AdeptConnection) :=
  {| reader := reader c; writer := w; coordinator := coordinator c;
     closed := closed c; udp_transport := udp_transport c; state := state c;
     started := started c; next_udp_report := next_udp_report c;
     notified := notified c |}.

Definition set_udp (u : option Udp.UdpServerConnection) (c : AdeptConnection) :=
  {| reader := reader c; writer := writer c; coordinator := coordinator c;
     closed := closed c; udp_transport := u; state := state c;
     started := started c; next_udp_report := next_udp_report c;
     notified := notified c |}.

Definition set_state (st : string) (c : AdeptConnection) :=
  {| reader := reader c; writer := writer c; coordinator := coordinator c;
     closed := closed c; udp_transport := udp_transport c; state := st;
     started := started c; next_udp_report := next_udp_report c;
     notified := notified c |}.

Definition set_closed (c : AdeptConnection) :=
  {| reader := reader c; writer := writer c; coordinator := coordinator c;
     closed := true; udp_transport := udp_transport c; state := state c;
     started := started c; next_udp_report := next_udp_report c;
     notified := notified c |}.

Definition set_next (t : T) (c : AdeptConnection) :=
  {| reader := reader c; writer := writer c; coordinator := coordinator c;
     closed := closed c; udp_transport := udp_transport c; state := state c;
     started := started c; next_udp_report := Some t;
     notified := notified c |}.

Definition notify (n : notification) (c : AdeptConnection) :=
  {| reader := reader c; writer := writer c; coordinator := coordinator c;
     closed := closed c; udp_transport := udp_transport c; state := state c;
     started := started c; next_udp_report := next_udp_report c;
     notified := notified c ++ [n] |}.

Definition close_writer (w : Writer.AdeptWriter) : Writer.AdeptWriter :=
  Writer.close w.

(** [AdeptReader.close]: a reader that is not closed yet is marked closed
    and calls [k], the [disconnect] of its connection. *)
Definition reader_close_then (k : AdeptConnection -> option AdeptConnection)
    (c : AdeptConnection) : option AdeptConnection :=
  match reader c with
  | None => Some c
  | Some r =>
      if Reader.closed r then Some c
      else k (set_reader (Some (Reader.close r)) c)
  end.

(** [AdeptWriter.close], likewise. *)
Definition writer_close_then (k : AdeptConnection -> option AdeptConnection)
    (c : AdeptConnection) : option AdeptConnection :=
  match writer c with
  | None => Some c
  | Some w =>
      if Writer.closed w then Some c
      else k (set_writer (Some (close_writer w)) c)
  end.

(** [AdeptConnection.disconnect].  It closes the reader and the writer,
    whose [close] methods call [disconnect] in turn: [fuel] bounds the
    depth of these calls, and [None] is a call cut off by the bound. *)
Fixpoint disconnect (fuel : nat) (c : AdeptConnection)
    : option AdeptConnection :=
  match fuel with
  | O => None
  | S fuel' =>
      if closed c then Some c
      else
        let c := set_state "closed" (set_closed c) in
        match reader_close_then (disconnect fuel') c with
        | None => None
        | Some c =>
            match writer_close_then (disconnect fuel') c with
            | None => None
            | Some c =>
                let c := match udp_transport c with
                         | Some u => set_udp (Some (Udp.close u)) c
                         | None => c
                         end in
                Some (if coordinator c then notify server_disconnected c
                      else c)
            end
        end
  end.

(** The three ways a teardown begins: [connection.disconnect()], the
    reader's [close] (end of stream, [handle_close]) and the writer's. *)
Inductive teardown : Type := Disconnect | ReaderClose | WriterClose.

Definition tear (fuel : nat) (t : teardown) (c : AdeptConnection)
    : option AdeptConnection :=
  match t with
  | Disconnect => disconnect fuel c
  | ReaderClose => reader_close_then (disconnect fuel) c
  | WriterClose => writer_close_then (disconnect fuel) c
  end.

Fixpoint tear_all (fuel : nat) (ts : list teardown) (c : AdeptConnection)
    : option AdeptConnection :=
  match ts with
  | [] => Some c
  | t :: ts' =>
      match tear fuel t c with
      | Some c' => tear_all fuel ts' c'
      | None => None
      end
  end.

(** A method of the UDP transport, or of the writer, called by the
    connection. *)
Definition on_udp (f : Udp.UdpServerConnection -> outcome Udp.UdpServerConnection)
    (u : Udp.UdpServerConnection) (c : AdeptConnection)
    : outcome AdeptConnection :=
  match f u with
  | Return u' => Return (set_udp (Some u') c)
  | Raise e u' => Raise e (set_udp (Some u') c)
  end.

Definition on_writer (f : Writer.AdeptWriter -> outcome Writer.AdeptWriter)
    (c : AdeptConnection) : outcome AdeptConnection :=
  match writer c with
  | None => Raise AttributeError c
  | Some w =>
      match f w with
      | Return w' => Return (set_writer (Some w') c)
      | Raise e w' => Raise e (set_writer (Some w') c)
      end
  end.

(** [AdeptConnection.start] at time [now]; [r] is what the [start] of the
    UDP transport meets, if there is a transport.  An exception of that
    [start] leaves the connection with its new reader and writer and
    nothing else done. *)
Definition start (r : Udp.start_result) (now : T) (c : AdeptConnection)
    : outcome AdeptConnection :=
  let c :=
    {| reader := Some Reader.init; writer := Some Writer.init;
       coordinator := true; closed := closed c;
       udp_transport := udp_transport c; state := state c;
       started := started c; next_udp_report := next_udp_report c;
       notified := notified c |} in
  (match udp_transport c with
   | Some u => on_udp (Udp.start r) u c
   | None => Return c
   end) >>= fun c =>
  let c :=
    {| reader := reader c; writer := writer c;
       coordinator := coordinator c; closed := closed c;
       udp_transport := udp_transport c; state := "connected";
       started := true; next_udp_report := next_udp_report c;
       notified := notified c |} in
  match Writer.send_ready CLIENT_VERSION Writer.init with
  | Raise e w => Raise e (set_writer (Some w) c)
  | Return w =>
      Return (notify server_connected (set_next (later now)
                (set_writer (Some w) c)))
  end.

(** The methods [start] binds to [send_mlat] and [send_sync]: those of
    the UDP transport if there is one, else those of the writer.  Before
    [start] the attributes do not exist. *)
Definition send_mlat (m : message) (r : Udp.send_result)
    (c : AdeptConnection) : outcome AdeptConnection :=
  if started c then
    match udp_transport c with
    | Some u => on_udp (Udp.send_mlat m r) u c
    | None => on_writer (Writer.send_mlat m) c
    end
  else Raise AttributeError c.

Definition send_sync (em om : message) (r : Udp.send_result)
    (c : AdeptConnection) : outcome AdeptConnection :=
  if started c then
    match udp_transport c with
    | Some u => on_udp (Udp.send_sync em om r) u c
    | None => on_writer (Writer.send_sync em om) c
    end
  else Raise AttributeError c.

(** [AdeptConnection.heartbeat(now)]; [r] is the fate of the datagram the
    flush may send. *)
Definition heartbeat (now : T) (r : Udp.send_result) (c : AdeptConnection)
    : outcome AdeptConnection :=
  match udp_transport c with
  | None => Return c
  | Some u =>
      on_udp (Udp.flush r) u c >>= fun c =>
      match next_udp_report c with
      | None => Raise AttributeError c
      | Some t =>
          if after now t then
            let c := set_next (later now) c in
            match udp_transport c with
            | None => Return c
            | Some u => on_writer (Writer.send_udp_report (Udp.count u)) c
            end
          else Return c
      end
  end.

(** What the reader did to the connection during a [handle_read]: the
    events it added to its trace, applied in order. *)
Definition absorb (fuel : nat) (ev : Reader.event F) (c : AdeptConnection)
    : option AdeptConnection :=
  match ev with
  | Reader.set_state st => Some (set_state st c)
  | Reader.disconnect => disconnect fuel c
  | _ => Some c
  end.

Fixpoint absorb_all (fuel : nat) (evs : list (Reader.event F))
    (c : AdeptConnection) : option AdeptConnection :=
  match evs with
  | [] => Some c
  | ev :: evs' =>
      match absorb fuel ev c with
      | Some c' => absorb_all fuel evs' c'
      | None => None
      end
  end.

(** The reader's [handle_read] as it acts on the connection that owns
    the reader. *)
Definition handle_read (fuel : nat) (r : Reader.recv_result)
    (c : AdeptConnection) : option (outcome AdeptConnection) :=
  match reader c with
  | None => Some (Raise AttributeError c)
  | Some rd =>
      let o := Reader.handle_read F float r rd in
      let rd' := final o in
      match absorb_all fuel (skipn (length (Reader.trace rd)) (Reader.trace rd'))
              (set_reader (Some rd') c) with
      | None => None
      | Some c' =>
          Some (match o with
                | Return _ => Return c'
                | Raise e _ => Raise e c'
                end)
      end
  end.

(** The writer's [handle_write] as it acts on the connection: a stream
    that has hung up makes [send] close the writer, which disconnects the
    connection, before the rest of [handle_write] runs. *)
Definition handle_write (fuel : nat) (r : Writer.write_result)
    (c : AdeptConnection) : option (outcome AdeptConnection) :=
  match writer c with
  | None => Some (Raise AttributeError c)
  | Some w =>
      let hung :=
        match r with
        | Writer.Hangup => Writer.writable w && negb (Writer.closed w)
        | _ => false
        end in
      let o := Writer.handle_write r w in
      match (if hung then disconnect fuel (set_writer (Some (Writer.close w)) c)
             else Some c) with
      | None => None
      | Some c' =>
          let c' := set_writer (Some (final o)) c' in
          Some (match o with
                | Return _ => Return c'
                | Raise e _ => Raise e c'
                end)
      end
  end.

(** A connection in use: started, not closed, with a reader and a writer
    that are not closed either. *)
Definition live (c : AdeptConnection) : Prop :=
  closed c = false /\ coordinator c = true /\
  (exists r, reader c = Some r /\ Reader.closed r = false) /\
  (exists w, writer c = Some w /\ Writer.closed w = false).

(** The writer after udp reports with the given counts. *)
Definition reported (counts : list Z) (w : Writer.AdeptWriter)
    : Writer.AdeptWriter :=
  fold_left (fun w n => final (Writer.send_udp_report n w)) counts w.

(** The connection after a teardown. *)
Definition torn (c : AdeptConnection) : AdeptConnection :=
  {| reader := option_map Reader.close (reader c);
     writer := option_map close_writer (writer c);
     coordinator := coordinator c; closed := true;
     udp_transport := option_map Udp.close (udp_transport c);
     state := "closed"; started := started c;
     next_udp_report := next_udp_report c;
     notified := notified c ++ [server_disconnected] |}.

(** A started connection with a UDP transport of key [k] that has its
    socket and whose counters agree with what it sent, and a writer that,
    since it was [w0], was given udp reports only. *)
Definition serving (k : Z) (w0 : Writer.AdeptWriter) (c : AdeptConnection)
    : Prop :=
  started c = true /\
  (exists u, udp_transport c = Some u /\ UdpOps.accounted k u /\
             Udp.sock u <> None) /\
  (exists counts, writer c = Some (reported counts w0)) /\
  (exists t, next_udp_report c = Some t).

(** The state the trace of the reader leaves in [connection.state]: that
    of the last assignment, if there is one. *)
Definition assigned (evs : list (Reader.event F)) (st : string) : string :=
  fold_left (fun st ev => match ev with
                          | Reader.set_state st' => st'
                          | _ => st
                          end) evs st.

(** The calls the coordinator makes on a started connection to send data,
    and a coordinator that goes on after a call that raised. *)
Inductive call : Type :=
| CallMlat (m : message) (r : Udp.send_result)
| CallSync (em om : message) (r : Udp.send_result)
| CallHeartbeat (now : T) (r : Udp.send_result).

Definition perform (k : call) (c : AdeptConnection)
    : outcome AdeptConnection :=
  match k with
  | CallMlat m r => send_mlat m r c
  | CallSync em om r => send_sync em om r c
  | CallHeartbeat now r => heartbeat now r c
  end.

Fixpoint play (ks : list call) (c : AdeptConnection) : AdeptConnection :=
  match ks with
  | [] => c
  | k :: ks' => play ks' (final (perform k c))
  end.

End Connection.

Arguments reader {F T}.
Arguments writer {F T}.
Arguments coordinator {F T}.
Arguments closed {F T}.
Arguments udp_transport {F T}.
Arguments state {F T}.
Arguments started {F T}.
Arguments next_udp_report {F T}.
Arguments notified {F T}.
Arguments init {F T}.
Arguments disconnect {F T}.
Arguments tear {F T}.
Arguments tear_all {F T}.
Arguments send_mlat {F T}.
Arguments send_sync {F T}.
Arguments live {F T}.
Arguments torn {F T}.
Arguments serving {F T}.
Arguments assigned {F}.
Arguments CallMlat {T}.
Arguments CallSync {T}.
Arguments CallHeartbeat {T}.

End Connection.

(** ** Sample inputs *)

Module Sample.

(** A DF11 all-call reply and two DF17 extended squitters of aircraft
    ABCDEF. *)
Definition short_message (t : Z) : message :=
  {| address := 0xABCDEF; timestamp := t;
     payload := [0x5D; 0xAB; 0xCD; 0xEF; 0x01; 0x02; 0x03];
     df := 11; text := "5dabcdef010203" |}.

Definition long_message (t : Z) (fill : Z) : message :=
  {| address := 0xABCDEF; timestamp := t;
     payload := [0x8D; 0xAB; 0xCD; 0xEF] ++ repeat fill 10;
     df := 17; text := "8dabcdef" |}.

(** A started connection holding one short message stamped 1000. *)
Definition one_pending : Udp.UdpServerConnection :=
  final (Udp.send_mlat (short_message 1000) Udp.Sent
           (final (Udp.start Udp.Started (Udp.init 7)))).

(** The lines of the two [mlat_wanted] records of the specification. *)
Definition wanted_line : string :=
  String.concat Py.tab ["type"; "mlat_wanted"; "hexids"; "ABCDEF 123456"]%string.

Definition wanted_nothing_line : string :=
  String.concat Py.tab ["type"; "mlat_wanted"; "hexids"; ""]%string.



(** A runtime without floats, for records that carry none. *)
Definition no_float (s : string) : option Empty_set := None.

(** A message whose payload is neither 7 nor 14 bytes long. *)
Definition odd_message (t : Z) : message :=
  {| address := 0x4840D6; timestamp := t; payload := [1; 2; 3];
     df := 0; text := "010203" |}.

(** A message whose address does not fit 24 bits. *)
Definition wide_address_message : message :=
  {| address := 0x1ABCDEF; timestamp := 1500;
     payload := [0x5D; 0xAB; 0xCD; 0xEF; 0x01; 0x02; 0x03];
     df := 11; text := "5dabcdef010203" |}.

(** A clock that counts seconds. *)
Definition clock_after (now t : Z) : bool := t <? now.
Definition clock_later (t : Z) : Z := t + 60.

(** A connection of client 0.2.13 started at time 0. *)
Definition started_connection (udp : option Udp.UdpServerConnection)
    : Connection.AdeptConnection Empty_set Z :=
  final (Connection.start Empty_set Z clock_later "0.2.13" Udp.Started 0
           (Connection.init udp)).

End Sample.

(** * Properties *)

(** ** Outcomes *)

Lemma ensures_bind {S : Type} (o : outcome S) (k : S -> outcome S)
    (Q' Q : S -> Prop) (E : exn -> S -> Prop) :
  ensures o Q' E -> (forall s, Q' s -> ensures (k s) Q E) ->
  ensures (o >>= k) Q E.
Proof. destruct o as [s|e s]; simpl; auto. Qed.

Lemma ensures_weaken {S : Type} (o : outcome S) (Q Q' : S -> Prop)
    (E E' : exn -> S -> Prop) :
  ensures o Q E -> (forall s, Q s -> Q' s) -> (forall e s, E e s -> E' e s) ->
  ensures o Q' E'.
Proof. destruct o as [s|e s]; simpl; auto. Qed.

Lemma ensures_final {S : Type} (o : outcome S) (P : S -> Prop) :
  ensures o P (fun _ => P) <-> P (final o).
Proof. destruct o; simpl; tauto. Qed.

(** ** Byte strings and buffers *)

Section Buffers.

Import Struct.

Lemma write_at_length (b : list Z) (off : nat) (d : list Z) :
  (off + length d <= length b)%nat -> length (write_at b off d) = length b.
Proof.
  intros H. unfold write_at.
  rewrite !length_app, length_take, length_drop. lia.
Qed.

Lemma write_at_lookup (b : list Z) (off : nat) (d : list Z) (i : nat) :
  (off + length d <= length b)%nat ->
  write_at b off d !! i =
    if decide (i < off)%nat then b !! i
    else if decide (i < off + length d)%nat then d !! (i - off)%nat
    else b !! i.
Proof.
  intros H. unfold write_at.
  assert (Hl : length (take off b) = off) by (rewrite length_take; lia).
  destruct (decide (i < off)%nat).
  - rewrite lookup_app_l by lia. apply lookup_take_lt. lia.
  - rewrite lookup_app_r by lia. rewrite Hl.
    destruct (decide (i < off + length d)%nat).
    + rewrite lookup_app_l by lia. reflexivity.
    + rewrite lookup_app_r by lia. rewrite lookup_drop. f_equal. lia.
Qed.

Lemma write_at_again (b : list Z) (off : nat) (d1 d2 : list Z) :
  length d1 = length d2 -> (off + length d1 <= length b)%nat ->
  write_at (write_at b off d1) off d2 = write_at b off d2.
Proof.
  intros Hl H. apply list_eq. intros i.
  rewrite !write_at_lookup; rewrite ?write_at_length; try lia.
  repeat case_decide; try lia; reflexivity.
Qed.

Lemma write_at_app (b : list Z) (off : nat) (d1 d2 : list Z) :
  (off + length d1 + length d2 <= length b)%nat ->
  write_at (write_at b off d1) (off + length d1) d2 = write_at b off (d1 ++ d2).
Proof.
  intros H. apply list_eq. intros i.
  rewrite !write_at_lookup; rewrite ?write_at_length, ?length_app; try lia.
  repeat case_decide; try lia; try reflexivity.
  - rewrite lookup_app_l by lia. reflexivity.
  - rewrite lookup_app_r by lia. f_equal. lia.
Qed.

Lemma slice_lookup (b : list Z) (off n i : nat) :
  slice b off n !! i = if decide (i < n)%nat then b !! (off + i)%nat else None.
Proof.
  unfold slice. case_decide.
  - rewrite lookup_take_lt by lia. apply lookup_drop.
  - apply lookup_take_ge. lia.
Qed.

Lemma slice_write_at (b : list Z) (off : nat) (d : list Z) :
  (off + length d <= length b)%nat -> slice (write_at b off d) off (length d) = d.
Proof.
  intros H. apply list_eq. intros i.
  rewrite slice_lookup, write_at_lookup by lia.
  repeat case_decide; try lia.
  - f_equal. lia.
  - symmetry. apply lookup_ge_None. lia.
Qed.

Lemma slice_write_at_n (b : list Z) (off n : nat) (d : list Z) :
  length d = n -> (off + n <= length b)%nat ->
  slice (write_at b off d) off n = d.
Proof. intros <- H. apply slice_write_at. exact H. Qed.

Lemma slice_write_at_other (b : list Z) (off' : nat) (d : list Z) (off n : nat) :
  (off' + length d <= length b)%nat ->
  (off + n <= off' \/ off' + length d <= off)%nat ->
  slice (write_at b off' d) off n = slice b off n.
Proof.
  intros H Hd. apply list_eq. intros i.
  rewrite !slice_lookup, write_at_lookup by lia.
  repeat case_decide; try lia; reflexivity.
Qed.

Lemma pack_field_length (f : fmt) (a : arg) (d : list Z) :
  pack_field f a = Some d -> length d = fmt_size f.
Proof.
  destruct f, a; simpl; try discriminate;
    try (destruct (in_range _ _ _); [|discriminate]);
    intros [= <-]; try reflexivity.
  unfold fit. rewrite length_take, length_app, repeat_length. lia.
Qed.

Lemma pack_length (fs : list fmt) (args : list arg) (d : list Z) :
  pack fs args = Some d -> length d = size fs /\ length args = length fs.
Proof.
  revert args d. induction fs as [|f fs IH]; intros [|a args] d; simpl;
    try discriminate.
  - intros [= <-]. split; reflexivity.
  - destruct (pack_field f a) as [d1|] eqn:E1; [|discriminate].
    destruct (pack fs args) as [d2|] eqn:E2; [|discriminate].
    intros [= <-]. apply pack_field_length in E1.
    destruct (IH _ _ E2) as [H1 H2].
    rewrite length_app. split; lia.
Qed.

Lemma pack_fields_packed (fs : list fmt) (args : list arg) (d b : list Z) (off : nat) :
  pack fs args = Some d -> (off + size fs <= length b)%nat ->
  pack_fields fs args b off = Packed (write_at b off d).
Proof.
  revert args d b off.
  induction fs as [|f fs IH]; intros [|a args] d b off; simpl; try discriminate.
  - intros [= <-] _. f_equal. unfold write_at. simpl.
    rewrite Nat.add_0_r. symmetry. apply take_drop.
  - destruct (pack_field f a) as [d1|] eqn:E1; [|discriminate].
    destruct (pack fs args) as [d2|] eqn:E2; [|discriminate].
    intros [= <-] Hroom.
    pose proof (pack_field_length _ _ _ E1) as L1.
    destruct (pack_length _ _ _ E2) as [L2 _].
    rewrite (IH args d2) by (rewrite ?write_at_length; auto; lia).
    f_equal. apply write_at_app. lia.
Qed.

(** When every value fits and there is room, [pack_into] stores exactly
    the bytes of [pack] at the offset. *)
Lemma pack_into_packed (fs : list fmt) (args : list arg) (d b : list Z) (off : nat) :
  pack fs args = Some d -> (off + size fs <= length b)%nat ->
  pack_into fs b off args = Packed (write_at b off d).
Proof.
  intros Hp Hroom. unfold pack_into.
  destruct (pack_length _ _ _ Hp) as [Hd ->].
  rewrite Nat.eqb_refl. simpl.
  destruct (Nat.ltb_spec (length b) (off + size fs)); [lia|].
  assert (Hz : length (write_at b off (repeat 0 (size fs))) = length b)
    by (apply write_at_length; rewrite repeat_length; lia).
  rewrite (pack_fields_packed _ _ d) by (auto; lia).
  f_equal. apply write_at_again; rewrite repeat_length; lia.
Qed.

Lemma pack_fields_buffer_length (fs : list fmt) (args : list arg) (b : list Z) (off : nat) :
  (off + size fs <= length b)%nat ->
  match pack_fields fs args b off with
  | Packed b' | Failed _ b' => length b' = length b
  end.
Proof.
  revert args b off.
  induction fs as [|f fs IH]; intros [|a args] b off Hroom; simpl in *;
    try reflexivity.
  destruct (pack_field f a) as [d1|] eqn:E1; [|reflexivity].
  pose proof (pack_field_length _ _ _ E1) as L1.
  specialize (IH args (write_at b off d1) (off + length d1)%nat).
  rewrite write_at_length in IH by lia.
  apply IH. lia.
Qed.

Lemma pack_fields_room (fs : list fmt) (args : list arg) (b : list Z) (off : nat) :
  match pack_fields fs args b off with
  | Failed NoRoom _ => False
  | _ => True
  end.
Proof.
  revert args b off.
  induction fs as [|f fs IH]; intros [|a args] b off; simpl; auto.
  destruct (pack_field f a); [apply IH|exact I].
Qed.

(** [pack_into] never changes the size of the buffer; it succeeds only
    when the struct fits at the offset, and reports [NoRoom] exactly when
    it does not, before writing anything. *)
Lemma pack_into_cases (fs : list fmt) (args : list arg) (b : list Z) (off : nat) :
  match pack_into fs b off args with
  | Packed b' => length b' = length b /\ (off + size fs <= length b)%nat
  | Failed NoRoom b' => b' = b /\ (length b < off + size fs)%nat
  | Failed BadValue b' => length b' = length b
  end.
Proof.
  unfold pack_into.
  destruct (length fs =? length args)%nat; simpl; [|reflexivity].
  destruct (Nat.ltb_spec (length b) (off + size fs)); [split; [reflexivity|lia]|].
  assert (Hz : length (write_at b off (repeat 0 (size fs))) = length b)
    by (apply write_at_length; rewrite repeat_length; lia).
  pose proof (pack_fields_buffer_length fs args _ off ltac:(rewrite Hz; exact H))
    as Hl.
  pose proof (pack_fields_room fs args (write_at b off (repeat 0 (size fs))) off)
    as Hr.
  rewrite Hz in Hl.
  destruct (pack_fields fs args _ off) as [b'|[] b']; tauto.
Qed.

(** Big-endian fields read back as the value modulo the field width. *)
Lemma be_value_be_bytes_acc (n : nat) (v acc : Z) :
  fold_left (fun a b => a * 256 + b) (be_bytes n v) acc =
    acc * 2 ^ (8 * Z.of_nat n) + v mod 2 ^ (8 * Z.of_nat n).
Proof.
  revert acc. induction n as [|k IH]; intros acc.
  - simpl. rewrite Z.mod_1_r. lia.
  - cbn [be_bytes fold_left]. rewrite IH.
    change 255 with (Z.ones 8). rewrite Z.land_ones by lia.
    rewrite Z.shiftr_div_pow2 by lia.
    replace (8 * Z.of_nat (S k)) with (8 * Z.of_nat k + 8) by lia.
    rewrite Z.pow_add_r by lia.
    rewrite (Z.rem_mul_r v (2 ^ (8 * Z.of_nat k)) (2 ^ 8)) by lia.
    change (2 ^ 8) with 256. lia.
Qed.

Lemma be_value_be_bytes (n : nat) (v : Z) :
  be_value (be_bytes n v) = v mod 2 ^ (8 * Z.of_nat n).
Proof. unfold be_value. rewrite be_value_be_bytes_acc. lia. Qed.

Lemma be_bytes_length (n : nat) (v : Z) : length (be_bytes n v) = n.
Proof. induction n; simpl; congruence. Qed.

(** An unsigned 64-bit field round-trips exactly. *)
Lemma be64_roundtrip (v : Z) :
  0 <= v < 2 ^ 64 -> be_value (be_bytes 8 v) = v.
Proof.
  intros H. rewrite be_value_be_bytes. change (8 * Z.of_nat 8) with 64.
  apply Z.mod_small. exact H.
Qed.

(** A signed 32-bit field round-trips exactly. *)
Lemma be_signed32_roundtrip (v : Z) :
  - 2 ^ 31 <= v < 2 ^ 31 -> be_signed32 (be_bytes 4 v) = v.
Proof.
  intros H. unfold be_signed32. rewrite be_value_be_bytes.
  change (8 * Z.of_nat 4) with 32.
  destruct (Z.ltb_spec (v mod 2 ^ 32) (2 ^ 31)) as [Hlt|Hge].
  - destruct (Z.neg_nonneg_cases v) as [Hn|Hp].
    + exfalso. rewrite <- (Z.mod_add v 1 (2 ^ 32)) in Hlt by lia.
      rewrite Z.mod_small in Hlt; lia.
    + apply Z.mod_small. lia.
  - destruct (Z.neg_nonneg_cases v) as [Hn|Hp].
    + rewrite <- (Z.mod_add v 1 (2 ^ 32)) by lia.
      rewrite Z.mod_small; lia.
    + exfalso. rewrite Z.mod_small in Hge; lia.
Qed.

End Buffers.

(** ** The UDP datagram batcher *)

Module UdpFacts.

Import Struct Udp.

Lemma in_range_true (lo hi z : Z) : lo <= z <= hi -> in_range lo hi z = true.
Proof. intros H. unfold in_range. apply andb_true_intro. split; lia. Qed.

Lemma be_bytes_1 (z : Z) : 0 <= z <= 255 -> be_bytes 1 z = [z].
Proof.
  intros H. simpl. rewrite Z.shiftr_0_r.
  change 255 with (Z.ones 8). rewrite Z.land_ones by lia.
  rewrite Z.mod_small by (simpl; lia). reflexivity.
Qed.

Lemma pack_B (z : Z) : 0 <= z <= 255 -> pack_field fmt_B (Int z) = Some [z].
Proof.
  intros H. cbn [pack_field].
  rewrite in_range_true, be_bytes_1 by lia. reflexivity.
Qed.

Lemma fit_length (n : nat) (p : list Z) : length (fit n p) = n.
Proof. unfold fit. rewrite length_take, length_app, repeat_length. lia. Qed.

Lemma fit_exact (n : nat) (p : list Z) : length p = n -> fit n p = p.
Proof. intros <-. unfold fit. apply take_app_length. Qed.

Lemma pack_s (n : nat) (p : list Z) :
  length p = n -> pack_field (fmt_s n) (Bytes p) = Some p.
Proof. intros H. cbn [pack_field]. rewrite fit_exact by assumption. reflexivity. Qed.

Lemma address_high (a : Z) : 0 <= a < 2 ^ 24 -> 0 <= Z.shiftr a 16 <= 255.
Proof.
  intros H. rewrite Z.shiftr_div_pow2 by lia. split.
  - apply Z.div_pos; lia.
  - assert (a / 2 ^ 16 < 256); [|lia].
    apply Z.div_lt_upper_bound; lia.
Qed.

Lemma land_255 (a : Z) : 0 <= Z.land a 255 <= 255.
Proof.
  change 255 with (Z.ones 8) at 1 2. rewrite Z.land_ones by lia.
  pose proof (Z.mod_pos_bound a (2 ^ 8)). lia.
Qed.

(** A tagged submessage with a valid address: tag, address, then [rest]. *)
Lemma pack_tagged (tag a : Z) (fs : list fmt) (rest : list arg) (d : list Z) :
  0 <= tag <= 255 -> 0 <= a < 2 ^ 24 -> pack fs rest = Some d ->
  pack (fmt_B :: fmt_B :: fmt_B :: fmt_B :: fs)
       (Int tag :: address_args a ++ rest) = Some (tag :: address_bytes a ++ d).
Proof.
  intros Ht Ha Hd. unfold address_args, address_bytes.
  cbn [app pack]. rewrite !pack_B, Hd; auto using land_255, address_high.
Qed.

Lemma pack_rebase (t : Z) :
  0 <= t < 2 ^ 64 ->
  pack STRUCT_REBASE [Int TYPE_REBASE; Int t] = Some (TYPE_REBASE :: be_bytes 8 t).
Proof.
  intros H. unfold STRUCT_REBASE. cbn [pack].
  rewrite pack_B by (unfold TYPE_REBASE; lia).
  cbn [pack_field]. rewrite in_range_true by lia.
  rewrite app_nil_r. reflexivity.
Qed.

Lemma pack_header (k q t : Z) :
  0 <= k < 2 ^ 32 -> 0 <= q < 2 ^ 16 -> 0 <= t < 2 ^ 64 ->
  pack STRUCT_HEADER [Int k; Int q; Int t] =
    Some (be_bytes 4 k ++ be_bytes 2 q ++ be_bytes 8 t).
Proof.
  intros Hk Hq Ht. unfold STRUCT_HEADER. cbn [pack pack_field].
  rewrite !in_range_true by lia. rewrite app_nil_r. reflexivity.
Qed.

Lemma pack_mlat (tag a delta : Z) (n : nat) (p : list Z) :
  0 <= tag <= 255 -> 0 <= a < 2 ^ 24 -> - 2 ^ 31 <= delta < 2 ^ 31 ->
  length p = n ->
  pack [fmt_B; fmt_B; fmt_B; fmt_B; fmt_i; fmt_s n]
       (Int tag :: address_args a ++ [Int delta; Bytes p]) =
    Some (tag :: address_bytes a ++ be_bytes 4 delta ++ p).
Proof.
  intros Ht Ha Hd Hp. apply pack_tagged; auto.
  cbn [pack]. rewrite pack_s by assumption.
  cbn [pack_field]. rewrite in_range_true by lia.
  rewrite app_nil_r. reflexivity.
Qed.

Lemma pack_sync_bytes (a ed od : Z) (pe po : list Z) :
  0 <= a < 2 ^ 24 -> - 2 ^ 31 <= ed < 2 ^ 31 -> - 2 ^ 31 <= od < 2 ^ 31 ->
  pack STRUCT_SYNC
       (Int TYPE_SYNC :: address_args a ++ [Int ed; Int od; Bytes pe; Bytes po]) =
    Some (TYPE_SYNC :: address_bytes a
            ++ be_bytes 4 ed ++ be_bytes 4 od ++ fit 14 pe ++ fit 14 po).
Proof.
  intros Ha He Ho. apply pack_tagged; auto; [unfold TYPE_SYNC; lia|].
  cbn [pack pack_field]. rewrite !in_range_true by lia.
  rewrite app_nil_r. reflexivity.
Qed.

Lemma pack_abs_sync_bytes (a te to : Z) (pe po : list Z) :
  0 <= a < 2 ^ 24 -> 0 <= te < 2 ^ 64 -> 0 <= to < 2 ^ 64 ->
  pack STRUCT_ABS_SYNC
       (Int TYPE_ABS_SYNC :: address_args a ++ [Int te; Int to; Bytes pe; Bytes po]) =
    Some (TYPE_ABS_SYNC :: address_bytes a
            ++ be_bytes 8 te ++ be_bytes 8 to ++ fit 14 pe ++ fit 14 po).
Proof.
  intros Ha He Ho. apply pack_tagged; auto; [unfold TYPE_ABS_SYNC; lia|].
  cbn [pack pack_field]. rewrite !in_range_true by lia.
  rewrite app_nil_r. reflexivity.
Qed.

(** [pack_and_advance] when the values fit and there is room. *)
Lemma pack_and_advance_return (fs : list fmt) (off : nat) (args : list arg)
    (d : list Z) (s : UdpServerConnection) :
  pack fs args = Some d -> (off + size fs <= length (buf s))%nat ->
  pack_and_advance fs off args s =
    Return (set_used (used s + size fs) (set_buf (write_at (buf s) off d) s)).
Proof.
  intros Hp Hroom. unfold pack_and_advance.
  rewrite (pack_into_packed _ _ _ _ _ Hp Hroom). reflexivity.
Qed.

Lemma flush_if_full_return (r : send_result) (s : UdpServerConnection) :
  sock s <> None ->
  exists s', flush_if_full r s = Return s' /\ buf s' = buf s.
Proof.
  intros Hs. unfold flush_if_full, flush.
  destruct (1400 <? used s)%nat; [|eauto].
  destruct (used s =? 0)%nat; [eauto|].
  destruct (sock s); [|congruence]. eauto.
Qed.

(** C4. Appending a message to a non-empty batch whose base [b] is
    further than 0x7FFFFFF0 from the message's timestamp writes a REBASE
    submessage carrying the message's timestamp, directly followed by the
    MLAT submessage with an encoded delta of 0; within 0x7FFFFFF0 of the
    base no REBASE is written and the delta is [timestamp - b].  A 7-byte
    payload gets the MLAT_SHORT tag and layout, a 14-byte one MLAT_LONG. *)
Theorem send_mlat_rebase (m : message) (r : send_result)
    (s : UdpServerConnection) (b : Z) :
  valid_message m ->
  (0 < used s <= 1400)%nat -> length (buf s) = 1500%nat -> sock s <> None ->
  base_timestamp s = Some b ->
  let far := 0x7FFFFFF0 <? Z.abs (timestamp m - b) in
  let at_ := (if far then used s + 9 else used s)%nat in
  exists s',
    send_mlat m r s = Return s' /\
    (if far then
       slice (buf s') (used s) 9 = TYPE_REBASE :: be_bytes 8 (timestamp m) /\
       be_value (be_bytes 8 (timestamp m)) = timestamp m
     else True) /\
    slice (buf s') at_ (8 + length (payload m)) =
      mlat_tag m :: address_bytes (address m)
        ++ be_bytes 4 (if far then 0 else timestamp m - b) ++ payload m /\
    be_signed32 (be_bytes 4 (if far then 0 else timestamp m - b)) =
      (if far then 0 else timestamp m - b) /\
    (length (payload m) = 7%nat -> mlat_tag m = TYPE_MLAT_SHORT) /\
    (length (payload m) = 14%nat -> mlat_tag m = TYPE_MLAT_LONG).
Proof.
  intros [Ha Ht Hl Hp] Hu Hb Hs Hbase far at_.
  unfold send_mlat.
  destruct (Nat.eqb_spec (used s) 0) as [?|_]; [lia|].
  cbn [bind]. rewrite Hbase. fold far.
  set (delta := if far then 0 else timestamp m - b).
  assert (Hdelta : - 2 ^ 31 <= delta < 2 ^ 31).
  { subst delta far. destruct (Z.ltb_spec 0x7FFFFFF0 (Z.abs (timestamp m - b))); lia. }
  (* the state after the optional rebase *)
  set (s1 := if far
             then set_used (used s + 9)
                    (set_buf (write_at (buf s) (used s)
                                (TYPE_REBASE :: be_bytes 8 (timestamp m)))
                       (set_base (Some (timestamp m)) s))
             else s).
  assert (H1 : (if far then rebase (timestamp m) s else Return s) = Return s1).
  { subst s1. destruct far; [|reflexivity]. unfold rebase.
    rewrite (pack_and_advance_return _ _ _ _ _ (pack_rebase _ Ht))
      by (simpl; lia).
    reflexivity. }
  rewrite H1. cbn [bind].
  assert (Hu1 : used s1 = at_) by (subst s1 at_; destruct far; reflexivity).
  assert (Hb1 : length (buf s1) = 1500%nat).
  { subst s1. destruct far; [|assumption]. cbn [buf set_used set_buf set_base].
    rewrite write_at_length; [assumption|].
    cbn [length]. rewrite be_bytes_length. lia. }
  assert (Hs1 : sock s1 = sock s) by (subst s1; destruct far; reflexivity).
  assert (Hat : (at_ <= 1409)%nat) by (subst at_; destruct far; lia).
  set (d := mlat_tag m :: address_bytes (address m) ++ be_bytes 4 delta ++ payload m).
  assert (Hd : length d = (8 + length (payload m))%nat).
  { subst d. unfold address_bytes. cbn [length app].
    rewrite length_app, be_bytes_length. lia. }
  assert (H2 : exists s2,
    (if (length (payload m) =? 7)%nat then
       pack_and_advance STRUCT_MLAT_SHORT (used s1)
         (Int TYPE_MLAT_SHORT :: address_args (address m)
            ++ [Int delta; Bytes (payload m)]) s1
     else
       pack_and_advance STRUCT_MLAT_LONG (used s1)
         (Int TYPE_MLAT_LONG :: address_args (address m)
            ++ [Int delta; Bytes (payload m)]) s1) = Return s2 /\
    buf s2 = write_at (buf s1) at_ d /\ sock s2 = sock s).
  { subst d. unfold mlat_tag. rewrite Hu1.
    destruct (Nat.eqb_spec (length (payload m)) 7) as [E|E].
    - eexists. rewrite (pack_and_advance_return _ _ _ _ _
        (pack_mlat TYPE_MLAT_SHORT _ _ 7 _ ltac:(unfold TYPE_MLAT_SHORT; lia) Ha Hdelta E))
        by (rewrite Hb1; simpl; lia).
      split; [reflexivity|]. split; [reflexivity|exact Hs1].
    - assert (E' : length (payload m) = 14%nat) by (destruct Hl; congruence).
      eexists. rewrite (pack_and_advance_return _ _ _ _ _
        (pack_mlat TYPE_MLAT_LONG _ _ 14 _ ltac:(unfold TYPE_MLAT_LONG; lia) Ha Hdelta E'))
        by (rewrite Hb1; simpl; lia).
      split; [reflexivity|]. split; [reflexivity|exact Hs1]. }
  destruct H2 as (s2 & -> & Hbuf2 & Hs2). cbn [bind].
  destruct (flush_if_full_return r s2) as (s' & -> & Hbuf'); [congruence|].
  exists s'. split; [reflexivity|].
  rewrite Hbuf', Hbuf2.
  assert (Hfit : (at_ + length d <= length (buf s1))%nat).
  { rewrite Hb1, Hd. destruct Hl as [-> | ->]; lia. }
  split; [|split; [|split; [|split]]].
  - subst s1 at_. destruct far; [|exact I]. split; [|apply be64_roundtrip; exact Ht].
    rewrite slice_write_at_other by (auto; lia). cbn [buf set_used set_buf].
    apply slice_write_at_n; cbn [length]; rewrite ?be_bytes_length;
      cbn [buf set_base]; lia.
  - rewrite <- Hd. apply slice_write_at. exact Hfit.
  - apply be_signed32_roundtrip. exact Hdelta.
  - intros E. unfold mlat_tag. rewrite E. reflexivity.
  - intros E. unfold mlat_tag. rewrite E. reflexivity.
Qed.

(** *** Occupancy *)

Lemma pack_and_advance_spec (fs : list fmt) (off : nat) (args : list arg)
    (s : UdpServerConnection) :
  ensures (pack_and_advance fs off args s)
    (fun s' => advanced s (size fs) s' /\ (off + size fs <= length (buf s))%nat)
    (fun e s' => advanced s 0 s' /\
                 pack_failure (off + size fs <= length (buf s))%nat e).
Proof.
  unfold pack_and_advance, advanced, pack_failure.
  pose proof (pack_into_cases fs args (buf s) off) as H.
  destruct (pack_into fs (buf s) off args) as [b'|[] b']; cbn.
  - intuition.
  - destruct H as [-> H]. repeat split; try lia. eexists. split; [reflexivity|lia].
  - repeat split; try lia. eexists. split; reflexivity.
Qed.

Lemma prepare_header_spec (t : Z) (s : UdpServerConnection) :
  ensures (prepare_header t s)
    (fun s' => used s' = (used s + 14)%nat /\ length (buf s') = length (buf s) /\
               base_timestamp s' = Some t)
    (fun e s' => used s' = used s /\ length (buf s') = length (buf s) /\
                 pack_failure (14 <= length (buf s))%nat e).
Proof.
  unfold prepare_header.
  eapply ensures_weaken; [apply pack_and_advance_spec|..]; cbn;
    unfold advanced; cbn; intuition (try lia).
Qed.

Lemma rebase_spec (t : Z) (s : UdpServerConnection) :
  ensures (rebase t s)
    (fun s' => used s' = (used s + 9)%nat /\ length (buf s') = length (buf s) /\
               base_timestamp s' = Some t /\
               (used s + 9 <= length (buf s))%nat)
    (fun e s' => used s' = used s /\ length (buf s') = length (buf s) /\
                 pack_failure (used s + 9 <= length (buf s))%nat e).
Proof.
  unfold rebase.
  eapply ensures_weaken; [apply pack_and_advance_spec|..]; cbn;
    unfold advanced; cbn; intuition (try lia).
Qed.

Lemma flush_spec_any (r : send_result) (s : UdpServerConnection) :
  ensures (flush r s)
    (fun s' => used s' = 0%nat /\ length (buf s') = length (buf s) /\
               (used s <> 0%nat -> base_timestamp s' = None) /\
               (used s = 0%nat -> s' = s))
    (fun e s' => s' = s /\ e = AttributeError).
Proof.
  unfold flush. destruct (Nat.eqb_spec (used s) 0) as [E|E]; cbn.
  - intuition.
  - destruct (sock s); cbn; intuition.
Qed.

Lemma flush_if_full_spec (r : send_result) (s : UdpServerConnection) :
  ensures (flush_if_full r s)
    (fun s' => (used s' <= 1400)%nat /\ length (buf s') = length (buf s) /\
               (s' = s \/ used s' = 0%nat /\ base_timestamp s' = None))
    (fun e s' => s' = s /\ e = AttributeError).
Proof.
  unfold flush_if_full. destruct (Nat.ltb_spec 1400 (used s)) as [E|E].
  - eapply ensures_weaken; [apply flush_spec_any|..]; cbn; [|tauto].
    intros s' (H1 & H2 & H3 & H4). split; [lia|]. split; [exact H2|].
    right. split; [exact H1|]. apply H3. lia.
  - cbn. auto.
Qed.

Ltac pack_step :=
  eapply ensures_weaken; [apply pack_and_advance_spec|..];
  unfold advanced, pack_failure; cbn [size fmt_size STRUCT_MLAT_SHORT
    STRUCT_MLAT_LONG STRUCT_SYNC STRUCT_ABS_SYNC Nat.add].

Lemma send_mlat_spec (m : message) (r : send_result) (s : UdpServerConnection) :
  length (buf s) = 1500%nat -> (used s <= 1500)%nat ->
  ensures (send_mlat m r s)
    (fun s' => append_returns s' /\ batch_invariant s')
    (append_raises s).
Proof.
  intros Hlen Hused. unfold send_mlat, append_returns, append_raises.
  eapply ensures_bind with
    (Q' := fun s1 => length (buf s1) = 1500%nat /\ (used s1 <= 1500)%nat /\
                     ((used s <= 1400)%nat -> (used s1 <= 1400)%nat)).
  { destruct (Nat.eqb_spec (used s) 0) as [E|E]; [|cbn; auto].
    eapply ensures_weaken; [apply prepare_header_spec|..]; cbn.
    - intros s' (H1 & H2 & H3). lia.
    - intros e s' (H1 & H2 & why & -> & Hw). repeat split; try lia.
      intros _. rewrite Hw by lia; discriminate. }
  intros s1 (L1 & U1 & V1).
  destruct (base_timestamp s1) as [b|] eqn:Hb;
    [|cbn; repeat split; auto; discriminate].
  eapply ensures_bind with
    (Q' := fun s2 => length (buf s2) = 1500%nat /\ (used s2 <= 1500)%nat /\
                     ((used s <= 1400)%nat -> (used s2 <= 1409)%nat) /\
                     base_timestamp s2 <> None).
  { destruct (0x7FFFFFF0 <? Z.abs (timestamp m - b)).
    - eapply ensures_weaken; [apply rebase_spec|..]; cbn.
      + intros s' (H1 & H2 & H3 & H4). rewrite H3. repeat split; try lia; try discriminate.
      + intros e s' (H1 & H2 & why & -> & Hw). repeat split; try lia.
        intros ?. rewrite Hw by lia; discriminate.
    - cbn. rewrite Hb. repeat split; auto; try lia; try discriminate. }
  intros s2 (L2 & U2 & V2 & B2).
  eapply ensures_bind with
    (Q' := fun s3 => length (buf s3) = 1500%nat /\ (0 < used s3 <= 1500)%nat /\
                     base_timestamp s3 <> None).
  { destruct (length (payload m) =? 7)%nat; pack_step.
    - intros s' ((H1 & H2 & H3) & H4). rewrite H3. repeat split; auto; lia.
    - intros e s' ((H1 & H2 & H3) & why & -> & Hw). repeat split; try lia.
      intros ?. rewrite Hw by lia; discriminate.
    - intros s' ((H1 & H2 & H3) & H4). rewrite H3. repeat split; auto; lia.
    - intros e s' ((H1 & H2 & H3) & why & -> & Hw). repeat split; try lia.
      intros ?. rewrite Hw by lia; discriminate. }
  intros s3 (L3 & U3 & B3).
  eapply ensures_weaken; [apply flush_if_full_spec|..]; cbn.
  - intros s' (H1 & H2 & H3). unfold batch_invariant.
    repeat split; try lia; destruct H3 as [->|[H3 H4]]; try tauto; try lia.
  - intros e s' [-> ->]. repeat split; try lia; try discriminate.
Qed.

Lemma with_mean_spec (em om : message)
    (k : Z -> UdpServerConnection -> outcome UdpServerConnection)
    (s : UdpServerConnection) (Q : UdpServerConnection -> Prop)
    (E : exn -> UdpServerConnection -> Prop) :
  E OverflowError s -> (forall t, ensures (k t s) Q E) ->
  ensures (with_mean em om k s) Q E.
Proof.
  intros H1 H2. unfold with_mean.
  destruct (int_half (timestamp em + timestamp om)); [apply H2|exact H1].
Qed.

Lemma send_sync_spec (em om : message) (r : send_result)
    (s : UdpServerConnection) :
  length (buf s) = 1500%nat -> (used s <= 1500)%nat ->
  ensures (send_sync em om r s)
    (fun s' => append_returns s' /\ (batch_invariant s -> batch_invariant s'))
    (append_raises s).
Proof.
  intros Hlen Hused. unfold send_sync, append_returns, append_raises.
  eapply ensures_bind with
    (Q' := fun s1 => length (buf s1) = 1500%nat /\ (used s1 <= 1500)%nat /\
                     ((used s <= 1400)%nat -> (used s1 <= 1400)%nat) /\
                     (batch_invariant s -> base_timestamp s1 <> None)).
  { destruct (Nat.eqb_spec (used s) 0) as [E|E].
    - apply with_mean_spec; [repeat split; try lia; discriminate|]. intros t.
      eapply ensures_weaken; [apply prepare_header_spec|..]; cbn.
      + intros s' (H1 & H2 & H3). rewrite H3. repeat split; try lia; discriminate.
      + intros e s' (H1 & H2 & why & -> & Hw). repeat split; try lia.
        intros _. rewrite Hw by lia; discriminate.
    - cbn. unfold batch_invariant. repeat split; auto; tauto. }
  intros s1 (L1 & U1 & V1 & B1).
  eapply ensures_bind with
    (Q' := fun s2 => length (buf s2) = 1500%nat /\ (0 < used s2 <= 1500)%nat /\
                     (batch_invariant s -> base_timestamp s2 <> None)).
  { destruct (0xFFFFFFF0 <? Z.abs (timestamp em - timestamp om)).
    { pack_step.
      - intros s' ((H1 & H2 & H3) & H4). rewrite H3. repeat split; auto; lia.
      - intros e s' ((H1 & H2 & H3) & why & -> & Hw). repeat split; try lia.
        intros ?. rewrite Hw by lia; discriminate. }
    destruct (base_timestamp s1) as [b|] eqn:Hb;
      [|cbn; repeat split; auto; discriminate].
    assert (Hsync : forall ed od s2,
      length (buf s2) = 1500%nat -> (used s2 <= 1500)%nat ->
      ((used s <= 1400)%nat -> (used s2 <= 1409)%nat) ->
      base_timestamp s2 <> None ->
      ensures (pack_sync em om ed od s2)
        (fun s3 => length (buf s3) = 1500%nat /\ (0 < used s3 <= 1500)%nat /\
                   (batch_invariant s -> base_timestamp s3 <> None))
        (fun e s3 => (used s3 <= 1500)%nat /\ length (buf s3) = 1500%nat /\
                     ((used s <= 1400)%nat -> e <> StructError NoRoom))).
    { intros ed od s2 L2 U2 V2 B2. unfold pack_sync. pack_step.
      - intros s' ((H1 & H2 & H3) & H4). rewrite H3. repeat split; auto; lia.
      - intros e s' ((H1 & H2 & H3) & why & -> & Hw). repeat split; try lia.
        intros ?. rewrite Hw by lia; discriminate. }
    destruct ((0x7FFFFFF0 <? Z.abs (timestamp em - b))
              || (0x7FFFFFF0 <? Z.abs (timestamp om - b))).
    - eapply ensures_bind with
        (Q' := fun s2 => length (buf s2) = 1500%nat /\ (used s2 <= 1500)%nat /\
                         ((used s <= 1400)%nat -> (used s2 <= 1409)%nat)).
      + apply with_mean_spec; [repeat split; try lia; discriminate|]. intros t.
        eapply ensures_weaken; [apply rebase_spec|..]; cbn.
        * intros s' (H1 & H2 & H3 & H4). repeat split; lia.
        * intros e s' (H1 & H2 & why & -> & Hw). repeat split; try lia.
          intros ?. rewrite Hw by lia; discriminate.
      + intros s2 (L2 & U2 & V2).
        destruct (base_timestamp s2) as [b2|] eqn:Hb2;
          [|cbn; repeat split; auto; discriminate].
        apply Hsync; auto. rewrite Hb2. discriminate.
    - apply Hsync; auto; [lia|]. rewrite Hb. discriminate. }
  intros s2 (L2 & U2 & B2).
  eapply ensures_weaken; [apply flush_if_full_spec|..]; cbn.
  - intros s' (H1 & H2 & H3). split; [split; lia|].
    intros Hinv. specialize (B2 Hinv). unfold batch_invariant.
    destruct H3 as [->|[H3 H4]]; [split; [lia|tauto]|tauto].
  - intros e s' [-> ->]. repeat split; try lia. discriminate.
Qed.

Lemma long_message_valid (t f : Z) :
  0 <= t < 2 ^ 64 -> 0 <= f < 256 -> valid_message (Sample.long_message t f).
Proof.
  intros Ht Hf. split; cbn; [lia|lia|right; reflexivity|].
  repeat (apply List.Forall_cons; [unfold is_byte; lia|]). apply List.Forall_nil.
Qed.

(** A witness of [send_mlat_rebase]: a long message stamped 2^40 appended
    to a batch whose base is 1000. *)
Lemma send_mlat_rebase_witness :
  valid_message (Sample.long_message (2 ^ 40) 0) /\
  (0 < used Sample.one_pending <= 1400)%nat /\
  length (buf Sample.one_pending) = 1500%nat /\
  sock Sample.one_pending <> None /\
  base_timestamp Sample.one_pending = Some 1000 /\
  exists s',
    send_mlat (Sample.long_message (2 ^ 40) 0) Sent Sample.one_pending = Return s' /\
    slice (buf s') 29 9 = [5; 0; 0; 1; 0; 0; 0; 0; 0] /\
    slice (buf s') 38 22 =
      [3; 0xAB; 0xCD; 0xEF; 0; 0; 0; 0; 0x8D; 0xAB; 0xCD; 0xEF;
       0; 0; 0; 0; 0; 0; 0; 0; 0; 0].
Proof.
  assert (Hv : valid_message (Sample.long_message (2 ^ 40) 0))
    by (apply long_message_valid; lia).
  assert (Hu : (0 < used Sample.one_pending <= 1400)%nat) by (vm_compute; lia).
  assert (Hl : length (buf Sample.one_pending) = 1500%nat) by reflexivity.
  assert (Hs : sock Sample.one_pending <> None) by discriminate.
  assert (Hb : base_timestamp Sample.one_pending = Some 1000) by reflexivity.
  repeat (split; [assumption|]).
  destruct (send_mlat_rebase (Sample.long_message (2 ^ 40) 0) Sent
              Sample.one_pending 1000 Hv Hu Hl Hs Hb)
    as (s' & Hret & Hreb & Hmlat & _).
  exists s'. split; [exact Hret|]. split.
  - exact (proj1 Hreb).
  - exact Hmlat.
Defined.

(** C7. Whatever appends are made on the 1500-byte buffer, and even when
    the caller carries on after appends that raised, the occupancy never
    exceeds 1500.  As long as every append returns, the occupancy between
    appends is at most 1400, and no append then finds the buffer too small
    for a struct it packs: header, rebase and the largest submessage
    together are 63 bytes, within the 100 bytes of headroom. *)
Theorem occupancy_bounded (s0 : UdpServerConnection) (ops : list append) :
  length (buf s0) = 1500%nat -> (used s0 <= 1400)%nat ->
  (used (run ops s0) <= 1500)%nat /\
  length (buf (run ops s0)) = 1500%nat /\
  (all_returned ops s0 = true ->
   (used (run ops s0) <= 1400)%nat /\
   forall a, ensures (apply a (run ops s0))
               (fun s' => (used s' <= 1400)%nat)
               (fun e _ => e <> StructError NoRoom)).
Proof.
  intros Hlen Hused.
  assert (Hstep : forall a s, length (buf s) = 1500%nat -> (used s <= 1500)%nat ->
            ensures (apply a s) append_returns (append_raises s)).
  { intros [m r|em om r] s L U; cbn [apply].
    - eapply ensures_weaken; [apply send_mlat_spec; assumption| |auto].
      intros ? [? _]. assumption.
    - eapply ensures_weaken; [apply send_sync_spec; assumption| |auto].
      intros ? [? _]. assumption. }
  assert (Hweak : forall ops s, length (buf s) = 1500%nat -> (used s <= 1500)%nat ->
            (used (run ops s) <= 1500)%nat /\ length (buf (run ops s)) = 1500%nat).
  { clear ops. induction ops as [|a ops IH]; intros s L U; cbn [run]; [auto|].
    specialize (Hstep a s L U).
    destruct (apply a s) as [s'|e s']; cbn in *;
      unfold append_returns, append_raises in Hstep; apply IH; lia. }
  assert (Hstrong : forall ops s, length (buf s) = 1500%nat -> (used s <= 1400)%nat ->
            all_returned ops s = true -> (used (run ops s) <= 1400)%nat).
  { clear ops. induction ops as [|a ops IH]; intros s L U; cbn [run all_returned]; [auto|].
    specialize (Hstep a s L ltac:(lia)).
    destruct (apply a s) as [s'|e s']; cbn in *; [|discriminate].
    destruct Hstep. apply IH; assumption. }
  destruct (Hweak ops s0 Hlen ltac:(lia)) as [H1 H2].
  split; [exact H1|]. split; [exact H2|].
  intros Hall. specialize (Hstrong ops s0 Hlen Hused Hall).
  split; [exact Hstrong|]. intros a.
  eapply ensures_weaken; [apply Hstep; [assumption|lia]|..].
  - unfold append_returns. tauto.
  - unfold append_raises. intros e s (_ & _ & H). apply H. exact Hstrong.
Qed.

(** A witness of [occupancy_bounded]: seventy long messages, which fill
    more than one datagram. *)
Lemma occupancy_bounded_witness :
  let s0 := final (start Started (init 7)) in
  let ops := repeat (AppendMlat (Sample.long_message 5000 1) Sent) 70 in
  length (buf s0) = 1500%nat /\ (used s0 <= 1400)%nat /\
  all_returned ops s0 = true /\
  (used (run ops s0) <= 1400)%nat /\ count (run ops s0) = 1.
Proof.
  intros s0 ops.
  assert (Hl : length (buf s0) = 1500%nat) by reflexivity.
  assert (Hu : (used s0 <= 1400)%nat) by (cbn; lia).
  assert (Ha : all_returned ops s0 = true) by (vm_compute; reflexivity).
  repeat (split; [assumption|]).
  destruct (occupancy_bounded s0 ops Hl Hu) as (_ & _ & H).
  split; [exact (proj1 (H Ha))|vm_compute; reflexivity].
Defined.

(** *** Sync pairs *)

(** Below 2^53 the sum of the timestamps is a double, and
    [int((a + b) / 2)] is the integer mean, rounded down. *)
Lemma int_half_exact (n : Z) : 0 <= n < 2 ^ 53 -> int_half n = Some (n / 2).
Proof.
  intros H. unfold int_half, round53. rewrite Z.abs_eq by lia.
  assert (Hlog : Z.log2 n + 1 <= 53).
  { destruct (Z.eq_dec n 0) as [->|Hn]; [cbn; lia|].
    assert (Z.log2 n < 53); [|lia]. apply Z.log2_lt_pow2; lia. }
  destruct (Z.leb_spec (Z.log2 n + 1) 53) as [_|?]; [|lia].
  destruct (Z.leb_spec (2 ^ 1025) n) as [Hbig|_].
  - exfalso. assert (2 ^ 53 < 2 ^ 1025) by (apply Z.pow_lt_mono_r; lia). lia.
  - f_equal. destruct (Z.eq_dec n 0) as [->|Hn]; [reflexivity|].
    rewrite Z.sgn_pos by lia. lia.
Qed.

(** X1. What [send_sync] writes when the mean is exact (timestamps below
    2^52): ABS_SYNC with both timestamps in full when they are more than
    0xFFFFFFF0 apart; otherwise SYNC with the two deltas from the base,
    preceded by a REBASE to the mean when a delta exceeds 0x7FFFFFF0. *)
Lemma send_sync_exact_mean (em om : message) (r : send_result)
    (s : UdpServerConnection) (b : Z) :
  valid_message em -> valid_message om ->
  timestamp em < 2 ^ 52 -> timestamp om < 2 ^ 52 ->
  (0 < used s <= 1400)%nat -> length (buf s) = 1500%nat -> sock s <> None ->
  base_timestamp s = Some b ->
  let te := timestamp em in
  let to := timestamp om in
  let mean := (te + to) / 2 in
  exists s',
    send_sync em om r s = Return s' /\
    if 0xFFFFFFF0 <? Z.abs (te - to) then
      slice (buf s') (used s) 48 =
        TYPE_ABS_SYNC :: address_bytes (address em)
          ++ be_bytes 8 te ++ be_bytes 8 to ++ sync_payloads em om /\
      be_value (be_bytes 8 te) = te /\ be_value (be_bytes 8 to) = to
    else if (0x7FFFFFF0 <? Z.abs (te - b)) || (0x7FFFFFF0 <? Z.abs (to - b)) then
      slice (buf s') (used s) 9 = TYPE_REBASE :: be_bytes 8 mean /\
      be_value (be_bytes 8 mean) = mean /\
      slice (buf s') (used s + 9) 40 =
        TYPE_SYNC :: address_bytes (address em)
          ++ be_bytes 4 (te - mean) ++ be_bytes 4 (to - mean)
          ++ sync_payloads em om /\
      be_signed32 (be_bytes 4 (te - mean)) = te - mean /\
      be_signed32 (be_bytes 4 (to - mean)) = to - mean
    else
      slice (buf s') (used s) 40 =
        TYPE_SYNC :: address_bytes (address em)
          ++ be_bytes 4 (te - b) ++ be_bytes 4 (to - b)
          ++ sync_payloads em om /\
      be_signed32 (be_bytes 4 (te - b)) = te - b /\
      be_signed32 (be_bytes 4 (to - b)) = to - b.
Proof.
  intros [Ha Ht _ _] [_ Ht' _ _] He Ho Hu Hlen Hs Hbase te to mean.
  fold te in Ht, He. fold to in Ht', Ho.
  unfold send_sync.
  destruct (Nat.eqb_spec (used s) 0) as [?|_]; [lia|]. cbn [bind].
  fold te to. unfold sync_payloads.
  destruct (Z.ltb_spec 0xFFFFFFF0 (Z.abs (te - to))) as [Hwide|Hnear].
  { (* ABS_SYNC *)
    rewrite (pack_and_advance_return _ _ _ _ _
      (pack_abs_sync_bytes _ te to (payload em) (payload om) Ha
         ltac:(lia) ltac:(lia))) by (rewrite Hlen; simpl; lia).
    cbn [bind].
    match goal with |- context [flush_if_full r ?s2] =>
      destruct (flush_if_full_return r s2 Hs) as (s' & -> & Hbuf') end.
    exists s'. split; [reflexivity|]. rewrite Hbuf'. cbn [buf set_used set_buf].
    split; [|split; apply be64_roundtrip; lia].
    apply slice_write_at_n; [|lia].
    unfold address_bytes. cbn [length app].
    rewrite !length_app, !be_bytes_length, !fit_length. reflexivity. }
  rewrite Hbase.
  assert (Hsync : forall ed od s1,
    - 2 ^ 31 <= ed < 2 ^ 31 -> - 2 ^ 31 <= od < 2 ^ 31 ->
    length (buf s1) = 1500%nat -> (used s1 <= 1409)%nat -> sock s1 <> None ->
    exists s',
      (pack_sync em om ed od s1 >>= fun s2 => flush_if_full r s2) = Return s' /\
      buf s' = write_at (buf s1) (used s1)
                 (TYPE_SYNC :: address_bytes (address em)
                    ++ be_bytes 4 ed ++ be_bytes 4 od
                    ++ fit 14 (payload em) ++ fit 14 (payload om))).
  { intros ed od s1 Hed Hod L1 U1 S1. unfold pack_sync.
    rewrite (pack_and_advance_return _ _ _ _ _
      (pack_sync_bytes _ ed od (payload em) (payload om) Ha Hed Hod))
      by (rewrite L1; simpl; lia).
    cbn [bind].
    match goal with |- context [flush_if_full r ?s2] =>
      destruct (flush_if_full_return r s2 S1) as (s' & -> & Hbuf') end.
    exists s'. split; [reflexivity|]. rewrite Hbuf'. reflexivity. }
  assert (Hlen40 : forall ed od,
    length (TYPE_SYNC :: address_bytes (address em)
              ++ be_bytes 4 ed ++ be_bytes 4 od
              ++ fit 14 (payload em) ++ fit 14 (payload om)) = 40%nat).
  { intros. unfold address_bytes. cbn [length app].
    rewrite !length_app, !be_bytes_length, !fit_length. reflexivity. }
  destruct ((0x7FFFFFF0 <? Z.abs (te - b)) || (0x7FFFFFF0 <? Z.abs (to - b)))
    eqn:Hfar.
  - (* REBASE to the mean, then SYNC *)
    assert (Hmean : 0 <= mean < 2 ^ 52).
    { subst mean. split; [apply Z.div_pos; lia|].
      apply Z.div_lt_upper_bound; lia. }
    unfold with_mean. fold te to.
    rewrite int_half_exact by lia. fold mean. unfold rebase.
    rewrite (pack_and_advance_return _ _ _ _ _
      (pack_rebase mean ltac:(lia))) by (cbn [buf set_base]; rewrite Hlen; simpl; lia).
    cbn [bind base_timestamp set_used set_buf set_base].
    assert (Hdm : te + to = 2 * mean + (te + to) mod 2)
      by (subst mean; apply Z.div_mod; lia).
    pose proof (Z.mod_pos_bound (te + to) 2 ltac:(lia)) as Hmod.
    assert (Hed : - 2 ^ 31 <= te - mean < 2 ^ 31) by lia.
    assert (Hod : - 2 ^ 31 <= to - mean < 2 ^ 31) by lia.
    match goal with |- context [pack_sync em om _ _ ?s1] =>
      destruct (Hsync (te - mean) (to - mean) s1 Hed Hod) as (s' & Hret & Hbuf');
        [cbn [buf set_used set_buf set_base]; rewrite write_at_length;
           [exact Hlen
           |cbn [length buf used set_base]; rewrite be_bytes_length; lia]
        |simpl; lia|exact Hs|]
    end.
    cbn [bind] in Hret. exists s'. split; [exact Hret|].
    rewrite Hbuf'. cbn [buf used set_used set_buf set_base].
    change (size STRUCT_REBASE) with 9%nat.
    assert (L9 : length (TYPE_REBASE :: be_bytes 8 mean) = 9%nat)
      by (cbn [length]; rewrite be_bytes_length; reflexivity).
    split; [|split; [apply be64_roundtrip; lia|split; [|split]]].
    + rewrite slice_write_at_other
        by (rewrite ?write_at_length, ?Hlen40, ?L9; lia).
      apply slice_write_at_n; [exact L9|lia].
    + apply slice_write_at_n; [apply Hlen40|].
      rewrite write_at_length; rewrite ?L9; lia.
    + apply be_signed32_roundtrip. exact Hed.
    + apply be_signed32_roundtrip. exact Hod.
  - (* SYNC against the current base *)
    apply orb_false_elim in Hfar. destruct Hfar as [Hfe Hfo].
    apply Z.ltb_ge in Hfe, Hfo.
    assert (Hed : - 2 ^ 31 <= te - b < 2 ^ 31) by lia.
    assert (Hod : - 2 ^ 31 <= to - b < 2 ^ 31) by lia.
    destruct (Hsync (te - b) (to - b) s Hed Hod Hlen ltac:(lia) Hs)
      as (s' & Hret & Hbuf').
    exists s'. split; [exact Hret|]. rewrite Hbuf'.
    split; [|split; apply be_signed32_roundtrip; assumption].
    apply slice_write_at_n; [apply Hlen40|lia].
Qed.

(** C5 on timestamps beyond the precision of a double.  The pair below is
    0xFFFFFFF0 apart, so it is to be sent as SYNC after a REBASE to its
    mean 2^63 + 2^31 + 16.  [int((a + b) / 2)] is 2^63 + 2^31: the REBASE
    is written with that base, the odd delta 2^31 + 8 then does not fit
    the signed 32-bit field, and [send_sync] raises [struct.error]
    without writing the SYNC submessage. *)
Theorem send_sync_inexact_mean :
  let em := Sample.long_message (2 ^ 63 + 24) 1 in
  let om := Sample.long_message (2 ^ 63 + 2 ^ 32 + 8) 2 in
  let o := send_sync em om Sent Sample.one_pending in
  valid_message em /\ valid_message om /\
  Z.abs (timestamp em - timestamp om) = 0xFFFFFFF0 /\
  (timestamp em + timestamp om) / 2 = 2 ^ 63 + 2 ^ 31 + 16 /\
  int_half (timestamp em + timestamp om) = Some (2 ^ 63 + 2 ^ 31) /\
  returned o = false /\
  (exists s', o = Raise (StructError BadValue) s') /\
  used (final o) = (used Sample.one_pending + 9)%nat /\
  base_timestamp (final o) = Some (2 ^ 63 + 2 ^ 31) /\
  slice (buf (final o)) (used Sample.one_pending) 9 =
    TYPE_REBASE :: Struct.be_bytes 8 (2 ^ 63 + 2 ^ 31) /\
  timestamp om - (2 ^ 63 + 2 ^ 31) = 2 ^ 31 + 8.
Proof.
  intros em om o.
  split; [apply long_message_valid; lia|].
  split; [apply long_message_valid; lia|].
  split; [reflexivity|]. split; [reflexivity|]. split; [vm_compute; reflexivity|].
  split; [vm_compute; reflexivity|].
  split; [eexists; vm_compute; reflexivity|].
  repeat split; vm_compute; reflexivity.
Qed.

(** *** Flushing and closing *)

(** C6. On an empty buffer [flush] changes nothing.  On a non-empty buffer
    of a connection that has a socket it hands the occupied region to the
    socket once and returns whatever the fate [r] of the datagram: the
    statistic has grown by the occupied length, the buffer is empty, the
    base timestamp is cleared, the sequence number is incremented modulo
    2^16 and the count of datagrams by one. *)
Theorem flush_spec (r : send_result) (s : UdpServerConnection) :
  sock s <> None ->
  (used s = 0%nat -> flush r s = Return s) /\
  (used s <> 0%nat ->
   exists s',
     flush r s = Return s' /\
     wire s' = wire s ++ [(firstn (used s) (buf s), r)] /\
     server_udp_bytes s' = server_udp_bytes s + Z.of_nat (used s) /\
     used s' = 0%nat /\
     base_timestamp s' = None /\
     seq s' = (seq s + 1) mod 2 ^ 16 /\
     count s' = count s + 1 /\
     buf s' = buf s /\ key s' = key s /\ sock s' = sock s).
Proof.
  intros Hs. unfold flush. split; intros Hu.
  - rewrite Hu. reflexivity.
  - destruct (Nat.eqb_spec (used s) 0) as [?|_]; [contradiction|].
    destruct (sock s) as [k|]; [|contradiction].
    eexists. split; [reflexivity|]. cbn.
    repeat split. change 0xffff with (Z.ones 16).
    apply Z.land_ones. lia.
Qed.

(** A witness of [flush_spec]: a datagram refused by the socket, in a
    batch of one short message and with the sequence number about to
    wrap. *)
Lemma flush_spec_witness :
  let s := {| key := 7; base_timestamp := Some 1000;
              buf := buf Sample.one_pending; used := 29; seq := 65535;
              count := 3; sock := Some Open; wire := [];
              server_udp_bytes := 100 |} in
  sock s <> None /\
  exists s',
    flush SendFailed s = Return s' /\
    wire s' = [(firstn 29 (buf s), SendFailed)] /\
    server_udp_bytes s' = 129 /\ used s' = 0%nat /\
    base_timestamp s' = None /\ seq s' = 0 /\ count s' = 4.
Proof.
  intros s.
  assert (Hs : sock s <> None) by discriminate.
  split; [exact Hs|].
  destruct (proj2 (flush_spec SendFailed s Hs)) as
    (s' & H1 & H2 & H3 & H4 & H5 & H6 & H7 & _); [discriminate|].
  exists s'. repeat split; assumption.
Defined.

(** C9. [close] empties the batch without sending: nothing is handed to
    the socket, and neither the sequence number, the count of datagrams
    nor the byte statistic moves. *)
Theorem close_discards (s : UdpServerConnection) :
  used (close s) = 0%nat /\
  wire (close s) = wire s /\
  seq (close s) = seq s /\
  count (close s) = count s /\
  server_udp_bytes (close s) = server_udp_bytes s.
Proof. unfold close. cbn. destruct (sock s); cbn; repeat split. Qed.

(** *** The invariant of the batch *)

(** The operations other than [close] keep the invariant: [start],
    [flush], and every [send_mlat] and [send_sync] that returns.  [close]
    sets [used] to 0 and leaves the base timestamp as it was. *)
Lemma batch_invariant_preserved (s : UdpServerConnection) :
  batch_invariant s -> length (buf s) = 1500%nat -> (used s <= 1500)%nat ->
  (forall r, batch_invariant (final (start r s))) /\
  (forall m r s', send_mlat m r s = Return s' -> batch_invariant s') /\
  (forall em om r s', send_sync em om r s = Return s' -> batch_invariant s') /\
  (forall r, batch_invariant (final (flush r s))) /\
  used (close s) = 0%nat /\
  base_timestamp (close s) = base_timestamp s.
Proof.
  intros Hinv Hlen Hused.
  split; [intros []; exact Hinv|]. split; [|split; [|split]].
  - intros m r s' H. pose proof (send_mlat_spec m r s Hlen Hused) as Hs.
    rewrite H in Hs. apply Hs.
  - intros em om r s' H. pose proof (send_sync_spec em om r s Hlen Hused) as Hs.
    rewrite H in Hs. apply Hs. exact Hinv.
  - intros r. pose proof (flush_spec_any r s) as Hf.
    destruct (flush r s) as [s'|e s']; cbn in *.
    + destruct Hf as (H1 & _ & H3 & H4).
      destruct (Nat.eq_dec (used s) 0%nat) as [E|E].
      * rewrite (H4 E). exact Hinv.
      * unfold batch_invariant. rewrite H1, (H3 E). tauto.
    + destruct Hf as [-> _]. exact Hinv.
  - unfold close. cbn. destruct (sock s); cbn; auto.
Qed.

(** C2. [close] does not keep the invariant [used = 0 <-> base_timestamp =
    None].  On a started connection one short message stamped 1000 is
    batched: 29 bytes are occupied and the base is 1000, so the invariant
    holds.  [close] then empties the batch and leaves the base timestamp
    of the discarded batch in place, where [flush], which empties the
    batch too, clears it. *)
Theorem close_breaks_invariant :
  let s := Sample.one_pending in
  used s = 29%nat /\ base_timestamp s = Some 1000 /\ batch_invariant s /\
  used (close s) = 0%nat /\ base_timestamp (close s) = Some 1000 /\
  ~ batch_invariant (close s) /\
  batch_invariant (final (flush Sent s)) /\
  base_timestamp (final (flush Sent s)) = None.
Proof.
  intros s.
  split; [reflexivity|]. split; [reflexivity|].
  split; [split; discriminate|].
  split; [reflexivity|]. split; [reflexivity|]. split.
  - intros [H _]. specialize (H eq_refl). discriminate H.
  - split; [split; reflexivity|reflexivity].
Qed.

End UdpFacts.

(** ** Reading records *)

Module ReaderFacts.

Import Reader.

(** *** Splitting *)

Lemma split_bytes_nonempty (sep : byte) (b : list byte) :
  Py.split_bytes sep b <> [].
Proof.
  destruct b as [|x b]; cbn; [discriminate|].
  destruct (Byte.eqb x sep); [discriminate|].
  destruct (Py.split_bytes sep b); discriminate.
Qed.

Lemma removelast_cons {A : Type} (x : A) (l : list A) :
  l <> [] -> List.removelast (x :: l) = x :: List.removelast l.
Proof. destruct l; [contradiction|reflexivity]. Qed.

Lemma last_cons {A : Type} (x : A) (l : list A) (d : A) :
  l <> [] -> List.last (x :: l) d = List.last l d.
Proof. destruct l; [contradiction|reflexivity]. Qed.

Lemma last_app_nonempty {A : Type} (l l' : list A) (d : A) :
  l' <> [] -> List.last (l ++ l') d = List.last l' d.
Proof.
  intros H. induction l as [|x l IH]; [reflexivity|].
  cbn [app]. rewrite last_cons; [exact IH|].
  destruct l; [exact H|discriminate].
Qed.

(** Splitting a concatenation: the complete pieces of the first part, then
    the pieces of its last piece followed by the second part. *)
Lemma split_bytes_app (sep : byte) (a b : list byte) :
  Py.split_bytes sep (a ++ b) =
    List.removelast (Py.split_bytes sep a)
      ++ Py.split_bytes sep (List.last (Py.split_bytes sep a) [] ++ b).
Proof.
  induction a as [|x a IH]; [reflexivity|].
  pose proof (split_bytes_nonempty sep a) as Hne.
  cbn [app Py.split_bytes]. destruct (Byte.eqb x sep) eqn:Ex.
  - rewrite removelast_cons, last_cons by assumption.
    rewrite IH. reflexivity.
  - rewrite IH. destruct (Py.split_bytes sep a) as [|p [|q ps]];
      [contradiction| |].
    + cbn [List.removelast List.last app Py.split_bytes]. rewrite Ex.
      reflexivity.
    + cbn [List.removelast List.last app]. reflexivity.
Qed.

(** *** Keys and values *)

Lemma list_pair_ind {A : Type} (P : list A -> Prop) :
  P [] -> (forall x, P [x]) -> (forall x y l, P l -> P (x :: y :: l)) ->
  forall l, P l.
Proof.
  intros H0 H1 H2.
  assert (H : forall l, P l /\ forall x, P (x :: l)).
  { induction l as [|y l [IH1 IH2]]; [auto|]. split; [apply IH2|].
    intros x. apply H2. exact IH1. }
  intros l. apply H.
Qed.

Lemma pairs_cons (x y : string) (l : list string) :
  pairs (x :: y :: l) = (x, y) :: pairs l.
Proof. unfold pairs. destruct l; reflexivity. Qed.

Lemma pairs_odd (fields : list string) :
  Nat.odd (length fields) = true ->
  pairs fields = pairs (List.removelast fields) /\
  (2 * length (pairs fields) + 1 = length fields)%nat.
Proof.
  induction fields as [|x|x y l IH] using list_pair_ind.
  - discriminate.
  - intros _. split; reflexivity.
  - intros Hodd. change (Nat.odd (length l) = true) in Hodd.
    destruct (IH Hodd) as [IH1 IH2].
    assert (Hl : l <> []) by (destruct l; [discriminate|discriminate]).
    rewrite !removelast_cons by (auto; discriminate).
    rewrite !pairs_cons, <- IH1. cbn [length]. split; [reflexivity|lia].
Qed.

Lemma dict_acc_notin (ps : list (string * string)) (k : string)
    (m : gmap string string) :
  k ∉ ps.*1 ->
  fold_left (fun m kv => <[kv.1 := kv.2]> m) ps m !! k = m !! k.
Proof.
  revert m. induction ps as [|[k' v'] ps IH]; intros m Hk; [reflexivity|].
  cbn in *. apply not_elem_of_cons in Hk. destruct Hk as [Hne Hk].
  rewrite IH by exact Hk. apply lookup_insert_ne. congruence.
Qed.

(** In [dict(pairs)] a key has the value of its last pair. *)
Lemma dict_last_wins (ps1 ps2 : list (string * string)) (k v : string) :
  k ∉ ps2.*1 -> Py.dict (ps1 ++ (k, v) :: ps2) !! k = Some v.
Proof.
  intros Hk. unfold Py.dict. rewrite fold_left_app. cbn [fold_left].
  rewrite dict_acc_notin by exact Hk. apply lookup_insert_eq.
Qed.

Lemma split_nonempty (sep : ascii) (s : string) : Py.split sep s <> [].
Proof.
  induction s as [|c s IH]; cbn; [discriminate|].
  destruct (Ascii.eqb c sep); [discriminate|].
  destruct (Py.split sep s); [contradiction | discriminate].
Qed.

(** [split] of two strings joined by the separator. *)
Lemma split_joined (sep : ascii) (s t : string) :
  Py.split sep (s +:+ String sep t) = Py.split sep s ++ Py.split sep t.
Proof.
  induction s as [|c s IH]; simpl.
  - rewrite Ascii.eqb_refl. reflexivity.
  - rewrite IH. destruct (Ascii.eqb c sep); [reflexivity|].
    pose proof (split_nonempty sep s) as Hn.
    destruct (Py.split sep s); [contradiction | reflexivity].
Qed.

(** *** Lines *)

Section Lines.

Variable F : Type.
Variable float : string -> option F.

Lemma process_line_parse (line line' : string) :
  parse_message line = parse_message line' ->
  process_line F float line = process_line F float line'.
Proof. unfold process_line. intros ->. reflexivity. Qed.

(** C10. A line with an odd number of tab-separated tokens is paired
    without failure: the mapping [process_line] builds is that of the line
    without its final token, one pair for every two of the other tokens,
    and a key that occurs in several pairs has the value of the last of
    them.  [process_line] goes on with that mapping: it raises [KeyError]
    if the mapping has no [type], does nothing for a type without a
    handler, and else calls the handler on the mapping; so it does to the
    line what it does to the line without the final token. *)
Theorem odd_token_dropped (line : string) :
  let fields := Py.split Py.TAB line in
  Nat.odd (length fields) = true ->
  let message := Py.dict (pairs (List.removelast fields)) in
  parse_message line = message /\
  (2 * length (pairs fields) + 1 = length fields)%nat /\
  (forall ps1 k v ps2,
     pairs fields = ps1 ++ (k, v) :: ps2 -> k ∉ ps2.*1 ->
     parse_message line !! k = Some v) /\
  (message !! "type"%string = None ->
   process_line F float line = Err KeyError) /\
  (forall name,
     message !! "type"%string = Some name -> handlers F float name = None ->
     process_line F float line = Ok None) /\
  (forall name handler,
     message !! "type"%string = Some name ->
     handlers F float name = Some handler ->
     process_line F float line = handler message >>? fun ev => Ok (Some ev)) /\
  (forall line0 last,
     line = line0 +:+ String Py.TAB last ->
     Py.split Py.TAB last = [last] ->
     process_line F float line = process_line F float line0).
Proof.
  intros fields Hodd message. destruct (pairs_odd fields Hodd) as [H1 H2].
  assert (Hm : parse_message line = message)
    by (unfold parse_message, message; fold fields; rewrite H1; reflexivity).
  split; [exact Hm|]. split; [exact H2|]. split; [|split; [|split; [|split]]].
  - intros ps1 k v ps2 Hp Hk. unfold parse_message. fold fields.
    rewrite Hp. apply dict_last_wins. exact Hk.
  - intros Ht. unfold process_line, item. rewrite Hm, Ht. reflexivity.
  - intros name Ht Hh. unfold process_line, item. rewrite Hm, Ht.
    cbn [or_raise and_then]. rewrite Hh. reflexivity.
  - intros name handler Ht Hh. unfold process_line, item. rewrite Hm, Ht.
    cbn [or_raise and_then]. rewrite Hh. reflexivity.
  - intros line0 last Hl Hlast. apply process_line_parse. rewrite Hm.
    unfold message, fields, parse_message.
    rewrite Hl, split_joined, Hlast, removelast_last. reflexivity.
Qed.

Lemma benign_ok {A : Type} (a : A) : benign (Ok a).
Proof. exact I. Qed.

Lemma benign_and_then {A B : Type} (r : result A) (k : A -> result B) :
  benign r -> (forall a, benign (k a)) -> benign (r >>? k).
Proof. destruct r as [a|e]; cbn; auto. Qed.

Lemma benign_or_raise {A : Type} (e : exn) (o : option A) :
  (forall why, e <> OSError why) -> benign (or_raise e o).
Proof.
  intros He. destruct o; cbn; [exact I|].
  destruct e; try exact I. exact (He why eq_refl).
Qed.

Lemma benign_item (m : gmap string string) (k : string) : benign (item m k).
Proof. apply benign_or_raise. discriminate. Qed.

Lemma benign_traverse {A B : Type} (f : A -> result B) (l : list A) :
  (forall x, benign (f x)) -> benign (traverse f l).
Proof.
  intros Hf. induction l as [|x l IH]; cbn [traverse]; [apply benign_ok|].
  apply benign_and_then; [apply Hf|]. intros y.
  apply benign_and_then; [exact IH|]. intros ys. apply benign_ok.
Qed.

Ltac benign :=
  repeat first
    [ apply benign_ok
    | apply benign_item
    | apply benign_or_raise; discriminate
    | apply benign_and_then; [|intros ?]
    | apply benign_traverse; intros ?
    | match goal with
      | |- benign (if ?c then _ else _) => destruct c
      | |- benign (match ?o with Some _ => _ | None => _ end) => destruct o
      end ].

Lemma benign_hexids (m : gmap string string) : benign (hexids m).
Proof. unfold hexids. benign. Qed.

Lemma benign_handlers (name : string) h (m : gmap string string) :
  handlers F float name = Some h -> benign (h m).
Proof.
  unfold handlers.
  repeat (destruct (String.eqb name _); [intros [= <-]|]); try discriminate.
  - unfold process_wanted_message. benign.
  - unfold process_unwanted_message. benign.
  - unfold process_result_message, float_item. benign.
  - unfold process_status_message. benign.
Qed.

Lemma benign_process_line (line : string) : benign (process_line F float line).
Proof.
  unfold process_line. apply benign_and_then; [apply benign_item|].
  intros name. destruct (handlers F float name) as [h|] eqn:Hh;
    [|apply benign_ok].
  apply benign_and_then; [|intros; apply benign_ok].
  eapply benign_handlers. exact Hh.
Qed.

(** A complete line never stops the loop: its events are appended to the
    trace. *)
Lemma process_one_returns (line : list byte) (s : AdeptReader F) :
  process_one F float line s = Return (log (line_events F float line) s).
Proof.
  unfold process_one, line_events.
  assert (H : benign (or_raise UnicodeError (Py.decode_ascii line)
                        >>? process_line F float)).
  { apply benign_and_then; [apply benign_or_raise; discriminate|].
    intros line'. apply benign_process_line. }
  destruct (or_raise UnicodeError (Py.decode_ascii line) >>? process_line F float)
    as [[ev|]|e]; cbn.
  - reflexivity.
  - unfold log. rewrite app_nil_r. destruct s; reflexivity.
  - destruct e; try reflexivity. contradiction H.
Qed.

Lemma log_log (e1 e2 : list (event F)) (s : AdeptReader F) :
  log e2 (log e1 s) = log (e1 ++ e2) s.
Proof. unfold log. cbn. rewrite app_assoc. reflexivity. Qed.

Lemma process_all_returns (lines : list (list byte)) (s : AdeptReader F) :
  process_all F float lines s =
    Return (log (flat_map (line_events F float) lines) s).
Proof.
  revert s. induction lines as [|l lines IH]; intros s; cbn [process_all flat_map].
  - unfold log. rewrite app_nil_r. destruct s; reflexivity.
  - rewrite process_one_returns. cbn [bind]. rewrite IH, log_log. reflexivity.
Qed.

(** *** Chunks *)

(** A non-empty chunk: the buffered partial line followed by the chunk is
    split on newline, the events of all pieces but the last are appended
    to the trace in order, and the last piece is the new partial line. *)
Lemma handle_read_returns (c : list byte) (s : AdeptReader F) :
  c <> [] ->
  let lines := Py.split_bytes "010"%byte (partial_line s ++ c) in
  handle_read F float (Received c) s =
    Return {| partial_line := List.last lines [];
              closed := closed s;
              server_rx_bytes := server_rx_bytes s + Z.of_nat (length c);
              trace := trace s
                ++ flat_map (line_events F float) (List.removelast lines) |}.
Proof.
  intros Hc lines. destruct c as [|x c]; [contradiction|].
  cbn [handle_read]. cbn [partial_line]. fold lines.
  rewrite process_all_returns. reflexivity.
Qed.

(** Two chunks in a row are one chunk. *)
Lemma handle_read_app (c1 c2 : list byte) (s : AdeptReader F) :
  c1 <> [] -> c2 <> [] ->
  (handle_read F float (Received c1) s >>= handle_read F float (Received c2))
  = handle_read F float (Received (c1 ++ c2)) s.
Proof.
  intros H1 H2.
  assert (H12 : c1 ++ c2 <> []) by (destruct c1; [contradiction|discriminate]).
  rewrite (handle_read_returns c1 s H1). cbn [bind].
  rewrite handle_read_returns by assumption.
  rewrite (handle_read_returns (c1 ++ c2) s H12).
  cbn [partial_line closed server_rx_bytes trace].
  rewrite (app_assoc (partial_line s) c1 c2).
  rewrite (split_bytes_app _ (partial_line s ++ c1) c2).
  set (A := List.removelast (Py.split_bytes "010" (partial_line s ++ c1))).
  set (B := Py.split_bytes "010"
              (List.last (Py.split_bytes "010" (partial_line s ++ c1)) [] ++ c2)).
  assert (HB : B <> []) by apply split_bytes_nonempty.
  rewrite last_app_nonempty by exact HB.
  rewrite List.removelast_app by exact HB.
  rewrite flat_map_app, length_app, Nat2Z.inj_add, <- !app_assoc, Z.add_assoc.
  reflexivity.
Qed.

Lemma bind_return {S : Type} (o : outcome S) : (o >>= Return) = o.
Proof. destruct o; reflexivity. Qed.

Lemma feed_concat (chunks : list (list byte)) (s : AdeptReader F) :
  chunks <> [] -> Forall (fun c => c <> []) chunks ->
  feed F float chunks s = handle_read F float (Received (concat chunks)) s.
Proof.
  revert s. induction chunks as [|c [|c' cs] IH]; intros s Hne Hall;
    [contradiction| |].
  - cbn [feed concat]. rewrite app_nil_r.
    change (feed F float [] ) with (@Return (AdeptReader F)).
    apply bind_return.
  - apply Forall_cons in Hall. destruct Hall as [Hc Hall].
    assert (Hrest : concat (c' :: cs) <> []).
    { apply Forall_cons in Hall. destruct Hall as [Hc' _].
      cbn. destruct c'; [contradiction|discriminate]. }
    change (feed F float (c :: c' :: cs) s)
      with (handle_read F float (Received c) s >>= feed F float (c' :: cs)).
    change (concat (c :: c' :: cs)) with (c ++ concat (c' :: cs)).
    rewrite <- handle_read_app by assumption.
    destruct (handle_read F float (Received c) s) as [s1|e s1]; cbn [bind];
      [|reflexivity].
    apply IH; [discriminate|exact Hall].
Qed.

(** C3. Feeding a byte stream to the reader in non-empty chunks, however
    the stream is cut, and in particular one byte at a time, leaves the
    reader exactly as feeding it in one chunk does: the same events in the
    same order, the same partial line.  Each chunk is appended to the
    buffered partial line and the result split on newline; the events of
    all pieces but the last are dispatched in order, and the last piece is
    kept as the new partial line. *)
Theorem fragmentation_invariance (chunks : list (list byte)) (s : AdeptReader F) :
  chunks <> [] -> Forall (fun c => c <> []) chunks ->
  let data := concat chunks in
  let lines := Py.split_bytes "010"%byte (partial_line s ++ data) in
  feed F float chunks s = handle_read F float (Received data) s /\
  feed F float (map (fun b => [b]) data) s = handle_read F float (Received data) s /\
  handle_read F float (Received data) s =
    Return {| partial_line := List.last lines [];
              closed := closed s;
              server_rx_bytes := server_rx_bytes s + Z.of_nat (length data);
              trace := trace s
                ++ flat_map (line_events F float) (List.removelast lines) |}.
Proof.
  intros Hne Hall data lines.
  assert (Hdata : data <> []).
  { subst data. destruct chunks as [|c cs]; [contradiction|].
    apply Forall_cons in Hall. destruct Hall as [Hc _].
    cbn. destruct c; [contradiction|discriminate]. }
  split; [apply feed_concat; assumption|]. split.
  - replace data with (concat (map (fun b => [b]) data)) at 2.
    + apply feed_concat.
      * destruct data; [contradiction|discriminate].
      * apply Forall_fmap, Forall_true. discriminate.
    + clear. induction data as [|b d IH]; [reflexivity|].
      cbn. rewrite IH. reflexivity.
  - apply handle_read_returns. exact Hdata.
Qed.

(** *** Wanted addresses *)

Lemma traverse_or_raise {A B : Type} (e : exn) (f : A -> option B) (l : list A) :
  traverse (fun x => or_raise e (f x)) l = or_raise e (mapM f l).
Proof.
  induction l as [|x l IH]; [reflexivity|].
  cbn. destruct (f x) as [y|]; [|reflexivity]. cbn.
  rewrite IH. destruct (mapM f l); reflexivity.
Qed.

(** C8. The line [type<TAB>mlat_wanted<TAB>hexids<TAB>ABCDEF 123456] calls
    [server_start_sending] with the set of 0xABCDEF and 0x123456, and the
    line with an empty [hexids] value calls it with the empty set, both as
    the whole effect of reading the line from the stream.  In general a
    line whose [type] is [mlat_wanted] calls it with the set of the
    integers its [hexids] tokens denote in base 16; if one of the tokens
    denotes none, [ValueError] is raised and nothing is dispatched. *)
Theorem wanted_dispatch :
  process_line F float Sample.wanted_line =
    Ok (Some (server_start_sending {[ 0xABCDEF; 0x123456 ]})) /\
  handle_read F float
    (Received (list_byte_of_string Sample.wanted_line ++ ["010"%byte])) init =
    Return {| partial_line := []; closed := false; server_rx_bytes := 38;
              trace := [server_start_sending {[ 0xABCDEF; 0x123456 ]}] |} /\
  process_line F float Sample.wanted_nothing_line =
    Ok (Some (server_start_sending ∅)) /\
  handle_read F float
    (Received (list_byte_of_string Sample.wanted_nothing_line ++ ["010"%byte]))
    init =
    Return {| partial_line := []; closed := false; server_rx_bytes := 25;
              trace := [server_start_sending ∅] |} /\
  (forall line h l,
    parse_message line !! "type"%string = Some "mlat_wanted"%string ->
    parse_message line !! "hexids"%string = Some h ->
    hex_tokens h = Some l ->
    process_line F float line = Ok (Some (server_start_sending (list_to_set l)))) /\
  (forall line h,
    parse_message line !! "type"%string = Some "mlat_wanted"%string ->
    parse_message line !! "hexids"%string = Some h ->
    hex_tokens h = None ->
    process_line F float line = Err ValueError).
Proof.
  assert (Hbad : forall line h,
    parse_message line !! "type"%string = Some "mlat_wanted"%string ->
    parse_message line !! "hexids"%string = Some h ->
    hex_tokens h = None ->
    process_line F float line = Err ValueError).
  { intros line h Ht Hh Hl. unfold process_line, item. rewrite Ht.
    cbn [or_raise and_then]. change (handlers F float "mlat_wanted")
      with (Some (@process_wanted_message F)).
    unfold process_wanted_message, hexids, item. rewrite Hh.
    cbn [or_raise and_then]. unfold hex_tokens in Hl.
    destruct (String.eqb h ""); [discriminate Hl|].
    rewrite traverse_or_raise, Hl. reflexivity. }
  assert (Hgen : forall line h l,
    parse_message line !! "type"%string = Some "mlat_wanted"%string ->
    parse_message line !! "hexids"%string = Some h ->
    hex_tokens h = Some l ->
    process_line F float line = Ok (Some (server_start_sending (list_to_set l)))).
  { intros line h l Ht Hh Hl. unfold process_line, item. rewrite Ht.
    cbn [or_raise and_then]. change (handlers F float "mlat_wanted")
      with (Some (@process_wanted_message F)).
    unfold process_wanted_message, hexids, item. rewrite Hh.
    cbn [or_raise and_then]. unfold hex_tokens in Hl.
    destruct (String.eqb h ""); [injection Hl as <-; reflexivity|].
    rewrite traverse_or_raise, Hl. reflexivity. }
  assert (H1 : process_line F float Sample.wanted_line =
                 Ok (Some (server_start_sending {[ 0xABCDEF; 0x123456 ]}))).
  { rewrite (Hgen _ "ABCDEF 123456"%string [0xABCDEF; 0x123456]);
      reflexivity. }
  assert (H2 : process_line F float Sample.wanted_nothing_line =
                 Ok (Some (server_start_sending ∅))).
  { rewrite (Hgen _ ""%string []); reflexivity. }
  split; [exact H1|].
  split; [|split; [exact H2|split; [|split; [exact Hgen | exact Hbad]]]].
  - rewrite handle_read_returns by discriminate.
    cbn [partial_line init app]. 
    change (Py.split_bytes "010" (list_byte_of_string Sample.wanted_line ++ ["010"%byte]))
      with [list_byte_of_string Sample.wanted_line; []].
    cbn [List.last List.removelast flat_map app].
    unfold line_events.
    change (Py.decode_ascii (list_byte_of_string Sample.wanted_line))
      with (Some Sample.wanted_line).
    cbn [or_raise and_then]. rewrite H1. reflexivity.
  - rewrite handle_read_returns by discriminate.
    cbn [partial_line init app].
    change (Py.split_bytes "010"
              (list_byte_of_string Sample.wanted_nothing_line ++ ["010"%byte]))
      with [list_byte_of_string Sample.wanted_nothing_line; []].
    cbn [List.last List.removelast flat_map app].
    unfold line_events.
    change (Py.decode_ascii (list_byte_of_string Sample.wanted_nothing_line))
      with (Some Sample.wanted_nothing_line).
    cbn [or_raise and_then]. rewrite H2. reflexivity.
Qed.

End Lines.

(** A witness of [odd_token_dropped]: seven tokens, the key [type] twice
    and a last [hexids] with no value, which leaves the addresses alone;
    and a line whose only [hexids] is the token dropped. *)
Lemma odd_token_dropped_witness :
  let line := String.concat Py.tab
                ["type"; "mlat_status"; "type"; "mlat_wanted";
                 "hexids"; "ABCDEF"; "hexids"]%string in
  let short := String.concat Py.tab ["type"; "mlat_wanted"; "hexids"]%string in
  Nat.odd (length (Py.split Py.TAB line)) = true /\
  Nat.odd (length (Py.split Py.TAB short)) = true /\
  parse_message line =
    Py.dict [("type", "mlat_status"); ("type", "mlat_wanted");
             ("hexids", "ABCDEF")]%string /\
  parse_message line !! "type"%string = Some "mlat_wanted"%string /\
  process_line Empty_set Sample.no_float line =
    Ok (Some (server_start_sending {[ 0xABCDEF ]})) /\
  process_line Empty_set Sample.no_float line =
    process_line Empty_set Sample.no_float
      (String.concat Py.tab
         ["type"; "mlat_status"; "type"; "mlat_wanted";
          "hexids"; "ABCDEF"]%string) /\
  parse_message short !! "hexids"%string = None /\
  process_line Empty_set Sample.no_float short = Err KeyError.
Proof.
  intros line short.
  assert (Hodd : Nat.odd (length (Py.split Py.TAB line)) = true) by reflexivity.
  assert (Hodd' : Nat.odd (length (Py.split Py.TAB short)) = true) by reflexivity.
  destruct (odd_token_dropped Empty_set Sample.no_float line Hodd)
    as (H1 & _ & H3 & _ & _ & H6 & H7).
  destruct (odd_token_dropped Empty_set Sample.no_float short Hodd')
    as (G1 & _ & _ & _ & _ & G6 & _).
  split; [exact Hodd|]. split; [exact Hodd'|]. split; [exact H1|].
  split; [|split; [|split; [|split]]].
  - apply (H3 [("type", "mlat_status")] "type" "mlat_wanted"
              [("hexids", "ABCDEF")])%string.
    + reflexivity.
    + cbn. apply not_elem_of_cons. split; [discriminate | apply not_elem_of_nil].
  - rewrite (H6 "mlat_wanted"%string (@process_wanted_message Empty_set));
      reflexivity.
  - apply (H7 _ "hexids"%string); reflexivity.
  - rewrite G1. reflexivity.
  - rewrite (G6 "mlat_wanted"%string (@process_wanted_message Empty_set));
      reflexivity.
Defined.

(** A witness of [fragmentation_invariance]: a record and the start of the
    next, cut in the middle of a token and across the newline. *)
Lemma fragmentation_invariance_witness :
  let chunks :=
    [list_byte_of_string "type";
     list_byte_of_string (String.append Py.tab "mlat_wan");
     list_byte_of_string
       (String.concat Py.tab ["ted"; "hexids"; "ABCDEF 123456"]%string);
     list_byte_of_string (String.concat Py.nl [""; "ty"]%string);
     list_byte_of_string "pe"] in
  chunks <> [] /\ Forall (fun c => c <> []) chunks /\
  feed Empty_set Sample.no_float chunks init =
    Return {| partial_line := list_byte_of_string "type"; closed := false;
              server_rx_bytes := 42;
              trace := [server_start_sending {[ 0xABCDEF; 0x123456 ]}] |}.
Proof.
  intros chunks.
  assert (Hne : chunks <> []) by discriminate.
  assert (Hall : Forall (fun c : list byte => c <> []) chunks)
    by (repeat (apply List.Forall_cons; [discriminate|]); apply List.Forall_nil).
  split; [exact Hne|]. split; [exact Hall|].
  destruct (fragmentation_invariance Empty_set Sample.no_float chunks init Hne Hall)
    as (-> & _ & ->).
  reflexivity.
Defined.

(** A witness of [wanted_dispatch]: the fields in another order, lower
    case digits, an address twice; and an address after a control
    character, which [int] does not take for white space. *)
Lemma wanted_dispatch_witness :
  let line := String.concat Py.tab
                ["hexids"; "4840d6 A1B2C3 4840D6"; "type"; "mlat_wanted"]%string in
  let bad := String.concat Py.tab
               ["type"; "mlat_wanted"; "hexids"; String "028" "ABCDEF"]%string in
  parse_message line !! "type"%string = Some "mlat_wanted"%string /\
  parse_message line !! "hexids"%string = Some "4840d6 A1B2C3 4840D6"%string /\
  hex_tokens "4840d6 A1B2C3 4840D6" = Some [0x4840D6; 0xA1B2C3; 0x4840D6] /\
  hex_tokens (String "028" "ABCDEF") = None /\
  process_line Empty_set Sample.no_float bad = Err ValueError /\
  process_line Empty_set Sample.no_float line =
    Ok (Some (server_start_sending {[ 0x4840D6; 0xA1B2C3 ]})).
Proof.
  intros line bad.
  assert (Hb : hex_tokens (String "028" "ABCDEF") = None) by reflexivity.
  assert (Ht : parse_message line !! "type"%string = Some "mlat_wanted"%string)
    by reflexivity.
  assert (Hh : parse_message line !! "hexids"%string
               = Some "4840d6 A1B2C3 4840D6"%string) by reflexivity.
  assert (Hl : hex_tokens "4840d6 A1B2C3 4840D6"
               = Some [0x4840D6; 0xA1B2C3; 0x4840D6]) by reflexivity.
  destruct (wanted_dispatch Empty_set Sample.no_float)
    as (_ & _ & _ & _ & H & H').
  split; [exact Ht|]. split; [exact Hh|]. split; [exact Hl|].
  split; [exact Hb|]. split.
  - apply (H' bad (String "028" "ABCDEF")); [reflexivity | reflexivity | exact Hb].
  - rewrite (H line _ _ Ht Hh Hl). reflexivity.
Defined.

End ReaderFacts.

(** ** Writing records *)

Module WriterFacts.

Import Writer.

Section Appends.

Variable F : Type.
Variable format_2f : F -> string.
Variable CLIENT_VERSION : string.






End Appends.


End WriterFacts.

(** ** More on the UDP datagram batcher *)

Module UdpMore.

Import Struct Udp UdpOps UdpFacts.

(** *** What [pack_into] touches *)

Lemma write_at_prefix (b : list Z) (off : nat) (d : list Z) (n : nat) :
  (off + length d <= length b)%nat -> (n <= off)%nat ->
  firstn n (write_at b off d) = firstn n b.
Proof.
  intros H Hn. apply list_eq. intros i.
  destruct (decide (i < n)%nat).
  - rewrite !lookup_take_lt by lia. rewrite write_at_lookup by lia.
    case_decide; [reflexivity|lia].
  - rewrite !lookup_take_ge by lia. reflexivity.
Qed.

Lemma pack_fields_prefix (fs : list fmt) (args : list arg) (b : list Z)
    (off n : nat) :
  (off + size fs <= length b)%nat -> (n <= off)%nat ->
  match pack_fields fs args b off with
  | Packed b' | Failed _ b' => firstn n b' = firstn n b
  end.
Proof.
  revert args b off.
  induction fs as [|f fs IH]; intros [|a args] b off Hroom Hn; simpl in *;
    try reflexivity.
  destruct (pack_field f a) as [d|] eqn:E; [|reflexivity].
  pose proof (pack_field_length _ _ _ E) as L.
  specialize (IH args (write_at b off d) (off + length d)%nat).
  rewrite write_at_length in IH by lia.
  specialize (IH ltac:(lia) ltac:(lia)).
  rewrite write_at_prefix in IH by lia. exact IH.
Qed.

(** Whatever [pack_into] does, the buffer before the offset is as it
    was. *)
Lemma pack_into_prefix (fs : list fmt) (args : list arg) (b : list Z)
    (off n : nat) :
  (n <= off)%nat ->
  match pack_into fs b off args with
  | Packed b' | Failed _ b' => firstn n b' = firstn n b
  end.
Proof.
  intros Hn. unfold pack_into.
  destruct (length fs =? length args)%nat; simpl; [|reflexivity].
  destruct (Nat.ltb_spec (length b) (off + size fs)); [reflexivity|].
  assert (Hz : length (write_at b off (repeat 0 (size fs))) = length b)
    by (apply write_at_length; rewrite repeat_length; lia).
  pose proof (pack_fields_prefix fs args
                (write_at b off (repeat 0 (size fs))) off n
                ltac:(rewrite Hz; lia) Hn) as Hp.
  rewrite write_at_prefix in Hp by (rewrite ?repeat_length; lia).
  exact Hp.
Qed.

Lemma pack_fields_inv (fs : list fmt) (args : list arg) (b b' : list Z)
    (off : nat) :
  (off + size fs <= length b)%nat ->
  pack_fields fs args b off = Packed b' ->
  exists d, pack fs args = Some d /\ b' = write_at b off d.
Proof.
  revert args b off.
  induction fs as [|f fs IH]; intros [|a args] b off Hroom; simpl in *;
    try discriminate.
  - intros [= <-]. exists []. split; [reflexivity|].
    unfold write_at. simpl. rewrite Nat.add_0_r. symmetry. apply take_drop.
  - destruct (pack_field f a) as [d1|] eqn:E1; [|discriminate].
    pose proof (pack_field_length _ _ _ E1) as L1.
    intros H. apply IH in H; [|rewrite write_at_length; lia].
    destruct H as (d2 & Hd2 & ->).
    exists (d1 ++ d2). rewrite Hd2. split; [reflexivity|].
    destruct (pack_length fs args d2 Hd2) as [L2 _].
    apply write_at_app. lia.
Qed.

(** A [pack_into] that succeeds stored the bytes of [pack]. *)
Lemma pack_into_inv (fs : list fmt) (args : list arg) (b b' : list Z)
    (off : nat) :
  pack_into fs b off args = Packed b' ->
  exists d, pack fs args = Some d /\ b' = write_at b off d /\
            (off + size fs <= length b)%nat.
Proof.
  unfold pack_into.
  destruct (length fs =? length args)%nat; simpl; [|discriminate].
  destruct (Nat.ltb_spec (length b) (off + size fs)); [discriminate|].
  assert (Hz : length (write_at b off (repeat 0 (size fs))) = length b)
    by (apply write_at_length; rewrite repeat_length; lia).
  intros Hp. apply pack_fields_inv in Hp; [|rewrite Hz; lia].
  destruct Hp as (d & Hd & ->). exists d. split; [exact Hd|]. split; [|lia].
  destruct (pack_length _ _ _ Hd) as [L _].
  apply write_at_again; rewrite repeat_length; lia.
Qed.

(** *** Counters, sequence numbers and headers *)

Lemma batching_accounted (k : Z) (s0 s1 : UdpServerConnection) :
  accounted k s0 -> batching s0 s1 -> accounted k s1.
Proof.
  intros [A1 A2 A3 A4 A5 A6 A7] (B1 & B2 & B3 & B4 & B5 & B6 & B7).
  split.
  - congruence.
  - congruence.
  - congruence.
  - congruence.
  - congruence.
  - exact B7.
  - rewrite B4. exact A7.
Qed.

Lemma batching_refl (s : UdpServerConnection) : headed s -> batching s s.
Proof. intros H. repeat split; try reflexivity; apply H; assumption. Qed.

(** A struct packed at the end of a batch that has its header. *)
Lemma pack_batching (fs : list fmt) (args : list arg)
    (s0 s : UdpServerConnection) :
  batching s0 s -> used s <> 0%nat -> length (buf s0) = 1500%nat ->
  ensures (pack_and_advance fs (used s) args s)
    (fun s' => batching s0 s' /\ used s' <> 0%nat)
    (fun _ s' => batching s0 s').
Proof.
  intros (B1 & B2 & B3 & B4 & B5 & B6 & B7) Hu Hlen.
  destruct (B7 Hu) as [Hr Hh].
  unfold pack_and_advance.
  pose proof (pack_into_cases fs args (buf s) (used s)) as Hc.
  pose proof (pack_into_prefix fs args (buf s) (used s) 6 ltac:(lia)) as Hp.
  destruct (pack_into fs (buf s) (used s) args) as [b'|why b']; cbn.
  - destruct Hc as [Hl Hroom]. split; [|lia].
    repeat split; cbn; try congruence; try lia.
    rewrite Hp. exact Hh.
  - assert (Hl : length b' = length (buf s))
      by (destruct why; [destruct Hc as [-> _]; reflexivity|exact Hc]).
    repeat split; cbn; try congruence; try lia.
    rewrite Hp. exact Hh.
Qed.

Lemma header_start (k q t : Z) (d : list Z) :
  pack STRUCT_HEADER [Int k; Int q; Int t] = Some d ->
  firstn 6 d = datagram_start k q /\ length d = 14%nat.
Proof.
  unfold STRUCT_HEADER. cbn [pack pack_field].
  destruct (in_range 0 4294967295 k); [|discriminate].
  destruct (in_range 0 65535 q); [|discriminate].
  destruct (in_range 0 18446744073709551615 t); [|discriminate].
  intros [= <-]. split; reflexivity.
Qed.

(** The header of a batch that was empty. *)
Lemma prepare_header_batching (t : Z) (s : UdpServerConnection) :
  used s = 0%nat -> length (buf s) = 1500%nat ->
  ensures (prepare_header t s)
    (fun s' => batching s s' /\ used s' <> 0%nat)
    (fun _ s' => batching s s').
Proof.
  intros Hu Hlen. unfold prepare_header, pack_and_advance.
  cbn [buf key seq set_base].
  pose proof (pack_into_cases STRUCT_HEADER [Int (key s); Int (seq s); Int t]
                (buf s) 0) as Hc.
  destruct (pack_into STRUCT_HEADER (buf s) 0 [Int (key s); Int (seq s); Int t])
    as [b'|why b'] eqn:E; cbn.
  - destruct (pack_into_inv _ _ _ _ _ E) as (d & Hd & -> & _).
    destruct (header_start _ _ _ _ Hd) as [Hs Hld].
    destruct Hc as [Hl _]. rewrite Hu. split; [|discriminate].
    assert (Hh : firstn 6 (write_at (buf s) 0 d) = datagram_start (key s) (seq s)).
    { unfold write_at. rewrite take_0. cbn [app].
      rewrite take_app_le by lia. exact Hs. }
    unfold batching, headed. cbn. repeat split; try lia; exact Hh.
  - assert (Hl : length b' = length (buf s))
      by (destruct why; [destruct Hc as [-> _]; reflexivity|exact Hc]).
    repeat split; cbn; try lia; contradiction.
Qed.

Lemma batching_base (t : option Z) (s0 s : UdpServerConnection) :
  batching s0 s -> batching s0 (set_base t s).
Proof. unfold batching, headed. cbn. tauto. Qed.

Lemma rebase_batching (t : Z) (s0 s : UdpServerConnection) :
  batching s0 s -> used s <> 0%nat -> length (buf s0) = 1500%nat ->
  ensures (rebase t s)
    (fun s' => batching s0 s' /\ used s' <> 0%nat)
    (fun _ s' => batching s0 s').
Proof.
  intros B Hu Hlen. unfold rebase.
  apply (pack_batching STRUCT_REBASE _ s0 (set_base (Some t) s));
    [apply batching_base; exact B|exact Hu|exact Hlen].
Qed.

Lemma wire_bytes_snoc (w : list (list Z * send_result)) (d : list Z)
    (r : send_result) :
  wire_bytes (w ++ [(d, r)]) = wire_bytes w + Z.of_nat (length d).
Proof.
  unfold wire_bytes. induction w as [|x w IH]; cbn in *; [lia|].
  rewrite IH. lia.
Qed.

(** [flush] keeps the accounts: one more datagram, with the header of the
    batch, and the counters moved with it. *)
Lemma flush_accounted (k : Z) (r : send_result) (s : UdpServerConnection) :
  accounted k s -> accounted k (final (flush r s)).
Proof.
  intros A. pose proof A as [A1 A2 A3 A4 A5 A6 A7]. unfold flush.
  destruct (Nat.eqb_spec (used s) 0) as [E|E]; [exact A|].
  destruct (sock s); [|exact A]. cbn [final].
  destruct (A6 E) as [Hr Hh].
  split; cbn.
  - exact A1.
  - exact A2.
  - rewrite length_app, A3. cbn. lia.
  - change 0xffff with (Z.ones 16). rewrite Z.land_ones by lia.
    rewrite A4. apply Z.add_mod_idemp_l. lia.
  - rewrite wire_bytes_snoc, A5, length_take. lia.
  - intros H. contradiction.
  - intros i d r' Hi.
    destruct (decide (i < length (wire s))%nat) as [Hlt|Hge].
    + rewrite lookup_app_l in Hi by exact Hlt. eapply A7. exact Hi.
    + rewrite lookup_app_r in Hi by lia.
      destruct (i - length (wire s))%nat as [|j] eqn:Ej; [|discriminate].
      injection Hi as <- <-.
      assert (i = length (wire s)) as -> by lia.
      rewrite length_take. split; [lia|].
      rewrite take_take. replace (6 `min` used s)%nat with 6%nat by lia.
      rewrite Hh, A1, A4, A3. reflexivity.
Qed.

Lemma flush_if_full_accounted (k : Z) (r : send_result)
    (s : UdpServerConnection) :
  accounted k s -> accounted k (final (flush_if_full r s)).
Proof.
  intros A. unfold flush_if_full.
  destruct (1400 <? used s)%nat; [apply flush_accounted|]; exact A.
Qed.

Lemma batching_trans_accounted (k : Z) (r : send_result)
    (s s1 : UdpServerConnection) :
  accounted k s -> batching s s1 ->
  accounted k (final (flush_if_full r s1)).
Proof.
  intros A B. apply flush_if_full_accounted.
  eapply batching_accounted; eassumption.
Qed.

Lemma send_mlat_accounted (k : Z) (m : message) (r : send_result)
    (s : UdpServerConnection) :
  accounted k s -> accounted k (final (send_mlat m r s)).
Proof.
  intros A. pose proof (acc_buf _ _ A) as Hlen.
  pose proof (acc_headed _ _ A) as Hh.
  apply ensures_final. unfold send_mlat.
  eapply ensures_bind with (Q' := fun s1 => batching s s1 /\ used s1 <> 0%nat).
  { destruct (Nat.eqb_spec (used s) 0) as [E|E].
    - eapply ensures_weaken; [eapply prepare_header_batching; eassumption|auto|].
      intros e s1 B. eapply batching_accounted; eassumption.
    - cbn. split; [apply batching_refl; exact Hh|exact E]. }
  intros s1 [B1 U1].
  destruct (base_timestamp s1) as [b|];
    [|cbn; eapply batching_accounted; eassumption].
  eapply ensures_bind with (Q' := fun s2 => batching s s2 /\ used s2 <> 0%nat).
  { destruct (0x7FFFFFF0 <? Z.abs (timestamp m - b)).
    - eapply ensures_weaken; [eapply rebase_batching; eassumption|auto|].
      intros e s2 B. eapply batching_accounted; eassumption.
    - cbn. auto. }
  intros s2 [B2 U2].
  eapply ensures_bind with (Q' := fun s3 => batching s s3).
  { destruct (length (payload m) =? 7)%nat;
      (eapply ensures_weaken; [eapply pack_batching; eassumption|intros ? [? _]; assumption|]);
      intros e s3 B; eapply batching_accounted; eassumption. }
  intros s3 B3. apply ensures_final.
  eapply batching_trans_accounted; eassumption.
Qed.

Lemma send_sync_accounted (k : Z) (em om : message) (r : send_result)
    (s : UdpServerConnection) :
  accounted k s -> accounted k (final (send_sync em om r s)).
Proof.
  intros A. pose proof (acc_buf _ _ A) as Hlen.
  pose proof (acc_headed _ _ A) as Hh.
  assert (Hkeep : forall s1, batching s s1 -> accounted k s1)
    by (intros; eapply batching_accounted; eassumption).
  apply ensures_final. unfold send_sync.
  eapply ensures_bind with (Q' := fun s1 => batching s s1 /\ used s1 <> 0%nat).
  { destruct (Nat.eqb_spec (used s) 0) as [E|E].
    - apply with_mean_spec; [exact A|]. intros t.
      eapply ensures_weaken; [eapply prepare_header_batching; eassumption|auto|].
      intros e s1 B. auto.
    - cbn. split; [apply batching_refl; exact Hh|exact E]. }
  intros s1 [B1 U1].
  eapply ensures_bind with (Q' := fun s3 => batching s s3).
  { destruct (0xFFFFFFF0 <? Z.abs (timestamp em - timestamp om)).
    { eapply ensures_weaken; [eapply pack_batching; eassumption|intros ? [? _]; assumption|].
      intros e s3 B. auto. }
    destruct (base_timestamp s1) as [b|]; [|cbn; auto].
    assert (Hsync : forall ed od s2, batching s s2 -> used s2 <> 0%nat ->
      ensures (pack_sync em om ed od s2) (fun s3 => batching s s3)
        (fun _ => accounted k)).
    { intros ed od s2 B2 U2. unfold pack_sync.
      eapply ensures_weaken; [eapply pack_batching; eassumption|intros ? [? _]; assumption|].
      intros e s3 B. auto. }
    destruct ((0x7FFFFFF0 <? Z.abs (timestamp em - b))
              || (0x7FFFFFF0 <? Z.abs (timestamp om - b))); [|auto].
    eapply ensures_bind with (Q' := fun s2 => batching s s2 /\ used s2 <> 0%nat).
    - apply with_mean_spec; [auto|]. intros t.
      eapply ensures_weaken; [eapply rebase_batching; eassumption|auto|].
      intros e s2 B. auto.
    - intros s2 [B2 U2]. destruct (base_timestamp s2); [auto|cbn; auto]. }
  intros s3 B3. apply ensures_final.
  eapply batching_trans_accounted; eassumption.
Qed.

Lemma close_accounted (k : Z) (s : UdpServerConnection) :
  accounted k s -> accounted k (close s).
Proof.
  intros [A1 A2 A3 A4 A5 A6 A7]. unfold close. cbn.
  destruct (sock s); split; cbn; auto; intros H; contradiction.
Qed.

Lemma init_accounted (k : Z) : accounted k (init k).
Proof.
  split; cbn; try reflexivity.
  - intros H. contradiction.
  - intros i d r H. discriminate.
Qed.

Lemma perform_accounted (k : Z) (o : operation) (s : UdpServerConnection) :
  accounted k s -> accounted k (final (perform o s)).
Proof.
  intros A. destruct o; cbn [perform final].
  - destruct A. destruct r; split; assumption.
  - apply send_mlat_accounted. exact A.
  - apply send_sync_accounted. exact A.
  - apply flush_accounted. exact A.
  - apply close_accounted. exact A.
Qed.

Lemma play_accounted (k : Z) (ops : list operation) (s : UdpServerConnection) :
  accounted k s -> accounted k (play ops s).
Proof.
  revert s. induction ops as [|o ops IH]; intros s A; cbn [play]; [exact A|].
  apply IH, perform_accounted, A.
Qed.

(** X2. Whatever is called on a new connection ([start], [send_mlat],
    [send_sync], [flush], [close], in any order, the caller going on after
    calls that raised), the counters agree with what was handed to the
    socket: [count] is the number of datagrams, the sequence number is
    [count] modulo 2^16, and the byte statistic is the total length of the
    datagrams. *)
Theorem counters_agree (k : Z) (ops : list operation) :
  let s := play ops (init k) in
  count s = Z.of_nat (length (wire s)) /\
  seq s = count s mod 2 ^ 16 /\
  0 <= seq s < 2 ^ 16 /\
  server_udp_bytes s = wire_bytes (wire s) /\
  key s = k.
Proof.
  intros s. destruct (play_accounted k ops (init k) (init_accounted k))
    as [A1 A2 A3 A4 A5 A6 A7].
  fold s in A1, A3, A4, A5.
  repeat split; try assumption; rewrite A4;
    pose proof (Z.mod_pos_bound (count s) (2 ^ 16)); lia.
Qed.

(** X3. Every datagram handed to the socket is between 14 and 1500 bytes
    long and starts with the key of the connection and its own number
    modulo 2^16, both big-endian: datagrams are numbered consecutively from
    0, also across [close] and across calls that raised. *)
Theorem datagrams_numbered (k : Z) (ops : list operation) (i : nat)
    (d : list Z) (r : send_result) :
  wire (play ops (init k)) !! i = Some (d, r) ->
  (14 <= length d <= 1500)%nat /\
  slice d 0 4 = be_bytes 4 k /\
  slice d 4 2 = be_bytes 2 (Z.of_nat i mod 2 ^ 16) /\
  be_value (slice d 4 2) = Z.of_nat i mod 2 ^ 16.
Proof.
  intros Hi.
  destruct (acc_wire _ _ (play_accounted k ops (init k) (init_accounted k))
              i d r Hi) as [Hl Hs].
  split; [exact Hl|].
  assert (H4 : slice d 0 4 = be_bytes 4 k).
  { unfold slice. rewrite drop_0.
    replace (take 4 d) with (take 4 (take 6 d))
      by (rewrite take_take; reflexivity).
    rewrite Hs. unfold datagram_start.
    apply take_app_length'. rewrite be_bytes_length. reflexivity. }
  assert (H2 : slice d 4 2 = be_bytes 2 (Z.of_nat i mod 2 ^ 16)).
  { unfold slice.
    replace (take 2 (drop 4 d)) with (drop 4 (take 6 d))
      by (rewrite take_drop_commute; reflexivity).
    rewrite Hs. unfold datagram_start.
    rewrite drop_app_length' by (rewrite be_bytes_length; reflexivity).
    rewrite <- (app_nil_r (be_bytes 2 _)) at 1. reflexivity. }
  split; [exact H4|]. split; [exact H2|].
  rewrite H2, be_value_be_bytes. change (8 * Z.of_nat 2) with 16.
  apply Z.mod_mod. lia.
Qed.

(** A witness of [datagrams_numbered]: two short messages, each flushed. *)
Lemma datagrams_numbered_witness :
  let ops := [Start Started; SendMlat (Sample.short_message 1000) Sent; Flush Sent;
              SendMlat (Sample.short_message 2000) Sent; Flush SendFailed] in
  exists d,
    wire (play ops (init 7)) !! 1%nat = Some (d, SendFailed) /\
    slice d 0 6 = [0; 0; 0; 7; 0; 1] /\ length d = 29%nat.
Proof.
  intros ops.
  destruct (wire (play ops (init 7)) !! 1%nat) as [[d r]|] eqn:E;
    [|vm_compute in E; discriminate].
  assert (r = SendFailed) as -> by (vm_compute in E; congruence).
  destruct (datagrams_numbered 7 ops 1 d SendFailed E) as (Hl & H4 & H2 & _).
  exists d. split; [reflexivity|]. split.
  - change 6%nat with (4 + 2)%nat. unfold slice in *.
    rewrite drop_0 in *.
    rewrite <- (take_drop 4 (take (4 + 2) d)).
    rewrite take_take, skipn_firstn_comm. cbn [Nat.min Nat.sub Nat.add].
    rewrite H4, H2. reflexivity.
  - vm_compute in E. injection E as <-. reflexivity.
Defined.

(** *** The first submessage of a datagram *)

Lemma pack_mlat_fit (tag a delta : Z) (n : nat) (p : list Z) :
  0 <= tag <= 255 -> 0 <= a < 2 ^ 24 -> - 2 ^ 31 <= delta < 2 ^ 31 ->
  pack [fmt_B; fmt_B; fmt_B; fmt_B; fmt_i; fmt_s n]
       (Int tag :: address_args a ++ [Int delta; Bytes p]) =
    Some (tag :: address_bytes a ++ be_bytes 4 delta ++ fit n p).
Proof.
  intros Ht Ha Hd. apply pack_tagged; auto.
  cbn [pack pack_field]. rewrite in_range_true by lia.
  rewrite app_nil_r. reflexivity.
Qed.

(** X4. [send_mlat] on an empty batch starts a datagram: the 14-byte
    header with the key, the sequence number and the timestamp of the
    message as base, then the MLAT submessage with delta 0 and no REBASE,
    whatever base timestamp an earlier batch left behind.  Nothing is sent
    yet.  A 7-byte payload gives MLAT_SHORT; a payload of any other length
    gives MLAT_LONG, cut or padded with null bytes to 14 bytes. *)
Theorem send_mlat_first (m : message) (r : send_result)
    (s : UdpServerConnection) :
  0 <= address m < 2 ^ 24 -> 0 <= timestamp m < 2 ^ 64 ->
  0 <= key s < 2 ^ 32 -> 0 <= seq s < 2 ^ 16 ->
  used s = 0%nat -> length (buf s) = 1500%nat ->
  exists s',
    send_mlat m r s = Return s' /\
    used s' = (22 + length (mlat_payload m))%nat /\
    base_timestamp s' = Some (timestamp m) /\
    slice (buf s') 0 14 =
      be_bytes 4 (key s) ++ be_bytes 2 (seq s) ++ be_bytes 8 (timestamp m) /\
    slice (buf s') 14 (8 + length (mlat_payload m)) =
      mlat_tag m :: address_bytes (address m) ++ [0; 0; 0; 0] ++ mlat_payload m /\
    (length (payload m) = 7%nat -> mlat_payload m = payload m) /\
    (length (payload m) = 14%nat -> mlat_payload m = payload m) /\
    wire s' = wire s /\ seq s' = seq s /\ count s' = count s.
Proof.
  intros Ha Ht Hk Hq Hu Hlen. unfold send_mlat.
  rewrite Hu. cbn [Nat.eqb]. unfold prepare_header.
  rewrite (pack_and_advance_return _ _ _ _ _
             (pack_header (key s) (seq s) (timestamp m) Hk Hq Ht))
    by (cbn [buf set_base]; rewrite Hlen; simpl; lia).
  cbn [bind base_timestamp set_used set_buf set_base key seq buf used].
  rewrite Z.sub_diag. change (0x7FFFFFF0 <? Z.abs 0) with false.
  cbn [bind]. rewrite Hu.
  set (hdr := be_bytes 4 (key s) ++ be_bytes 2 (seq s) ++ be_bytes 8 (timestamp m)).
  assert (Lh : length hdr = 14%nat)
    by (subst hdr; rewrite !length_app, !be_bytes_length; reflexivity).
  set (s1 := set_used (0 + size STRUCT_HEADER)
               (set_buf (write_at (buf s) 0 hdr)
                  (set_base (Some (timestamp m)) s))).
  assert (L1 : length (buf s1) = 1500%nat)
    by (subst s1; cbn [buf set_used set_buf set_base];
        rewrite write_at_length; rewrite ?Lh; lia).
  set (n := if (length (payload m) =? 7)%nat then 7%nat else 14%nat).
  set (d := mlat_tag m :: address_bytes (address m)
              ++ be_bytes 4 0 ++ mlat_payload m).
  assert (Ln : length (mlat_payload m) = n)
    by (unfold mlat_payload; apply fit_length).
  assert (Ld : length d = (8 + n)%nat).
  { subst d. unfold address_bytes. cbn [length app].
    rewrite length_app, be_bytes_length, Ln. lia. }
  assert (Hn : (n = 7 \/ n = 14)%nat)
    by (subst n; destruct (length (payload m) =? 7)%nat; auto).
  assert (H2 : exists s2,
    (if (length (payload m) =? 7)%nat then
       pack_and_advance STRUCT_MLAT_SHORT (used s1)
         (Int TYPE_MLAT_SHORT :: address_args (address m)
            ++ [Int 0; Bytes (payload m)]) s1
     else
       pack_and_advance STRUCT_MLAT_LONG (used s1)
         (Int TYPE_MLAT_LONG :: address_args (address m)
            ++ [Int 0; Bytes (payload m)]) s1) = Return s2 /\
    s2 = set_used (14 + (8 + n)) (set_buf (write_at (buf s1) 14 d) s1)).
  { subst d n. unfold mlat_tag, mlat_payload.
    destruct (length (payload m) =? 7)%nat.
    - eexists. rewrite (pack_and_advance_return _ _ _ _ _
        (pack_mlat_fit TYPE_MLAT_SHORT _ 0 7 (payload m)
           ltac:(unfold TYPE_MLAT_SHORT; lia) Ha ltac:(lia)))
        by (rewrite L1; simpl; lia).
      split; reflexivity.
    - eexists. rewrite (pack_and_advance_return _ _ _ _ _
        (pack_mlat_fit TYPE_MLAT_LONG _ 0 14 (payload m)
           ltac:(unfold TYPE_MLAT_LONG; lia) Ha ltac:(lia)))
        by (rewrite L1; simpl; lia).
      split; reflexivity. }
  destruct H2 as (s2 & -> & ->). cbn [bind].
  unfold flush_if_full. cbn [used set_used].
  destruct (Nat.ltb_spec 1400 (14 + (8 + n))) as [?|_]; [lia|].
  eexists. split; [reflexivity|].
  cbn [used base_timestamp buf wire seq count set_used set_buf set_base].
  subst s1. cbn [buf set_used set_buf set_base].
  assert (Lw : length (write_at (buf s) 0 hdr) = 1500%nat)
    by (rewrite write_at_length; rewrite ?Lh; lia).
  rewrite Ln. split; [lia|]. split; [reflexivity|]. split.
  - rewrite slice_write_at_other by (rewrite ?Lw, ?Ld; lia).
    apply slice_write_at_n; [exact Lh|lia].
  - split.
    + apply slice_write_at_n; [exact Ld|rewrite Lw; lia].
    + split; [|split; [|auto]]; intros E; unfold mlat_payload; rewrite E;
        cbn [Nat.eqb]; apply fit_exact; exact E.
Qed.

(** A witness of [send_mlat_first]: a three-byte payload after [close]. *)
Lemma send_mlat_first_witness :
  let s := close Sample.one_pending in
  let m := Sample.odd_message 5000 in
  used s = 0%nat /\ base_timestamp s = Some 1000 /\
  exists s',
    send_mlat m Sent s = Return s' /\
    used s' = 36%nat /\ base_timestamp s' = Some 5000 /\
    slice (buf s') 14 22 =
      [3; 0x48; 0x40; 0xD6; 0; 0; 0; 0; 1; 2; 3; 0; 0; 0; 0; 0; 0; 0; 0; 0; 0; 0].
Proof.
  intros s m.
  split; [reflexivity|]. split; [reflexivity|].
  assert (Ha : 0 <= address m < 2 ^ 24) by (change (address m) with 0x4840D6; lia).
  assert (Ht : 0 <= timestamp m < 2 ^ 64) by (change (timestamp m) with 5000; lia).
  assert (Hk : 0 <= key s < 2 ^ 32) by (change (key s) with 7; lia).
  assert (Hq : 0 <= seq s < 2 ^ 16) by (change (seq s) with 0; lia).
  destruct (send_mlat_first m Sent s Ha Ht Hk Hq eq_refl eq_refl)
    as (s' & H1 & H2 & H3 & _ & H5 & _).
  exists s'. split; [exact H1|]. split; [exact H2|]. split; [exact H3|].
  exact H5.
Defined.

(** A witness of [send_sync_exact_mean]: a pair far from the base. *)
Lemma send_sync_exact_mean_witness :
  let em := Sample.long_message (2 ^ 40) 1 in
  let om := Sample.long_message (2 ^ 40 + 11) 2 in
  valid_message em /\ valid_message om /\
  exists s',
    send_sync em om Sent Sample.one_pending = Return s' /\
    slice (buf s') 29 9 = TYPE_REBASE :: be_bytes 8 (2 ^ 40 + 5) /\
    slice (buf s') 38 12 =
      TYPE_SYNC :: address_bytes 0xABCDEF ++ be_bytes 4 (-5) ++ be_bytes 4 6.
Proof.
  intros em om.
  assert (He : valid_message em) by (apply long_message_valid; lia).
  assert (Ho : valid_message om) by (apply long_message_valid; lia).
  split; [exact He|]. split; [exact Ho|].
  assert (Te : timestamp em < 2 ^ 52) by (change (timestamp em) with (2 ^ 40); lia).
  assert (To : timestamp om < 2 ^ 52)
    by (change (timestamp om) with (2 ^ 40 + 11); lia).
  assert (Hu : (0 < used Sample.one_pending <= 1400)%nat)
    by (change (used Sample.one_pending) with 29%nat; lia).
  assert (Hs : sock Sample.one_pending <> None) by discriminate.
  destruct (send_sync_exact_mean em om Sent Sample.one_pending 1000 He Ho
              Te To Hu eq_refl Hs eq_refl) as (s' & H1 & H2).
  exists s'. split; [exact H1|].
  destruct H2 as (Hr & _ & Hy & _). split; [exact Hr|].
  replace (slice (buf s') 38 12) with (take 12 (slice (buf s') (29 + 9) 40))
    by (unfold slice; rewrite take_take; reflexivity).
  change (used Sample.one_pending + 9)%nat with (29 + 9)%nat in Hy.
  rewrite Hy. reflexivity.
Defined.

(** *** Values that do not fit *)

Lemma pack_bad_address (tag a : Z) (fs : list fmt) (rest : list arg) :
  a < 0 \/ 2 ^ 24 <= a ->
  pack (fmt_B :: fmt_B :: fs) (Int tag :: address_args a ++ rest) = None.
Proof.
  intros Ha. unfold address_args. cbn [app pack].
  assert (H : pack_field fmt_B (Int (Z.shiftr a 16)) = None).
  { cbn [pack_field]. unfold in_range.
    rewrite Z.shiftr_div_pow2 by lia.
    destruct Ha as [Ha|Ha].
    - assert (a / 2 ^ 16 < 0) by (apply Z.div_lt_upper_bound; lia).
      destruct (Z.leb_spec 0 (a / 2 ^ 16)); [lia|reflexivity].
    - assert (256 <= a / 2 ^ 16) by (apply Z.div_le_lower_bound; lia).
      destruct (Z.leb_spec (a / 2 ^ 16) 255); [lia|].
      rewrite andb_false_r. reflexivity. }
  rewrite H. destruct (pack_field fmt_B (Int tag)); reflexivity.
Qed.

(** A struct with a value that does not fit raises, the occupancy
    unchanged. *)
Lemma pack_and_advance_bad (fs : list fmt) (off : nat) (args : list arg)
    (s : UdpServerConnection) :
  pack fs args = None -> (off + size fs <= length (buf s))%nat ->
  exists s', pack_and_advance fs off args s = Raise (StructError BadValue) s' /\
             unsent s s' /\ used s' = used s.
Proof.
  intros Hp Hroom. unfold pack_and_advance.
  pose proof (pack_into_cases fs args (buf s) off) as Hc.
  destruct (pack_into fs (buf s) off args) as [b'|[] b'] eqn:E.
  - destruct (pack_into_inv _ _ _ _ _ E) as (d & Hd & _). congruence.
  - destruct Hc as [_ Hc]. lia.
  - eexists. split; [reflexivity|]. repeat split.
Qed.

Lemma pack_and_advance_unsent (fs : list fmt) (off : nat) (args : list arg)
    (s : UdpServerConnection) :
  unsent s (final (pack_and_advance fs off args s)).
Proof.
  unfold pack_and_advance.
  destruct (pack_into fs (buf s) off args); repeat split.
Qed.

(** X5. [send_mlat] of a message whose address does not fit 24 bits raises
    [struct.error] for the value: the address is not sent truncated.
    Nothing is handed to the socket and no counter moves; at most the
    header of a new datagram and a REBASE have been added to the batch. *)
Theorem send_mlat_bad_address (m : message) (r : send_result)
    (s : UdpServerConnection) :
  address m < 0 \/ 2 ^ 24 <= address m ->
  length (buf s) = 1500%nat -> (used s <= 1400)%nat ->
  (used s <> 0%nat -> base_timestamp s <> None) ->
  exists s',
    send_mlat m r s = Raise (StructError BadValue) s' /\
    unsent s s' /\ (used s <= used s' <= used s + 23)%nat.
Proof.
  intros Ha Hlen Hused Hbase.
  assert (Goal : ensures (send_mlat m r s) (fun _ => False)
            (fun e s' => e = StructError BadValue /\ unsent s s' /\
                         (used s <= used s' <= used s + 23)%nat)).
  { unfold send_mlat.
    eapply ensures_bind with
      (Q' := fun s1 => unsent s s1 /\ length (buf s1) = 1500%nat /\
                       (used s <= used s1 <= used s + 14)%nat /\
                       base_timestamp s1 <> None).
    { destruct (Nat.eqb_spec (used s) 0) as [E|E].
      - pose proof (prepare_header_spec (timestamp m) s) as H1.
        pose proof (pack_and_advance_unsent STRUCT_HEADER 0
                      [Int (key s); Int (seq s); Int (timestamp m)]
                      (set_base (Some (timestamp m)) s)) as H2.
        unfold prepare_header in *. cbn [key seq set_base] in *.
        unfold unsent in H2.
        cbn [wire count seq server_udp_bytes set_base] in H2.
        destruct (pack_and_advance _ _ _ _) as [s1|e s1];
          cbn [ensures final] in *.
        + destruct H1 as (U & L & B). rewrite B.
          unfold unsent. repeat split; try apply H2; try lia. discriminate.
        + destruct H1 as (U & L & why & -> & Hw).
          rewrite Hw by lia. unfold unsent.
          repeat split; try apply H2; lia.
      - cbn. repeat split; auto; lia. }
    intros s1 (N1 & L1 & U1 & B1).
    destruct (base_timestamp s1) as [b|] eqn:Hb; [|contradiction].
    eapply ensures_bind with
      (Q' := fun s2 => unsent s s2 /\ length (buf s2) = 1500%nat /\
                       (used s <= used s2 <= used s + 23)%nat).
    { destruct (0x7FFFFFF0 <? Z.abs (timestamp m - b)).
      - pose proof (rebase_spec (timestamp m) s1) as H1.
        pose proof (pack_and_advance_unsent STRUCT_REBASE (used s1)
                      [Int TYPE_REBASE; Int (timestamp m)]
                      (set_base (Some (timestamp m)) s1)) as H2.
        unfold rebase in *. cbn [used set_base] in *.
        destruct N1 as (N1 & N2 & N3 & N4).
        unfold unsent in H2.
        cbn [wire count seq server_udp_bytes set_base] in H2.
        destruct (pack_and_advance _ _ _ _) as [s2|e s2];
          cbn [ensures final] in *.
        + destruct H1 as (U & L & _). destruct H2 as (W1 & W2 & W3 & W4).
          unfold unsent. repeat split; try congruence; lia.
        + destruct H1 as (U & L & why & -> & Hw).
          destruct H2 as (W1 & W2 & W3 & W4).
          rewrite Hw by lia. unfold unsent.
          repeat split; try congruence; lia.
      - cbn. repeat split; try apply N1; lia. }
    intros s2 ((N1' & N2' & N3' & N4') & L2 & U2).
    assert (Hfail : forall tag fs' rest,
      (used s2 + size (fmt_B :: fmt_B :: fs') <= 1500)%nat ->
      ensures
        (pack_and_advance (fmt_B :: fmt_B :: fs') (used s2)
           (Int tag :: address_args (address m) ++ rest) s2
         >>= fun s3 => flush_if_full r s3)
        (fun _ => False)
        (fun e s' => e = StructError BadValue /\ unsent s s' /\
                     (used s <= used s' <= used s + 23)%nat)).
    { intros tag fs' rest Hroom.
      destruct (pack_and_advance_bad (fmt_B :: fmt_B :: fs') (used s2)
                  (Int tag :: address_args (address m) ++ rest) s2
                  (pack_bad_address tag _ fs' rest Ha)
                  ltac:(rewrite L2; exact Hroom))
        as (s3 & -> & (W1 & W2 & W3 & W4) & U3).
      cbn. repeat split; try congruence; lia. }
    destruct (length (payload m) =? 7)%nat; apply Hfail; simpl; lia. }
  destruct (send_mlat m r s) as [s'|e s']; cbn in Goal; [contradiction|].
  destruct Goal as (-> & H1 & H2). exists s'. auto.
Qed.

(** A witness of [send_mlat_bad_address]: a 25-bit address on a batch of
    one message. *)
Lemma send_mlat_bad_address_witness :
  let s := Sample.one_pending in
  let m := Sample.wide_address_message in
  (address m < 0 \/ 2 ^ 24 <= address m) /\
  exists s', send_mlat m Sent s = Raise (StructError BadValue) s' /\
             wire s' = [] /\ used s' = 29%nat.
Proof.
  intros s m.
  assert (Ha : address m < 0 \/ 2 ^ 24 <= address m)
    by (right; change (address m) with 0x1ABCDEF; lia).
  split; [exact Ha|].
  assert (Hu : (used s <= 1400)%nat) by (change (used s) with 29%nat; lia).
  assert (Hb : used s <> 0%nat -> base_timestamp s <> None)
    by (intros _; discriminate).
  destruct (send_mlat_bad_address m Sent s Ha eq_refl Hu Hb)
    as (s' & H1 & (W & _) & _).
  exists s'. split; [exact H1|]. split; [exact W|].
  assert (E : final (send_mlat m Sent s) = s') by (rewrite H1; reflexivity).
  rewrite <- E. reflexivity.
Defined.

(** Only [start] and [close] touch the socket. *)
Lemma pack_and_advance_sock (fs : list fmt) (off : nat) (args : list arg)
    (s : UdpServerConnection) :
  sock (final (pack_and_advance fs off args s)) = sock s.
Proof. unfold pack_and_advance. destruct (pack_into _ _ _ _); reflexivity. Qed.

Lemma flush_sock (r : send_result) (s : UdpServerConnection) :
  sock (final (flush r s)) = sock s.
Proof.
  unfold flush. destruct (used s =? 0)%nat; [reflexivity|].
  destruct (sock s) eqn:E; cbn; congruence.
Qed.

Lemma bind_sock (o : outcome UdpServerConnection)
    (k : UdpServerConnection -> outcome UdpServerConnection)
    (x : option socket) :
  sock (final o) = x -> (forall s, sock s = x -> sock (final (k s)) = x) ->
  sock (final (o >>= k)) = x.
Proof. destruct o; cbn; auto. Qed.

Ltac sock_step :=
  first
    [ reflexivity
    | assumption
    | apply bind_sock; [|intros ? ?]
    | rewrite pack_and_advance_sock; cbn [sock set_base]
    | rewrite flush_sock
    | match goal with
      | |- context [if ?b then _ else _] => destruct b
      | |- context [match ?x with _ => _ end] => destruct x eqn:?
      end ]; cbn [final].

(** A connection that has a socket keeps one. *)
Lemma perform_sock (o : operation) (s : UdpServerConnection) :
  sock s <> None -> sock (final (perform o s)) <> None.
Proof.
  intros H. destruct o; cbn [perform final].
  - destruct r; cbn; solve [discriminate | assumption].
  - enough (sock (final (send_mlat m r s)) = sock s) by congruence.
    unfold send_mlat, prepare_header, rebase, flush_if_full.
    repeat sock_step.
  - enough (sock (final (send_sync em om r s)) = sock s) by congruence.
    unfold send_sync, with_mean, pack_sync, prepare_header, rebase, flush_if_full.
    repeat sock_step.
  - rewrite flush_sock. assumption.
  - unfold close. cbn. destruct (sock s); [discriminate | contradiction].
Qed.

(** With a socket [flush] returns, and hands over the batch if there is
    one. *)
Lemma flush_returns (r : send_result) (s : UdpServerConnection) :
  sock s <> None ->
  flush r s = Return (final (flush r s)) /\ used (final (flush r s)) = 0%nat /\
  wire (final (flush r s)) =
    wire s ++ (if (used s =? 0)%nat then [] else [(firstn (used s) (buf s), r)]).
Proof.
  intros H. unfold flush. destruct (used s =? 0)%nat eqn:E.
  - apply Nat.eqb_eq in E. cbn. rewrite app_nil_r. auto.
  - destruct (sock s); [|contradiction]. cbn. auto.
Qed.

(** X6. [send_sync] of a pair whose timestamps are more than 0xFFFFFFF0
    apart, on a batch that is not empty: it returns, having written one
    48-byte ABS_SYNC submessage at the end of the batch that carries both
    timestamps in full, so that each reads back exactly; the bytes before
    it are untouched, no REBASE is written and the base timestamp is not
    read or changed (unless the datagram was flushed). *)
Theorem send_sync_absolute (em om : message) (r : send_result)
    (s : UdpServerConnection) :
  0 <= address em < 2 ^ 24 ->
  0 <= timestamp em < 2 ^ 64 -> 0 <= timestamp om < 2 ^ 64 ->
  0xFFFFFFF0 < Z.abs (timestamp em - timestamp om) ->
  (0 < used s <= 1400)%nat -> length (buf s) = 1500%nat -> sock s <> None ->
  exists s',
    send_sync em om r s = Return s' /\
    slice (buf s') (used s) 48 =
      TYPE_ABS_SYNC :: address_bytes (address em)
        ++ be_bytes 8 (timestamp em) ++ be_bytes 8 (timestamp om)
        ++ sync_payloads em om /\
    be_value (slice (buf s') (used s + 4) 8) = timestamp em /\
    be_value (slice (buf s') (used s + 12) 8) = timestamp om /\
    firstn (used s) (buf s') = firstn (used s) (buf s) /\
    (used s' = 0%nat \/
     used s' = (used s + 48)%nat /\ base_timestamp s' = base_timestamp s /\
     wire s' = wire s).
Proof.
  intros Ha He Ho Hfar Hu Hlen Hsock. unfold send_sync.
  destruct (Nat.eqb_spec (used s) 0) as [E|_]; [lia|]. cbn [bind].
  replace (0xFFFFFFF0 <? Z.abs (timestamp em - timestamp om)) with true
    by (symmetry; apply Z.ltb_lt; exact Hfar).
  set (d := TYPE_ABS_SYNC :: address_bytes (address em)
              ++ be_bytes 8 (timestamp em) ++ be_bytes 8 (timestamp om)
              ++ fit 14 (payload em) ++ fit 14 (payload om)).
  assert (Ld : length d = 48%nat).
  { subst d. unfold address_bytes. cbn [length app].
    rewrite !length_app, !be_bytes_length, !fit_length. reflexivity. }
  rewrite (pack_and_advance_return _ _ _ _ _
             (pack_abs_sync_bytes (address em) (timestamp em) (timestamp om)
                (payload em) (payload om) Ha He Ho))
    by (rewrite Hlen; simpl; lia).
  fold d. cbn [bind].
  set (s1 := set_used _ _).
  assert (Hs1 : sock s1 <> None) by exact Hsock.
  assert (Hw : (used s + length d <= length (buf s))%nat) by lia.
  assert (Hb : forall s', buf s' = buf s1 ->
            slice (buf s') (used s) 48 = d /\
            be_value (slice (buf s') (used s + 4) 8) = timestamp em /\
            be_value (slice (buf s') (used s + 12) 8) = timestamp om /\
            firstn (used s) (buf s') = firstn (used s) (buf s)).
  { intros s' ->. subst s1. cbn [buf set_used set_buf].
    assert (H48 : slice (write_at (buf s) (used s) d) (used s) 48 = d)
      by (apply slice_write_at_n; [exact Ld | lia]).
    split; [exact H48|].
    assert (Hsub : forall off n, (off + n <= 48)%nat ->
              slice (write_at (buf s) (used s) d) (used s + off) n =
              slice d off n).
    { intros off n Hn. rewrite <- H48 at 2. apply list_eq. intros i.
      rewrite !slice_lookup. repeat case_decide; try lia; [|reflexivity].
      f_equal. lia. }
    rewrite (Hsub 4%nat 8%nat), (Hsub 12%nat 8%nat) by lia.
    split; [|split].
    - subst d. unfold address_bytes, slice. cbn [app skipn].
      rewrite drop_0.
      rewrite take_app_length' by (rewrite be_bytes_length; reflexivity).
      apply be64_roundtrip, He.
    - subst d. unfold address_bytes, slice. cbn [app].
      change 12%nat with (4 + 8)%nat. rewrite <- drop_drop. cbn [skipn].
      rewrite drop_0.
      rewrite drop_app_length' by (rewrite be_bytes_length; reflexivity).
      rewrite take_app_length' by (rewrite be_bytes_length; reflexivity).
      apply be64_roundtrip, Ho.
    - apply write_at_prefix; lia. }
  unfold flush_if_full.
  destruct (1400 <? used s1)%nat.
  - unfold flush. destruct (Nat.eqb_spec (used s1) 0) as [E|_].
    + subst s1. cbn [used set_used] in E. simpl in E. lia.
    + destruct (sock s1); [|contradiction].
      eexists. split; [reflexivity|]. cbn [buf used].
      destruct (Hb s1 eq_refl) as (H1 & H2 & H3 & H4).
      repeat split; auto.
  - exists s1. split; [reflexivity|].
    destruct (Hb s1 eq_refl) as (H1 & H2 & H3 & H4).
    repeat split; auto.
Qed.

(** A witness of [send_sync_absolute]: timestamps 1000 and 2^33 after one
    pending message. *)
Lemma send_sync_absolute_witness :
  let s := Sample.one_pending in
  let em := Sample.long_message 1000 1 in
  let om := Sample.long_message (2 ^ 33) 2 in
  0xFFFFFFF0 < Z.abs (timestamp em - timestamp om) /\
  exists s',
    send_sync em om Sent s = Return s' /\
    be_value (slice (buf s') 33 8) = 1000 /\
    be_value (slice (buf s') 41 8) = 2 ^ 33 /\
    used s' = 77%nat /\ base_timestamp s' = Some 1000.
Proof.
  intros s em om.
  assert (Hf : 0xFFFFFFF0 < Z.abs (timestamp em - timestamp om))
    by (change (timestamp em) with 1000; change (timestamp om) with (2 ^ 33);
        lia).
  split; [exact Hf|].
  assert (Ha : 0 <= address em < 2 ^ 24)
    by (change (address em) with 0xABCDEF; lia).
  assert (He : 0 <= timestamp em < 2 ^ 64)
    by (change (timestamp em) with 1000; lia).
  assert (Ho : 0 <= timestamp om < 2 ^ 64)
    by (change (timestamp om) with (2 ^ 33); lia).
  assert (Hu : (0 < used s <= 1400)%nat)
    by (change (used s) with 29%nat; lia).
  assert (Hs : sock s <> None) by discriminate.
  destruct (send_sync_absolute em om Sent s Ha He Ho Hf Hu eq_refl Hs)
    as (s' & H1 & _ & H2 & H3 & _ & H4).
  exists s'. split; [exact H1|]. split; [exact H2|]. split; [exact H3|].
  destruct H4 as [H4|(H4 & H5 & _)].
  - exfalso. assert (E : final (send_sync em om Sent s) = s')
      by (rewrite H1; reflexivity).
    rewrite <- E in H4. vm_compute in H4. discriminate.
  - split; [exact H4 | exact H5].
Defined.

End UdpMore.

(** ** Strings, lines and numbers *)

(** Concrete tokens are plain by inspection. *)
Ltac plain_string :=
  unfold Py.plain; cbn [list_ascii_of_string];
  repeat (apply List.Forall_cons; [split; [reflexivity | split; discriminate]|]);
  apply List.Forall_nil.

Module PyFacts.

Lemma chars_app (s1 s2 : string) :
  list_ascii_of_string (s1 +:+ s2) =
  list_ascii_of_string s1 ++ list_ascii_of_string s2.
Proof. induction s1 as [|c s1 IH]; simpl; [reflexivity | f_equal; exact IH]. Qed.

Lemma bytes_app (s1 s2 : string) :
  list_byte_of_string (s1 +:+ s2) =
  list_byte_of_string s1 ++ list_byte_of_string s2.
Proof. unfold list_byte_of_string. now rewrite chars_app, map_app. Qed.

Lemma byte_value (c : ascii) : Byte.to_N (byte_of_ascii c) = N_of_ascii c.
Proof. destruct c as [[] [] [] [] [] [] [] []]; reflexivity. Qed.

(** A string is ASCII when each of its characters is below 128. *)
Lemma encode_ascii_chars (s : string) :
  Forall (fun c => (N_of_ascii c < 128)%N) (list_ascii_of_string s) ->
  Py.encode_ascii s = Some (list_byte_of_string s).
Proof.
  intros H. unfold Py.encode_ascii.
  replace (forallb _ _) with true; [reflexivity|].
  symmetry. apply forallb_forall. intros x Hx.
  unfold list_byte_of_string in Hx. apply in_map_iff in Hx as (c & <- & Hc).
  rewrite byte_value. apply N.ltb_lt.
  rewrite List.Forall_forall in H. exact (H c Hc).
Qed.

Lemma encode_ascii_inv (s : string) (b : list byte) :
  Py.encode_ascii s = Some b ->
  b = list_byte_of_string s /\
  Forall (fun c => (N_of_ascii c < 128)%N) (list_ascii_of_string s).
Proof.
  unfold Py.encode_ascii. destruct (forallb _ _) eqn:E; [|discriminate].
  intros [= <-]. split; [reflexivity|].
  apply List.Forall_forall. intros c Hc.
  rewrite forallb_forall in E.
  specialize (E (byte_of_ascii c)). rewrite byte_value in E.
  apply N.ltb_lt, E. unfold list_byte_of_string. now apply in_map.
Qed.

Lemma split_plain (sep : ascii) (s : string) :
  Forall (fun c => c <> sep) (list_ascii_of_string s) -> Py.split sep s = [s].
Proof.
  induction s as [|c s IH]; intros H; [reflexivity|].
  simpl in H. apply List.Forall_cons_iff in H as [Hc Hs].
  simpl. destruct (Ascii.eqb_spec c sep) as [->|_]; [contradiction|].
  now rewrite (IH Hs).
Qed.

Lemma split_app (sep : ascii) (s rest : string) :
  Forall (fun c => c <> sep) (list_ascii_of_string s) ->
  Py.split sep (s +:+ String sep rest) = s :: Py.split sep rest.
Proof.
  induction s as [|c s IH]; intros H.
  - simpl. now rewrite Ascii.eqb_refl.
  - simpl in H. apply List.Forall_cons_iff in H as [Hc Hs].
    simpl. destruct (Ascii.eqb_spec c sep) as [->|_]; [contradiction|].
    now rewrite (IH Hs).
Qed.

Lemma split_concat (sep : ascii) (tokens : list string) :
  tokens <> [] ->
  Forall (fun t => Forall (fun c => c <> sep) (list_ascii_of_string t)) tokens ->
  Py.split sep (String.concat (String sep "") tokens) = tokens.
Proof.
  induction tokens as [|t ts IH]; intros Hne H; [contradiction|].
  apply List.Forall_cons_iff in H as [Ht Hts].
  destruct ts as [|t' ts].
  - simpl. now apply split_plain.
  - change (String.concat (String sep "") (t :: t' :: ts))
      with (t +:+ String sep (String.concat (String sep "") (t' :: ts))).
    rewrite split_app by assumption. f_equal. apply IH; [discriminate | assumption].
Qed.

Lemma split_bytes_line (sep : byte) (b : list byte) :
  Forall (fun x => x <> sep) b -> Py.split_bytes sep (b ++ [sep]) = [b; []].
Proof.
  induction b as [|x b IH]; intros H.
  - simpl. now rewrite (Byte.byte_dec_lb (eq_refl sep)).
  - apply List.Forall_cons_iff in H as [Hx Hb]. simpl.
    destruct (Byte.eqb x sep) eqn:E.
    + apply Byte.byte_dec_bl in E. contradiction.
    + now rewrite (IH Hb).
Qed.

Lemma pairs_flat (kwargs : list (string * string)) :
  Reader.pairs (flat_map (fun kv => [kv.1; kv.2]) kwargs) = kwargs.
Proof.
  induction kwargs as [|[k v] kw IH]; [reflexivity|].
  change (flat_map _ ((k, v) :: kw)) with (k :: v :: flat_map (fun kv => [kv.1; kv.2]) kw).
  rewrite ReaderFacts.pairs_cons. now rewrite IH.
Qed.

Lemma concat_chars (P : ascii -> Prop) (sep : string) (tokens : list string) :
  Forall P (list_ascii_of_string sep) ->
  Forall (fun t => Forall P (list_ascii_of_string t)) tokens ->
  Forall P (list_ascii_of_string (String.concat sep tokens)).
Proof.
  intros Hsep. induction tokens as [|t ts IH]; intros H.
  - constructor.
  - apply List.Forall_cons_iff in H as [Ht Hts]. destruct ts as [|t' ts].
    + exact Ht.
    + change (String.concat sep (t :: t' :: ts))
        with (t +:+ sep +:+ String.concat sep (t' :: ts)).
      rewrite !chars_app. rewrite !Forall_app. auto.
Qed.

Lemma tabbed_ascii (tokens : list string) :
  Forall (fun t => Forall (fun c => (N_of_ascii c < 128)%N)
                     (list_ascii_of_string t)) tokens ->
  Py.encode_ascii (Writer.tabbed tokens) =
  Some (list_byte_of_string (String.concat Py.tab tokens) ++ ["010"%byte]).
Proof.
  intros H. unfold Writer.tabbed.
  rewrite encode_ascii_chars.
  - rewrite bytes_app. reflexivity.
  - rewrite chars_app, Forall_app. split.
    + apply concat_chars; [|assumption]. repeat constructor.
    + repeat constructor.
Qed.

Lemma dec_chars (d : Decimal.uint) :
  Forall (fun c => (N_of_ascii c < 128)%N /\ c <> Py.TAB /\ c <> Py.NL)
    (list_ascii_of_string (DecimalString.NilEmpty.string_of_uint d)).
Proof.
  induction d; simpl; constructor; try assumption;
    (split; [reflexivity | split; discriminate]).
Qed.

Lemma str_plain (n : Z) : Py.plain (Py.str n).
Proof.
  unfold Py.plain, Py.str.
  assert (H : forall d, Forall
            (fun c => (N_of_ascii c < 128)%N /\ c <> Py.TAB /\ c <> Py.NL)
            (list_ascii_of_string (DecimalString.NilZero.string_of_uint d))).
  { intros d. pose proof (dec_chars d) as Hd. destruct d; try exact Hd.
    simpl. constructor; [|constructor].
    split; [reflexivity | split; discriminate]. }
  destruct (Z.to_int n); simpl; [apply H|].
  constructor; [|apply H]. split; [reflexivity | split; discriminate].
Qed.

Lemma plain_ascii (t : string) :
  Py.plain t -> Forall (fun c => (N_of_ascii c < 128)%N) (list_ascii_of_string t).
Proof. unfold Py.plain. intros H. eapply List.Forall_impl; [|exact H]. cbn. tauto. Qed.

End PyFacts.

Module NumFacts.

(** The characters of a number as [str] and the hexadecimal formats write
    it, after the sign. *)
Lemma lstrip_id (cs : list ascii) :
  Forall (fun c => Py.is_space c = false) cs -> Py.lstrip cs = cs.
Proof. destruct 1 as [|c cs Hc _]; cbn; [reflexivity | now rewrite Hc]. Qed.

Lemma strip_id (cs : list ascii) :
  Forall (fun c => Py.is_space c = false) cs -> Py.strip cs = cs.
Proof.
  intros H. unfold Py.strip. rewrite (lstrip_id cs H).
  rewrite lstrip_id by (apply List.Forall_rev, H). apply rev_involutive.
Qed.

Lemma digits_zeros (base : Z) (k : nat) (rest : list ascii) :
  1 < base ->
  Py.digits base 0 false (list_ascii_of_string (Py.zeros k) ++ rest) =
  Py.digits base 0 false rest.
Proof.
  intros Hb. induction k as [|k IH]; [reflexivity|].
  cbn [Py.zeros list_ascii_of_string app Py.digits].
  change (Ascii.eqb "0" "_") with false. cbv iota.
  change (Py.digit_value "0") with (Some 0). cbv iota.
  replace (0 <? base) with true by (symmetry; apply Z.ltb_lt; lia).
  rewrite Z.mul_0_l, Z.add_0_r. exact IH.
Qed.

Lemma hex_digits_acc (u : bool) (d : Hexadecimal.uint) (acc : positive) :
  Py.digits 16 (Z.pos acc) false
    (list_ascii_of_string
       (let s := HexadecimalString.NilEmpty.string_of_uint d in
        if u then Py.map_string Py.upper s else s)) =
  Some (Z.pos (Pos.of_hex_uint_acc d acc)).
Proof.
  cbn zeta. revert acc.
  induction d as [|d IH|d IH|d IH|d IH|d IH|d IH|d IH|d IH|d IH|d IH|d IH
                  |d IH|d IH|d IH|d IH|d IH]; intros acc;
    [destruct u; reflexivity|..];
    (destruct u; cbn [HexadecimalString.NilEmpty.string_of_uint Py.map_string
                      list_ascii_of_string Py.digits Pos.of_hex_uint_acc];
     cbn [Py.map_string] in IH;
     match goal with
     | |- (if Ascii.eqb ?c "_" then _ else _) = _ =>
         let b := eval vm_compute in (Ascii.eqb c "_") in
         change (Ascii.eqb c "_") with b; cbv iota;
         let v := eval vm_compute in (Py.digit_value c) in
         match goal with
         | |- context [Py.digit_value ?c'] =>
             let v' := eval vm_compute in (Py.digit_value c') in
             change (Py.digit_value c') with v'
         end; cbv iota;
         match goal with
         | |- context [?x <? 16] =>
             change (x <? 16) with true
         end; cbv iota
     end;
     rewrite <- IH; f_equal; lia).
Qed.

Lemma hex_digits (u : bool) (d : Hexadecimal.uint) :
  Py.digits 16 0 false
    (list_ascii_of_string
       (let s := HexadecimalString.NilEmpty.string_of_uint d in
        if u then Py.map_string Py.upper s else s)) =
  Some (Z.of_N (Pos.of_hex_uint d)).
Proof.
  cbn zeta.
  induction d as [|d IH|d IH|d IH|d IH|d IH|d IH|d IH|d IH|d IH|d IH|d IH
                  |d IH|d IH|d IH|d IH|d IH];
    [destruct u; reflexivity|..];
    pose proof (hex_digits_acc u d) as Hacc; cbn zeta in Hacc;
    (destruct u; cbn [HexadecimalString.NilEmpty.string_of_uint Py.map_string
                      list_ascii_of_string Py.digits Pos.of_hex_uint];
     cbn [Py.map_string] in IH, Hacc;
     match goal with
     | |- (if Ascii.eqb ?c "_" then _ else _) = _ =>
         let b := eval vm_compute in (Ascii.eqb c "_") in
         change (Ascii.eqb c "_") with b; cbv iota;
         match goal with
         | |- context [Py.digit_value ?c'] =>
             let v' := eval vm_compute in (Py.digit_value c') in
             change (Py.digit_value c') with v'
         end; cbv iota;
         match goal with
         | |- context [?x <? 16] =>
             change (x <? 16) with true
         end; cbv iota
     end;
     first [ exact IH | apply Hacc ]).
Qed.

Lemma hex_class (u : bool) (d : Hexadecimal.uint) :
  Forall (fun c => Py.is_hex_digit c = true)
    (list_ascii_of_string
       (let s := HexadecimalString.NilEmpty.string_of_uint d in
        if u then Py.map_string Py.upper s else s)).
Proof.
  cbn zeta. induction d; destruct u; cbn in *; constructor;
    solve [reflexivity | assumption].
Qed.

Lemma hex_digit_facts (c : ascii) :
  Py.is_hex_digit c = true ->
  Py.is_space c = false /\ c <> "+"%char /\ c <> "-"%char /\ c <> "_"%char /\
  c <> "x"%char /\ c <> "X"%char /\ (N_of_ascii c < 128)%N /\
  c <> Py.TAB /\ c <> Py.NL /\ c <> " "%char.
Proof.
  destruct c as [[] [] [] [] [] [] [] []]; intros H; vm_compute in H;
    try discriminate H;
    repeat split; solve [reflexivity | discriminate].
Qed.

Lemma digit_count_digits (body : list ascii) :
  Forall (fun c => Py.is_hex_digit c = true) body ->
  Py.digit_count body = Z.of_nat (length body).
Proof.
  intros Hb. unfold Py.digit_count. f_equal. f_equal.
  induction Hb as [|c body Hc _ IH]; [reflexivity|].
  apply hex_digit_facts in Hc as (_ & _ & _ & Hc & _).
  apply Ascii.eqb_neq in Hc. cbn [List.filter]. rewrite Hc. cbn [negb].
  f_equal. exact IH.
Qed.

Lemma int_signed (base : Z) (neg : bool) (body : list ascii) (s : string) :
  list_ascii_of_string s = (if neg then ["-"%char] else []) ++ body ->
  body <> [] ->
  Forall (fun c => Py.is_hex_digit c = true) body ->
  Py.int base s =
  if negb (Z.land base (base - 1) =? 0)
     && (Py.MAX_STR_DIGITS <? Z.of_nat (length body))
  then None
  else option_map (Z.mul (if neg then -1 else 1)) (Py.digits base 0 false body).
Proof.
  intros Hs Hne Hb. unfold Py.int. rewrite Hs.
  pose proof (digit_count_digits body Hb) as Hcount.
  assert (Hsp : Forall (fun c => Py.is_space c = false)
                  ((if neg then ["-"%char] else []) ++ body)).
  { apply Forall_app. split.
    - destruct neg; repeat constructor.
    - eapply List.Forall_impl; [|exact Hb]. intros c Hc.
      now apply hex_digit_facts in Hc. }
  rewrite (strip_id _ Hsp).
  destruct body as [|c body]; [contradiction|].
  apply List.Forall_cons_iff in Hb as [Hc Hb].
  assert (Hsign :
            match (if neg then ["-"%char] else []) ++ c :: body with
            | "+"%char :: r => (1, r)
            | "-"%char :: r => (-1, r)
            | _ => (1, (if neg then ["-"%char] else []) ++ c :: body)
            end = (if neg then -1 else 1, c :: body)).
  { destruct neg; [reflexivity|]. cbn [app].
    destruct c as [[] [] [] [] [] [] [] []]; solve [reflexivity | discriminate Hc]. }
  rewrite Hsign.
  assert (Hpre :
            (if base =? 16 then
               match c :: body with
               | "0"%char :: x :: r =>
                   if Ascii.eqb x "x" || Ascii.eqb x "X" then
                     match r with
                     | "_"%char :: r' => r'
                     | _ => r
                     end
                   else c :: body
               | _ => c :: body
               end
             else c :: body) = c :: body).
  { destruct (base =? 16); [|reflexivity].
    destruct body as [|x r].
    - destruct c as [[] [] [] [] [] [] [] []]; reflexivity.
    - apply List.Forall_cons_iff in Hb as [Hx _].
      apply hex_digit_facts in Hx as (_ & _ & _ & _ & Hx1 & Hx2 & _).
      apply Ascii.eqb_neq in Hx1, Hx2.
      destruct c as [[] [] [] [] [] [] [] []]; try reflexivity.
      rewrite Hx1, Hx2. reflexivity. }
  rewrite Hpre.
  apply hex_digit_facts in Hc as (_ & _ & _ & Hc & _).
  apply Ascii.eqb_neq in Hc. rewrite Hc, Hcount. reflexivity.
Qed.

(** [int(s, 16)] reads back what the hexadecimal formats write. *)
Lemma int_format_hex (u : bool) (w : nat) (n : Z) :
  Py.int 16 (Py.format_hex u w n) = Some n.
Proof.
  set (d := N.to_hex_uint (Z.to_N (Z.abs n))).
  set (D := let s := HexadecimalString.NilZero.string_of_uint d in
            if u then Py.map_string Py.upper s else s).
  assert (HD : Py.digits 16 0 false (list_ascii_of_string D) = Some (Z.abs n) /\
               Forall (fun c => Py.is_hex_digit c = true) (list_ascii_of_string D) /\
               list_ascii_of_string D <> []).
  { assert (Hv : Z.of_N (Pos.of_hex_uint d) = Z.abs n).
    { unfold d. change (Pos.of_hex_uint ?x) with (N.of_hex_uint x).
      rewrite HexadecimalN.Unsigned.of_to. lia. }
    pose proof (hex_digits u d) as H1. pose proof (hex_class u d) as H2.
    cbn zeta in H1, H2. rewrite Hv in H1. unfold D.
    destruct d eqn:Ed; cbn zeta;
      cbn [HexadecimalString.NilZero.string_of_uint];
      try (split; [exact H1 | split; [exact H2 |]];
           destruct u; discriminate).
    exfalso. unfold d in Ed. destruct (Z.to_N (Z.abs n)); [discriminate|].
    exact (HexadecimalPos.Unsigned.to_uint_nonnil _ Ed). }
  destruct HD as (Hd & Hc & Hn).
  rewrite (int_signed 16 (n <? 0)
             (list_ascii_of_string
                (Py.zeros (w - String.length (if (n <? 0)%Z then "-" else "")
                           - String.length D)%nat) ++ list_ascii_of_string D)).
  - change (negb (Z.land 16 (16 - 1) =? 0)) with false. cbn [andb].
    rewrite digits_zeros by lia. rewrite Hd. cbn [option_map]. f_equal.
    destruct (Z.ltb_spec n 0); lia.
  - unfold Py.format_hex. fold d. fold D. rewrite !PyFacts.chars_app.
    destruct (n <? 0); reflexivity.
  - intros E. apply app_eq_nil in E as [_ E]. contradiction.
  - apply Forall_app. split; [|assumption].
    generalize (w - String.length (if (n <? 0)%Z then "-" else "")
                - String.length D)%nat.
    intros k. induction k; cbn; constructor; solve [reflexivity | assumption].
Qed.

Lemma dec_digits_acc (d : Decimal.uint) (acc : positive) :
  Py.digits 10 (Z.pos acc) false
    (list_ascii_of_string (DecimalString.NilEmpty.string_of_uint d)) =
  Some (Z.pos (Pos.of_uint_acc d acc)).
Proof.
  revert acc.
  induction d as [|d IH|d IH|d IH|d IH|d IH|d IH|d IH|d IH|d IH|d IH];
    intros acc; [reflexivity|..];
    (cbn [DecimalString.NilEmpty.string_of_uint list_ascii_of_string
          Py.digits Pos.of_uint_acc];
     match goal with
     | |- (if Ascii.eqb ?c "_" then _ else _) = _ =>
         change (Ascii.eqb c "_") with false; cbv iota;
         let v := eval vm_compute in (Py.digit_value c) in
         change (Py.digit_value c) with v; cbv iota;
         match goal with
         | |- context [?x <? 10] => change (x <? 10) with true
         end; cbv iota
     end;
     rewrite <- IH; f_equal; lia).
Qed.

Lemma dec_digits (d : Decimal.uint) :
  Py.digits 10 0 false
    (list_ascii_of_string (DecimalString.NilEmpty.string_of_uint d)) =
  Some (Z.of_N (Pos.of_uint d)).
Proof.
  induction d as [|d IH|d IH|d IH|d IH|d IH|d IH|d IH|d IH|d IH|d IH];
    [reflexivity|..];
    pose proof (dec_digits_acc d) as Hacc;
    (cbn [DecimalString.NilEmpty.string_of_uint list_ascii_of_string
          Py.digits Pos.of_uint];
     match goal with
     | |- (if Ascii.eqb ?c "_" then _ else _) = _ =>
         change (Ascii.eqb c "_") with false; cbv iota;
         let v := eval vm_compute in (Py.digit_value c) in
         change (Py.digit_value c) with v; cbv iota;
         match goal with
         | |- context [?x <? 10] => change (x <? 10) with true
         end; cbv iota
     end;
     first [ exact IH | apply Hacc ]).
Qed.

Lemma dec_class (d : Decimal.uint) :
  Forall (fun c => Py.is_hex_digit c = true)
    (list_ascii_of_string (DecimalString.NilEmpty.string_of_uint d)).
Proof.
  induction d; cbn in *; constructor; solve [reflexivity | assumption].
Qed.

Lemma string_length_chars (s : string) :
  String.length s = length (list_ascii_of_string s).
Proof. induction s as [|c s IH]; cbn; [reflexivity | now rewrite IH]. Qed.

(** [int(s)] reads back what [str] writes, unless that has more digits
    than [int] accepts. *)
Lemma int_str (n : Z) :
  Py.int 10 (Py.str n) =
  if Py.MAX_STR_DIGITS <? Z.of_nat (String.length (Py.str (Z.abs n)))
  then None else Some n.
Proof.
  unfold Py.str.
  assert (H : forall p, Py.digits 10 0 false
                (list_ascii_of_string
                   (DecimalString.NilZero.string_of_uint (Pos.to_uint p))) =
                Some (Z.pos p) /\
              Forall (fun c => Py.is_hex_digit c = true)
                (list_ascii_of_string
                   (DecimalString.NilZero.string_of_uint (Pos.to_uint p))) /\
              list_ascii_of_string
                (DecimalString.NilZero.string_of_uint (Pos.to_uint p)) <> []).
  { intros p. pose proof (dec_digits (Pos.to_uint p)) as H1.
    pose proof (dec_class (Pos.to_uint p)) as H2.
    rewrite DecimalPos.Unsigned.of_to in H1.
    pose proof (DecimalPos.Unsigned.to_uint_nonnil p) as H3.
    destruct (Pos.to_uint p); [contradiction|..];
      (split; [exact H1 | split; [exact H2 | discriminate]]). }
  destruct n as [|p|p]; [reflexivity|..]; destruct (H p) as (H1 & H2 & H3);
    change (Z.to_int (Z.abs (Z.pos p))) with (Z.to_int (Z.pos p));
    change (Z.to_int (Z.abs (Z.neg p))) with (Z.to_int (Z.pos p));
    cbn [Z.to_int DecimalString.NilZero.string_of_int];
    rewrite string_length_chars.
  - etransitivity;
      [exact (int_signed 10 false _
                (DecimalString.NilZero.string_of_uint (Pos.to_uint p))
                eq_refl H3 H2)
      |].
    change (negb (Z.land 10 (10 - 1) =? 0)) with true. cbn [andb].
    now rewrite H1.
  - etransitivity;
      [exact (int_signed 10 true
                (list_ascii_of_string
                   (DecimalString.NilZero.string_of_uint (Pos.to_uint p)))
                (String "-" (DecimalString.NilZero.string_of_uint (Pos.to_uint p)))
                eq_refl H3 H2)
      |].
    change (negb (Z.land 10 (10 - 1) =? 0)) with true. cbn [andb].
    now rewrite H1.
Qed.

Lemma format_hex_chars (u : bool) (w : nat) (n : Z) :
  list_ascii_of_string (Py.format_hex u w n) <> [] /\
  Forall (fun c => (N_of_ascii c < 128)%N /\ c <> Py.TAB /\ c <> Py.NL /\
                   c <> " "%char)
    (list_ascii_of_string (Py.format_hex u w n)).
Proof.
  unfold Py.format_hex. rewrite !PyFacts.chars_app.
  set (d := N.to_hex_uint (Z.to_N (Z.abs n))).
  assert (Hd : d <> Hexadecimal.Nil).
  { unfold d. destruct (Z.to_N (Z.abs n)); [discriminate|].
    apply HexadecimalPos.Unsigned.to_uint_nonnil. }
  pose proof (hex_class u d) as Hc. cbn zeta in Hc.
  assert (HD : list_ascii_of_string
                 (if u then Py.map_string Py.upper
                              (HexadecimalString.NilZero.string_of_uint d)
                  else HexadecimalString.NilZero.string_of_uint d) <> [] /\
               Forall (fun c => Py.is_hex_digit c = true)
                 (list_ascii_of_string
                    (if u then Py.map_string Py.upper
                                 (HexadecimalString.NilZero.string_of_uint d)
                     else HexadecimalString.NilZero.string_of_uint d))).
  { destruct d; [contradiction|..];
      (split; [destruct u; discriminate | exact Hc]). }
  destruct HD as [HD1 HD2]. split.
  - intros E. apply app_eq_nil in E as [_ E]. apply app_eq_nil in E as [_ E].
    contradiction.
  - rewrite !Forall_app. repeat split.
    + destruct (n <? 0); repeat constructor; discriminate.
    + match goal with |- context [Py.zeros ?k] => generalize k end.
      intros k. induction k; cbn; constructor; try assumption.
      repeat split; discriminate.
    + eapply List.Forall_impl; [|exact HD2]. intros c Hcc.
      apply hex_digit_facts in Hcc. tauto.
Qed.

End NumFacts.

(** ** Lines and records *)

Module LineFacts.

Lemma plain_tokens (kwargs : list (string * string)) :
  Forall (fun kv => Py.plain kv.1 /\ Py.plain kv.2) kwargs ->
  Forall Py.plain (flat_map (fun kv => [kv.1; kv.2]) kwargs).
Proof.
  induction 1 as [|kv kw [H1 H2] _ IH]; cbn [flat_map app]; auto.
Qed.

Lemma decode_encode (s : string) (b : list byte) :
  Py.encode_ascii s = Some b -> Py.decode_ascii b = Some s.
Proof.
  unfold Py.encode_ascii, Py.decode_ascii.
  destruct (forallb _ (list_byte_of_string s)) eqn:E; [|discriminate].
  intros [= <-]. rewrite E. now rewrite string_of_list_byte_of_string.
Qed.

Lemma bytes_without (c : ascii) (s : string) :
  Forall (fun x => x <> c) (list_ascii_of_string s) ->
  Forall (fun x => x <> byte_of_ascii c) (list_byte_of_string s).
Proof.
  unfold list_byte_of_string. intros H. apply List.Forall_map.
  eapply List.Forall_impl; [|exact H]. cbn. intros x Hx E. apply Hx.
  rewrite <- (ascii_of_byte_of_ascii x), E. apply ascii_of_byte_of_ascii.
Qed.

Lemma line_without_newline (tokens : list string) :
  Forall Py.plain tokens ->
  Forall (fun x => x <> "010"%byte)
    (list_byte_of_string (String.concat Py.tab tokens)).
Proof.
  intros Ht. apply (bytes_without Py.NL). apply PyFacts.concat_chars.
  - repeat constructor. discriminate.
  - eapply List.Forall_impl; [|exact Ht]. intros t H.
    eapply List.Forall_impl; [|exact H]. cbn. tauto.
Qed.

(** What [send_message] writes for plain tokens, and how the line reads. *)
Lemma send_message_line (kwargs : list (string * string))
    (w : Writer.AdeptWriter) :
  Forall (fun kv => Py.plain kv.1 /\ Py.plain kv.2) kwargs ->
  let line := String.concat Py.tab (flat_map (fun kv => [kv.1; kv.2]) kwargs) in
  Writer.send_message kwargs w =
    Return (Writer.mkWriter
              (Writer.writebuf w ++ list_byte_of_string line ++ ["010"%byte])
              (Writer.closed w) (Writer.server_tx_bytes w)) /\
  Py.decode_ascii (list_byte_of_string line) = Some line /\
  Reader.parse_message line = Py.dict kwargs.
Proof.
  intros Hk. pose proof (plain_tokens kwargs Hk) as Ht. cbn zeta.
  set (tokens := flat_map (fun kv => [kv.1; kv.2]) kwargs) in *.
  assert (Ha : Forall (fun t => Forall (fun c => (N_of_ascii c < 128)%N)
                                  (list_ascii_of_string t)) tokens).
  { eapply List.Forall_impl; [|exact Ht]. apply PyFacts.plain_ascii. }
  split; [|split].
  - unfold Writer.send_message, Writer.append_line. fold tokens.
    rewrite PyFacts.tabbed_ascii by assumption. reflexivity.
  - apply decode_encode, PyFacts.encode_ascii_chars.
    apply PyFacts.concat_chars; [repeat constructor | assumption].
  - unfold Reader.parse_message. destruct kwargs as [|kv kw].
    + reflexivity.
    + rewrite PyFacts.split_concat.
      * unfold tokens. now rewrite PyFacts.pairs_flat.
      * unfold tokens. cbn. discriminate.
      * eapply List.Forall_impl; [|exact Ht]. intros t H.
        eapply List.Forall_impl; [|exact H]. cbn. tauto.
Qed.

Section RoundTrip.

Variable F : Type.
Variable float : string -> option F.

(** A reader with no unfinished line that receives one complete line. *)
Lemma read_one_line (b : list byte) (s : Reader.AdeptReader F) :
  Forall (fun x => x <> "010"%byte) b ->
  Reader.partial_line s = [] ->
  Reader.handle_read F float (Reader.Received (b ++ ["010"%byte])) s =
    Return (Reader.mkReader [] (Reader.closed s)
              (Reader.server_rx_bytes s + Z.of_nat (length b) + 1)
              (Reader.trace s ++ Reader.line_events F float b)).
Proof.
  intros Hb Hp.
  rewrite ReaderFacts.handle_read_returns
    by (intros E; apply app_eq_nil in E as [_ E]; discriminate).
  cbn zeta. rewrite Hp. cbn [app].
  rewrite PyFacts.split_bytes_line by exact Hb.
  cbn [removelast List.last flat_map]. rewrite app_nil_r, length_app.
  cbn [length]. rewrite Nat2Z.inj_add, Z.add_assoc. reflexivity.
Qed.

(** X15. What [send_message] appends for tokens that are ASCII and hold
    no tab and no newline is one line that a reader with no unfinished
    line takes in as a whole, and that [process_line] parses back into the
    mapping the keyword arguments made: the reader of the protocol is the
    inverse of its writer. *)
Theorem message_round_trip (kwargs : list (string * string))
    (w : Writer.AdeptWriter) (s : Reader.AdeptReader F) :
  Forall (fun kv => Py.plain kv.1 /\ Py.plain kv.2) kwargs ->
  Reader.partial_line s = [] ->
  exists line,
    let b := list_byte_of_string line in
    Writer.send_message kwargs w =
      Return (Writer.mkWriter (Writer.writebuf w ++ b ++ ["010"%byte])
                (Writer.closed w) (Writer.server_tx_bytes w)) /\
    Reader.handle_read F float (Reader.Received (b ++ ["010"%byte])) s =
      Return (Reader.mkReader [] (Reader.closed s)
                (Reader.server_rx_bytes s + Z.of_nat (length b) + 1)
                (Reader.trace s ++ Reader.line_events F float b)) /\
    Py.decode_ascii b = Some line /\
    Reader.parse_message line = Py.dict kwargs.
Proof.
  intros Hk Hp.
  destruct (send_message_line kwargs w Hk) as (H1 & H2 & H3).
  eexists. cbn zeta. split; [exact H1|]. split; [|split; assumption].
  apply read_one_line; [|exact Hp].
  apply line_without_newline, plain_tokens, Hk.
Qed.

End RoundTrip.

Lemma traverse_format_hex (l : list Z) :
  Reader.traverse (fun x => Reader.or_raise ValueError (Py.int 16 x))
    (map (Py.format_hex true 6) l) = Reader.Ok l.
Proof.
  induction l as [|n l IH]; [reflexivity|].
  cbn [map Reader.traverse]. rewrite NumFacts.int_format_hex.
  cbn [Reader.or_raise Reader.and_then]. rewrite IH. reflexivity.
Qed.

Lemma spaced_hex_plain (l : list Z) :
  Py.plain (Writer.spaced (map (Py.format_hex true 6) l)).
Proof.
  unfold Py.plain, Writer.spaced. apply PyFacts.concat_chars.
  - repeat constructor; discriminate.
  - apply List.Forall_map. apply List.Forall_forall. intros n _.
    destruct (NumFacts.format_hex_chars true 6 n) as [_ H].
    eapply List.Forall_impl; [|exact H]. cbn. tauto.
Qed.

Lemma spaced_hex_split (l : list Z) :
  l <> [] ->
  String.eqb (Writer.spaced (map (Py.format_hex true 6) l)) "" = false /\
  Py.split " " (Writer.spaced (map (Py.format_hex true 6) l)) =
    map (Py.format_hex true 6) l.
Proof.
  intros Hl. split.
  - destruct l as [|n l]; [contradiction|].
    destruct (NumFacts.format_hex_chars true 6 n) as [Hn _].
    unfold Writer.spaced. cbn [map String.concat].
    destruct (Py.format_hex true 6 n) as [|c t] eqn:E; [contradiction|].
    destruct (map (Py.format_hex true 6) l); reflexivity.
  - unfold Writer.spaced. apply PyFacts.split_concat.
    + destruct l; [contradiction | discriminate].
    + apply List.Forall_map. apply List.Forall_forall. intros n _.
      destruct (NumFacts.format_hex_chars true 6 n) as [_ H].
      eapply List.Forall_impl; [|exact H]. cbn. tauto.
Qed.

(** X16. The [hexids] value [send_seen] and [send_lost] write for a list
    of addresses, whatever the integers, is read back by the reader's
    [hexids] parser as the set of these addresses; neither sender raises,
    and the mapping of the line has the type of the sender. *)
Theorem hexids_round_trip (lost : bool) (aclist : list Z)
    (w : Writer.AdeptWriter) :
  exists line,
    (if lost then Writer.send_lost aclist w else Writer.send_seen aclist w) =
      Return (Writer.mkWriter
                (Writer.writebuf w ++ list_byte_of_string line ++ ["010"%byte])
                (Writer.closed w) (Writer.server_tx_bytes w)) /\
    Py.decode_ascii (list_byte_of_string line) = Some line /\
    Reader.parse_message line !! "type"%string =
      Some (if lost then "mlat_lost" else "mlat_seen")%string /\
    Reader.hexids (Reader.parse_message line) = Reader.Ok (list_to_set aclist).
Proof.
  set (kind := (if lost then "mlat_lost" else "mlat_seen")%string).
  set (h := Writer.spaced (map (Py.format_hex true 6) aclist)).
  assert (Hk : Forall (fun kv => Py.plain kv.1 /\ Py.plain kv.2)
                 [("type"%string, kind); ("hexids"%string, h)]).
  { repeat constructor; cbn [fst snd]; try apply spaced_hex_plain;
      unfold kind; destruct lost; repeat constructor; discriminate. }
  destruct (send_message_line [("type"%string, kind); ("hexids"%string, h)] w Hk)
    as (H1 & H2 & H3).
  eexists. split; [|split; [exact H2|]].
  - unfold kind, h in H1. destruct lost; exact H1.
  - rewrite H3. unfold Py.dict. cbn [fold_left fst snd]. split.
    + rewrite lookup_insert_ne by discriminate. apply lookup_insert_eq.
    + unfold Reader.hexids, Reader.item. rewrite lookup_insert_eq.
      cbn [Reader.or_raise Reader.and_then].
      destruct aclist as [|n l]; [reflexivity|].
      destruct (spaced_hex_split (n :: l)) as [E1 E2]; [discriminate|].
      fold h in E1, E2. rewrite E1, E2, traverse_format_hex. reflexivity.
Qed.

Lemma format_hex_plain (u : bool) (w : nat) (n : Z) :
  Py.plain (Py.format_hex u w n).
Proof.
  destruct (NumFacts.format_hex_chars u w n) as [_ H].
  unfold Py.plain. eapply List.Forall_impl; [|exact H]. cbn. tauto.
Qed.

Lemma stamped_plain (t : Z) (text : string) :
  Py.plain text ->
  Py.plain (Writer.spaced [Py.format_hex false 12 t; text]).
Proof.
  intros H. unfold Py.plain, Writer.spaced. apply PyFacts.concat_chars.
  - repeat constructor; discriminate.
  - repeat constructor; [apply format_hex_plain | exact H].
Qed.

Lemma stamped_split (t : Z) (text : string) :
  Forall (fun c => c <> " "%char) (list_ascii_of_string text) ->
  Py.split " " (Writer.spaced [Py.format_hex false 12 t; text]) =
    [Py.format_hex false 12 t; text].
Proof.
  intros H. unfold Writer.spaced. apply PyFacts.split_concat; [discriminate|].
  repeat constructor; [|exact H].
  destruct (NumFacts.format_hex_chars false 12 t) as [_ Hc].
  eapply List.Forall_impl; [|exact Hc]. cbn. tauto.
Qed.

Section Records.

Variable F : Type.
Variable float : string -> option F.

Lemma status_events (s : string) (n : Z) :
  Py.plain s ->
  let line := String.concat Py.tab
                ["type"; "mlat_status"; "status"; s;
                 "receiver_sync_count"; Py.str n]%string in
  Forall (fun x => x <> "010"%byte) (list_byte_of_string line) /\
  Reader.line_events F float (list_byte_of_string line) =
    if Py.MAX_STR_DIGITS <? Z.of_nat (String.length (Py.str (Z.abs n)))
    then [Reader.log_exc ValueError]
    else
      [Reader.set_state
         (if String.eqb s "ok" then
            "synchronized with " +:+ Py.str n +:+ " nearby receivers"
          else if String.eqb s "unstable" then "clock unstable"
          else if String.eqb s "no_sync" then
            "not synchronized with any nearby receivers"
          else s +:+ " " +:+ Py.str n)%string].
Proof.
  intros Hs.
  set (kwargs := [("type", "mlat_status"); ("status", s);
                  ("receiver_sync_count", Py.str n)]%string).
  assert (Hk : Forall (fun kv => Py.plain kv.1 /\ Py.plain kv.2) kwargs).
  { unfold kwargs. repeat constructor; cbn [fst snd];
      try exact Hs; try apply PyFacts.str_plain; discriminate. }
  destruct (send_message_line kwargs Writer.init Hk) as (_ & H2 & H3).
  cbn zeta in *. split.
  - apply line_without_newline. exact (plain_tokens kwargs Hk).
  - unfold Reader.line_events. change (String.concat Py.tab _)
      with (String.concat Py.tab (flat_map (fun kv => [kv.1; kv.2]) kwargs)).
    rewrite H2. cbn [Reader.or_raise Reader.and_then].
    unfold Reader.process_line. rewrite H3.
    unfold kwargs, Py.dict. cbn [fold_left fst snd].
    unfold Reader.item.
    rewrite lookup_insert_ne, lookup_insert_ne, lookup_insert_eq by discriminate.
    cbn [Reader.or_raise Reader.and_then].
    change (Reader.handlers F float "mlat_status")
      with (Some (@Reader.process_status_message F)).
    unfold Reader.process_status_message.
    rewrite lookup_insert_eq.
    rewrite lookup_insert_ne, lookup_insert_eq by discriminate.
    cbn [default from_option id]. rewrite NumFacts.int_str.
    destruct (Py.MAX_STR_DIGITS <? _); [reflexivity|].
    cbn [Reader.or_raise Reader.and_then].
    destruct (String.eqb s "ok"); [reflexivity|].
    destruct (String.eqb s "unstable"); [reflexivity|].
    destruct (String.eqb s "no_sync"); reflexivity.
Qed.

(** The events of a complete line made of plain tokens: those of
    [process_line] on the mapping of the pairs. *)
Lemma line_of_pairs (kwargs : list (string * string)) (s : Reader.AdeptReader F) :
  Forall (fun kv => Py.plain kv.1 /\ Py.plain kv.2) kwargs ->
  Reader.partial_line s = [] ->
  let line := String.concat Py.tab (flat_map (fun kv => [kv.1; kv.2]) kwargs) in
  let b := list_byte_of_string line in
  Reader.handle_read F float (Reader.Received (b ++ ["010"%byte])) s =
    Return (Reader.mkReader [] (Reader.closed s)
              (Reader.server_rx_bytes s + Z.of_nat (length b) + 1)
              (Reader.trace s ++ Reader.line_events F float b)) /\
  Reader.line_events F float b =
    match Reader.process_line F float line with
    | Reader.Ok (Some ev) => [ev]
    | Reader.Ok None => []
    | Reader.Err e => [Reader.log_exc e]
    end /\
  Reader.parse_message line = Py.dict kwargs.
Proof.
  intros Hk Hp line b.
  destruct (send_message_line kwargs Writer.init Hk) as (_ & H2 & H3).
  fold line in H2, H3. fold b in H2.
  split; [|split; [|exact H3]].
  - apply read_one_line; [|exact Hp].
    apply line_without_newline, plain_tokens, Hk.
  - unfold Reader.line_events. rewrite H2. reflexivity.
Qed.

(** X17. Reading from the stream a record of type [mlat_unwanted] whose
    [hexids] value is a list of tokens joined by single spaces: if every
    token reads as a base-16 integer, [server_stop_sending] is called once
    with the set of these integers (the empty set for an empty value);
    if one does not, as the empty token between two spaces in a row,
    [ValueError] is logged and nothing is dispatched, not even for the
    tokens before it.  The addresses written with the format of the
    senders are read back as themselves. *)
Theorem unwanted_dispatch (toks : list string) (s : Reader.AdeptReader F) :
  Reader.partial_line s = [] ->
  Forall (fun t => Py.plain t /\
                   Forall (fun c => c <> " "%char) (list_ascii_of_string t))
    toks ->
  let h := Writer.spaced toks in
  let line := String.concat Py.tab
                ["type"; "mlat_unwanted"; "hexids"; h]%string in
  let b := list_byte_of_string line in
  Reader.handle_read F float (Reader.Received (b ++ ["010"%byte])) s =
    Return (Reader.mkReader [] (Reader.closed s)
              (Reader.server_rx_bytes s + Z.of_nat (length b) + 1)
              (Reader.trace s ++
               [match (if String.eqb h "" then Some []
                       else mapM (Py.int 16) toks) with
                | Some l => Reader.server_stop_sending (list_to_set l)
                | None => Reader.log_exc ValueError
                end])) /\
  forall l, toks = map (Py.format_hex true 6) l ->
    (if String.eqb h "" then Some [] else mapM (Py.int 16) toks) = Some l.
Proof.
  intros Hp Ht h line b.
  assert (Hh : Py.plain h).
  { unfold h, Writer.spaced, Py.plain. apply PyFacts.concat_chars.
    - repeat constructor; discriminate.
    - eapply List.Forall_impl; [|exact Ht]. cbn. tauto. }
  assert (Hk : Forall (fun kv => Py.plain kv.1 /\ Py.plain kv.2)
                 [("type"%string, "mlat_unwanted"%string); ("hexids"%string, h)]).
  { repeat constructor; cbn [fst snd]; try exact Hh; discriminate. }
  destruct (line_of_pairs _ s Hk Hp) as (H1 & H2 & H3).
  cbn [flat_map fst snd app] in H1, H2, H3. fold line in H1, H2, H3.
  fold b in H1, H2. split.
  - rewrite H1, H2. do 3 f_equal.
    unfold Reader.process_line. rewrite H3. unfold Py.dict.
    cbn [fold_left fst snd]. unfold Reader.item.
    rewrite lookup_insert_ne by discriminate. rewrite lookup_insert_eq.
    cbn [Reader.or_raise Reader.and_then].
    change (Reader.handlers F float "mlat_unwanted")
      with (Some (@Reader.process_unwanted_message F)).
    unfold Reader.process_unwanted_message, Reader.hexids, Reader.item.
    rewrite lookup_insert_eq. cbn [Reader.or_raise Reader.and_then].
    destruct (String.eqb h "") eqn:E; [reflexivity|].
    assert (Hne : toks <> []) by (intros ->; discriminate E).
    unfold h, Writer.spaced. rewrite PyFacts.split_concat.
    + rewrite ReaderFacts.traverse_or_raise.
      destruct (mapM (Py.int 16) toks); reflexivity.
    + exact Hne.
    + eapply List.Forall_impl; [|exact Ht]. cbn. tauto.
  - intros l ->. destruct l as [|n l]; [reflexivity|].
    destruct (spaced_hex_split (n :: l)) as [E _]; [discriminate|].
    fold h in E. rewrite E.
    pose proof (traverse_format_hex (n :: l)) as Hm.
    rewrite ReaderFacts.traverse_or_raise in Hm.
    destruct (mapM (Py.int 16) (map (Py.format_hex true 6) (n :: l)));
      [injection Hm as ->; reflexivity | discriminate Hm].
Qed.

(** X18. Reading from the stream a record of type [mlat_result] with the
    fields [hexid], [lat], [lon], [alt], [nsvel], [ewvel] and [fpm]:
    [server_mlat_result] is called once with the address and the six
    numbers, [fpm] as the vertical rate, if the six values read as floats,
    and [ValueError] is logged with no call if one does not.  The same
    record without its [fpm] field makes no call either: [KeyError] is
    logged once the fields before it were read. *)
Theorem result_line (n : Z) (lat lon alt nsvel ewvel fpm : string)
    (s : Reader.AdeptReader F) :
  Reader.partial_line s = [] ->
  Forall Py.plain [lat; lon; alt; nsvel; ewvel; fpm] ->
  let line := String.concat Py.tab
                ["type"; "mlat_result"; "hexid"; Py.format_hex true 6 n;
                 "lat"; lat; "lon"; lon; "alt"; alt; "nsvel"; nsvel;
                 "ewvel"; ewvel; "fpm"; fpm]%string in
  let short := String.concat Py.tab
                 ["type"; "mlat_result"; "hexid"; Py.format_hex true 6 n;
                  "lat"; lat; "lon"; lon; "alt"; alt; "nsvel"; nsvel;
                  "ewvel"; ewvel]%string in
  Reader.handle_read F float
    (Reader.Received (list_byte_of_string line ++ ["010"%byte])) s =
    Return (Reader.mkReader [] (Reader.closed s)
              (Reader.server_rx_bytes s
                 + Z.of_nat (length (list_byte_of_string line)) + 1)
              (Reader.trace s ++
               [match float lat, float lon, float alt, float nsvel,
                      float ewvel, float fpm with
                | Some a, Some b, Some c, Some d, Some e, Some f =>
                    Reader.server_mlat_result F n a b c d e f
                | _, _, _, _, _, _ => Reader.log_exc ValueError
                end])) /\
  Reader.handle_read F float
    (Reader.Received (list_byte_of_string short ++ ["010"%byte])) s =
    Return (Reader.mkReader [] (Reader.closed s)
              (Reader.server_rx_bytes s
                 + Z.of_nat (length (list_byte_of_string short)) + 1)
              (Reader.trace s ++
               [match float lat, float lon, float alt, float nsvel,
                      float ewvel with
                | Some _, Some _, Some _, Some _, Some _ =>
                    Reader.log_exc KeyError
                | _, _, _, _, _ => Reader.log_exc ValueError
                end])).
Proof.
  intros Hp Ht line short.
  repeat match type of Ht with
         | Forall _ (_ :: _) =>
             let H := fresh "P" in
             apply List.Forall_cons_iff in Ht as [H Ht]
         end.
  pose proof (format_hex_plain true 6 n) as Pn.
  assert (Hk : Forall (fun kv => Py.plain kv.1 /\ Py.plain kv.2)
                 [("type", "mlat_result"); ("hexid", Py.format_hex true 6 n);
                  ("lat", lat); ("lon", lon); ("alt", alt); ("nsvel", nsvel);
                  ("ewvel", ewvel); ("fpm", fpm)]%string).
  { repeat constructor; cbn [fst snd]; try assumption; discriminate. }
  assert (Hk' : Forall (fun kv => Py.plain kv.1 /\ Py.plain kv.2)
                 [("type", "mlat_result"); ("hexid", Py.format_hex true 6 n);
                  ("lat", lat); ("lon", lon); ("alt", alt); ("nsvel", nsvel);
                  ("ewvel", ewvel)]%string).
  { repeat constructor; cbn [fst snd]; try assumption; discriminate. }
  destruct (line_of_pairs _ s Hk Hp) as (H1 & H2 & H3).
  destruct (line_of_pairs _ s Hk' Hp) as (G1 & G2 & G3).
  cbn [flat_map fst snd app] in H1, H2, H3, G1, G2, G3.
  fold line in H1, H2, H3. fold short in G1, G2, G3.
  split.
  - rewrite H1, H2. do 3 f_equal.
    unfold Reader.process_line. rewrite H3. unfold Py.dict.
    cbn [fold_left fst snd]. unfold Reader.item at 1.
    rewrite !(lookup_insert_ne _ _ "type") by discriminate.
    rewrite lookup_insert_eq. cbn [Reader.or_raise Reader.and_then].
    change (Reader.handlers F float "mlat_result")
      with (Some (Reader.process_result_message F float)).
    unfold Reader.process_result_message, Reader.float_item, Reader.item.
    rewrite !(lookup_insert_ne _ _ "hexid") by discriminate.
    rewrite lookup_insert_eq. cbn [Reader.or_raise Reader.and_then].
    rewrite NumFacts.int_format_hex. cbn [Reader.or_raise Reader.and_then].
    rewrite !(lookup_insert_ne _ _ "lat") by discriminate.
    rewrite lookup_insert_eq. cbn [Reader.or_raise Reader.and_then].
    destruct (float lat); cbn [Reader.or_raise Reader.and_then]; [|reflexivity].
    rewrite !(lookup_insert_ne _ _ "lon") by discriminate.
    rewrite lookup_insert_eq. cbn [Reader.or_raise Reader.and_then].
    destruct (float lon); cbn [Reader.or_raise Reader.and_then]; [|reflexivity].
    rewrite !(lookup_insert_ne _ _ "alt") by discriminate.
    rewrite lookup_insert_eq. cbn [Reader.or_raise Reader.and_then].
    destruct (float alt); cbn [Reader.or_raise Reader.and_then]; [|reflexivity].
    rewrite !(lookup_insert_ne _ _ "nsvel") by discriminate.
    rewrite lookup_insert_eq. cbn [Reader.or_raise Reader.and_then].
    destruct (float nsvel); cbn [Reader.or_raise Reader.and_then];
      [|reflexivity].
    rewrite !(lookup_insert_ne _ _ "ewvel") by discriminate.
    rewrite lookup_insert_eq. cbn [Reader.or_raise Reader.and_then].
    destruct (float ewvel); cbn [Reader.or_raise Reader.and_then];
      [|reflexivity].
    rewrite lookup_insert_eq. cbn [Reader.or_raise Reader.and_then].
    destruct (float fpm); reflexivity.
  - rewrite G1, G2. do 3 f_equal.
    unfold Reader.process_line. rewrite G3. unfold Py.dict.
    cbn [fold_left fst snd]. unfold Reader.item at 1.
    rewrite !(lookup_insert_ne _ _ "type") by discriminate.
    rewrite lookup_insert_eq. cbn [Reader.or_raise Reader.and_then].
    change (Reader.handlers F float "mlat_result")
      with (Some (Reader.process_result_message F float)).
    unfold Reader.process_result_message, Reader.float_item, Reader.item.
    rewrite !(lookup_insert_ne _ _ "hexid") by discriminate.
    rewrite lookup_insert_eq. cbn [Reader.or_raise Reader.and_then].
    rewrite NumFacts.int_format_hex. cbn [Reader.or_raise Reader.and_then].
    rewrite !(lookup_insert_ne _ _ "lat") by discriminate.
    rewrite lookup_insert_eq. cbn [Reader.or_raise Reader.and_then].
    destruct (float lat); cbn [Reader.or_raise Reader.and_then]; [|reflexivity].
    rewrite !(lookup_insert_ne _ _ "lon") by discriminate.
    rewrite lookup_insert_eq. cbn [Reader.or_raise Reader.and_then].
    destruct (float lon); cbn [Reader.or_raise Reader.and_then]; [|reflexivity].
    rewrite !(lookup_insert_ne _ _ "alt") by discriminate.
    rewrite lookup_insert_eq. cbn [Reader.or_raise Reader.and_then].
    destruct (float alt); cbn [Reader.or_raise Reader.and_then]; [|reflexivity].
    rewrite !(lookup_insert_ne _ _ "nsvel") by discriminate.
    rewrite lookup_insert_eq. cbn [Reader.or_raise Reader.and_then].
    destruct (float nsvel); cbn [Reader.or_raise Reader.and_then];
      [|reflexivity].
    rewrite lookup_insert_eq. cbn [Reader.or_raise Reader.and_then].
    destruct (float ewvel); cbn [Reader.or_raise Reader.and_then];
      [|reflexivity].
    rewrite !(lookup_insert_ne _ _ "fpm") by discriminate.
    rewrite lookup_empty. reflexivity.
Qed.

End Records.

(** A witness of [message_round_trip]: the event of a connected input. *)
Lemma message_round_trip_witness :
  let kwargs := [("type", "mlat_event"); ("event", "connected")]%string in
  Forall (fun kv => Py.plain kv.1 /\ Py.plain kv.2) kwargs /\
  exists line,
    Writer.send_message kwargs Writer.init =
      Return (Writer.mkWriter (list_byte_of_string line ++ ["010"%byte]) false 0) /\
    Reader.parse_message line = Py.dict kwargs.
Proof.
  intros kwargs.
  assert (Hk : Forall (fun kv => Py.plain kv.1 /\ Py.plain kv.2) kwargs)
    by (repeat (apply List.Forall_cons; [split; plain_string|]);
        apply List.Forall_nil).
  split; [exact Hk|].
  destruct (message_round_trip Empty_set Sample.no_float kwargs
              Writer.init Reader.init Hk eq_refl)
    as (line & H1 & _ & _ & H4).
  exists line. split; [exact H1 | exact H4].
Defined.

(** A witness of [unwanted_dispatch]: two spaces between the addresses. *)
Lemma unwanted_dispatch_witness :
  let toks := ["ABCDEF"; ""; "123456"]%string in
  let line := String.concat Py.tab
                ["type"; "mlat_unwanted"; "hexids"; "ABCDEF  123456"]%string in
  Forall (fun t => Py.plain t /\
                   Forall (fun c => c <> " "%char) (list_ascii_of_string t))
    toks /\
  Reader.handle_read Empty_set Sample.no_float
    (Reader.Received (list_byte_of_string line ++ ["010"%byte])) Reader.init =
    Return (Reader.mkReader [] false 41 [Reader.log_exc ValueError]).
Proof.
  intros toks line.
  assert (Ht : Forall (fun t => Py.plain t /\
                         Forall (fun c => c <> " "%char)
                           (list_ascii_of_string t)) toks).
  { repeat (apply List.Forall_cons;
            [split; [plain_string
                    | cbn [list_ascii_of_string];
                      repeat (apply List.Forall_cons; [discriminate|]);
                      apply List.Forall_nil]|]).
    apply List.Forall_nil. }
  split; [exact Ht|].
  destruct (unwanted_dispatch Empty_set Sample.no_float toks Reader.init
              eq_refl Ht) as [H _].
  exact H.
Defined.

(** A witness of [result_line], with integers in the place of floats. *)
Lemma result_line_witness :
  let line := String.concat Py.tab
                ["type"; "mlat_result"; "hexid"; "ABCDEF";
                 "lat"; "51"; "lon"; "0"; "alt"; "35000"; "nsvel"; "-12";
                 "ewvel"; "7"; "fpm"; "64"]%string in
  Forall Py.plain ["51"; "0"; "35000"; "-12"; "7"; "64"]%string /\
  Reader.handle_read Z (Py.int 10)
    (Reader.Received (list_byte_of_string line ++ ["010"%byte])) Reader.init =
    Return (Reader.mkReader [] false 78
              [Reader.server_mlat_result Z 0xABCDEF 51 0 35000 (-12) 7 64]).
Proof.
  intros line.
  assert (Ht : Forall Py.plain ["51"; "0"; "35000"; "-12"; "7"; "64"]%string).
  { repeat (apply List.Forall_cons; [plain_string|]). apply List.Forall_nil. }
  split; [exact Ht|].
  destruct (result_line Z (Py.int 10) 0xABCDEF "51" "0" "35000" "-12" "7" "64"
              Reader.init eq_refl Ht) as [H _].
  exact H.
Defined.

End LineFacts.

(** ** The writer's stream *)

Module WriterMore.

Import Writer.

Section Stream.

Variable F : Type.
Variable format_2f : F -> string.
Variable CLIENT_VERSION : string.

Lemma send_is_append (q : request F) :
  exists line, forall w, send F format_2f CLIENT_VERSION q w = append_line line w.
Proof. destruct q; eexists; intros w; reflexivity. Qed.

Lemma send_line_bytes (q : request F) (w : AdeptWriter) :
  let w' := final (send F format_2f CLIENT_VERSION q w) in
  writebuf w' = writebuf w ++ line_bytes F format_2f CLIENT_VERSION (Append F q) /\
  server_tx_bytes w' = server_tx_bytes w.
Proof.
  destruct (send_is_append q) as (line & H). cbn [line_bytes].
  rewrite !H. unfold append_line.
  destruct (Py.encode_ascii line); cbn; [auto | now rewrite app_nil_r].
Qed.

Lemma do_step_stream (st : step F) (taken : list byte) (w : AdeptWriter) :
  let tw := do_step F format_2f CLIENT_VERSION st (taken, w) in
  tw.1 ++ writebuf tw.2 =
    taken ++ writebuf w ++ line_bytes F format_2f CLIENT_VERSION st /\
  (Z.of_nat (length taken) <= server_tx_bytes w ->
   Z.of_nat (length tw.1) <= server_tx_bytes tw.2).
Proof.
  destruct st as [q|[sent| |]]; cbn [do_step fst snd line_bytes].
  - destruct (send_line_bytes q w) as [-> ->]. auto.
  - rewrite app_nil_r. unfold handle_write, writable.
    destruct (length (writebuf w) =? 0)%nat eqn:E; cbn [negb].
    + apply Nat.eqb_eq in E. apply nil_length_inv in E.
      cbn [final]. rewrite E, firstn_nil, !app_nil_r. auto.
    + assert (Hw : forall o : outcome AdeptWriter,
                writebuf (final o) = skipn sent (writebuf w) ->
                server_tx_bytes (final o) = server_tx_bytes w + Z.of_nat sent ->
                (taken ++ firstn sent (writebuf w)) ++ writebuf (final o) =
                  taken ++ writebuf w /\
                (Z.of_nat (length taken) <= server_tx_bytes w ->
                 Z.of_nat (length (taken ++ firstn sent (writebuf w))) <=
                   server_tx_bytes (final o))).
      { intros o -> ->. rewrite <- app_assoc, firstn_skipn. split; [reflexivity|].
        rewrite length_app. pose proof (firstn_le_length sent (writebuf w)). lia. }
      apply Hw; unfold drain; destruct (65536 <? _); reflexivity.
  - rewrite app_nil_r. unfold handle_write, drain, close.
    cbn [writebuf server_tx_bytes]. rewrite drop_0.
    destruct (writable w); [|auto].
    destruct (65536 <? _); cbn; split; [reflexivity | lia | reflexivity | lia].
  - rewrite app_nil_r. unfold handle_write.
    destruct (writable w); auto.
Qed.

(** X14. Whatever requests are made of the writer and whatever the stream
    takes at each write, also across writes that raise: the bytes the
    stream took, followed by the bytes still in the buffer, are the encoded
    lines of the requests in the order they were made, with nothing lost
    and nothing twice; and [server_tx_bytes] counts at least the bytes
    taken. *)
Theorem stream_in_order (sts : list (step F)) :
  let tw := do_steps F format_2f CLIENT_VERSION sts ([], init) in
  tw.1 ++ writebuf tw.2 =
    concat (map (line_bytes F format_2f CLIENT_VERSION) sts) /\
  Z.of_nat (length tw.1) <= server_tx_bytes tw.2.
Proof.
  assert (H : forall tw0,
            let tw := do_steps F format_2f CLIENT_VERSION sts tw0 in
            tw.1 ++ writebuf tw.2 =
              tw0.1 ++ writebuf tw0.2 ++
                concat (map (line_bytes F format_2f CLIENT_VERSION) sts) /\
            (Z.of_nat (length tw0.1) <= server_tx_bytes tw0.2 ->
             Z.of_nat (length tw.1) <= server_tx_bytes tw.2)).
  { induction sts as [|st sts IH]; intros [tk w].
    - cbn. rewrite app_nil_r. auto.
    - unfold do_steps. cbn [fold_left map concat].
      specialize (IH (do_step F format_2f CLIENT_VERSION st (tk, w))).
      destruct (do_step_stream st tk w) as [H1 H2].
      cbn zeta in IH. unfold do_steps in IH. destruct IH as [I1 I2].
      cbn zeta. split.
      + rewrite I1. rewrite app_assoc, H1. cbn [fst snd].
        now rewrite <- !app_assoc.
      + intros H. apply I2, H2, H. }
  specialize (H ([], init)). cbn zeta in *. destruct H as [H1 H2].
  split; [exact H1 | apply H2; cbn; lia].
Qed.

End Stream.

End WriterMore.

(** ** The connection *)

Module ConnectionFacts.

Import Connection.

Section Teardown.

Variable F : Type.
Variable T : Type.

Lemma tear_live (fuel : nat) (t : teardown) (c : AdeptConnection F T) :
  (2 <= fuel)%nat -> live c -> tear fuel t c = Some (torn c).
Proof.
  intros Hf (Hc & Hk & (r & Hr & Hrc) & (w & Hw & Hwc)).
  destruct fuel as [|[|fuel]]; try lia.
  destruct c as [rd wr co cl u st sd nx nt]. cbn in *. subst.
  destruct r as [pl rc rx tr], w as [wb wc tx]. cbn in *. subst.
  destruct t, u; reflexivity.
Qed.

Lemma tear_torn (fuel : nat) (t : teardown) (c : AdeptConnection F T) :
  (1 <= fuel)%nat -> live c -> tear fuel t (torn c) = Some (torn c).
Proof.
  intros Hf (Hc & Hk & (r & Hr & Hrc) & (w & Hw & Hwc)).
  destruct fuel as [|fuel]; try lia.
  destruct c as [rd wr co cl u st sd nx nt]. cbn in *. subst.
  destruct r as [pl rc rx tr], w as [wb wc tx]. cbn in *. subst.
  destruct t; reflexivity.
Qed.

Lemma tear_all_torn (fuel : nat) (ts : list teardown)
    (c : AdeptConnection F T) :
  (1 <= fuel)%nat -> live c -> tear_all fuel ts (torn c) = Some (torn c).
Proof.
  intros Hf Hl. induction ts as [|t ts IH]; [reflexivity|].
  cbn [tear_all]. rewrite tear_torn by assumption. exact IH.
Qed.

(** X7. A connection in use is torn down once.  Whichever of
    [connection.disconnect()], the reader's [close] and the writer's
    [close] is called first, and however many such calls follow, the calls
    return (two levels of the mutual calls are enough) in one and the same
    state: connection, reader and writer closed, state [closed], the batch
    of the UDP transport discarded and its socket closed, and
    [server_disconnected] called exactly once. *)
Theorem teardown_once (fuel : nat) (t : teardown) (ts : list teardown)
    (c : AdeptConnection F T) :
  (2 <= fuel)%nat -> live c ->
  exists c',
    tear_all fuel (t :: ts) c = Some c' /\
    (forall t' ts', tear_all fuel (t' :: ts') c = Some c') /\
    closed c' = true /\ state c' = "closed"%string /\
    (exists r, reader c = Some r /\
       reader c' =
         Some (Reader.emit Reader.disconnect
                 (Reader.mkReader (Reader.partial_line r) true
                    (Reader.server_rx_bytes r) (Reader.trace r)))) /\
    (exists w, writer c = Some w /\
       writer c' = Some (Writer.mkWriter (Writer.writebuf w) true
                           (Writer.server_tx_bytes w))) /\
    udp_transport c' = option_map Udp.close (udp_transport c) /\
    notified c' = notified c ++ [server_disconnected].
Proof.
  intros Hf Hl. exists (torn c).
  assert (Hall : forall t' ts', tear_all fuel (t' :: ts') c = Some (torn c)).
  { intros t' ts'. cbn [tear_all]. rewrite tear_live by assumption.
    apply tear_all_torn; [lia | assumption]. }
  split; [apply Hall|]. split; [exact Hall|].
  destruct Hl as (Hc & Hk & (r & Hr & Hrc) & (w & Hw & Hwc)).
  repeat split.
  - exists r. split; [assumption|]. cbn. rewrite Hr. cbn.
    unfold Reader.close. rewrite Hrc. reflexivity.
  - exists w. split; [assumption|]. cbn. rewrite Hw. reflexivity.
Qed.

End Teardown.

Section Reading.

Variable F : Type.
Variable float : string -> option F.
Variable T : Type.

(** X8. End of stream on the reader of a connection in use tears the
    connection down as [connection.disconnect()] does.  The bytes of an
    unfinished line stay in [partial_line] and are never processed: the
    reader's only act is the [disconnect]. *)
Theorem end_of_stream (fuel : nat) (c : AdeptConnection F T) :
  (2 <= fuel)%nat -> live c ->
  exists r,
    reader c = Some r /\
    handle_read F float T fuel (Reader.Received []) c = Some (Return (torn c)) /\
    disconnect fuel c = Some (torn c) /\
    reader (torn c) =
      Some (Reader.mkReader (Reader.partial_line r) true
              (Reader.server_rx_bytes r)
              (Reader.trace r ++ [Reader.disconnect])).
Proof.
  intros Hf (Hc & Hk & (r & Hrd & Hrc) & (w & Hw & Hwc)).
  exists r. split; [assumption|].
  destruct fuel as [|[|fuel]]; try lia.
  destruct c as [rd wr co cl u st sd nx nt]. cbn in Hc, Hk, Hrd, Hw. subst.
  destruct r as [pl rc rx tr], w as [wb wc tx]. cbn in Hrc, Hwc. subst.
  split; [|split; [destruct u; reflexivity | reflexivity]].
  unfold handle_read.
  cbn [reader Reader.handle_read final Reader.close Reader.closed Reader.emit
       Reader.trace Reader.partial_line Reader.server_rx_bytes].
  rewrite drop_app_length. destruct u; reflexivity.
Qed.

Lemma handler_event (name : string)
    (h : gmap string string -> Reader.result (Reader.event F))
    (message : gmap string string) (ev : Reader.event F) :
  Reader.handlers F float name = Some h -> h message = Reader.Ok ev ->
  ev <> Reader.disconnect.
Proof.
  unfold Reader.handlers.
  repeat (destruct (String.eqb name _); [intros [= <-]|]); try discriminate;
    unfold Reader.process_wanted_message, Reader.process_unwanted_message,
      Reader.process_result_message, Reader.process_status_message;
    intros H;
    repeat match type of H with
           | Reader.and_then ?r _ = _ =>
               destruct r; cbn [Reader.and_then] in H; [|discriminate]
           | (if ?b then _ else _) = _ => destruct b
           end;
    injection H as <-; discriminate.
Qed.

Lemma line_events_stay (line : list byte) (ev : Reader.event F) :
  In ev (Reader.line_events F float line) -> ev <> Reader.disconnect.
Proof.
  unfold Reader.line_events.
  destruct (Reader.or_raise UnicodeError (Py.decode_ascii line)) as [l|e];
    cbn [Reader.and_then]; [|intros [<-|[]]; discriminate].
  unfold Reader.process_line.
  destruct (Reader.item _ _) as [name|e]; cbn [Reader.and_then];
    [|intros [<-|[]]; discriminate].
  destruct (Reader.handlers F float name) as [h|] eqn:Hh; [|intros []].
  destruct (h (Reader.parse_message l)) as [ev'|e] eqn:He; cbn [Reader.and_then];
    [|intros [<-|[]]; discriminate].
  intros [<-|[]]. eapply handler_event; eassumption.
Qed.

Lemma absorb_all_stay (fuel : nat) (evs : list (Reader.event F))
    (c : AdeptConnection F T) :
  (forall ev, In ev evs -> ev <> Reader.disconnect) ->
  absorb_all F T fuel evs c =
  Some (mkConnection F T (reader c) (writer c) (coordinator c) (closed c)
          (udp_transport c) (assigned evs (state c)) (started c)
          (next_udp_report c) (notified c)).
Proof.
  revert c. induction evs as [|ev evs IH]; intros c H.
  - destruct c; reflexivity.
  - cbn [absorb_all].
    assert (Hev : ev <> Reader.disconnect) by (apply H; now left).
    assert (H' : forall ev, In ev evs -> ev <> Reader.disconnect)
      by (intros; apply H; now right).
    destruct ev; try contradiction; cbn [absorb]; rewrite (IH _ H');
      destruct c; reflexivity.
Qed.

Lemma handle_read_data (fuel : nat) (chunk : list byte)
    (c : AdeptConnection F T) (r : Reader.AdeptReader F) :
  chunk <> [] -> reader c = Some r ->
  let lines := Py.split_bytes "010"%byte (Reader.partial_line r ++ chunk) in
  let evs := flat_map (Reader.line_events F float) (removelast lines) in
  handle_read F float T fuel (Reader.Received chunk) c =
  Some (Return
          (mkConnection F T
             (Some (Reader.mkReader (List.last lines []) (Reader.closed r)
                      (Reader.server_rx_bytes r + Z.of_nat (length chunk))
                      (Reader.trace r ++ evs)))
             (writer c) (coordinator c) (closed c) (udp_transport c)
             (assigned evs (state c)) (started c) (next_udp_report c)
             (notified c))).
Proof.
  intros Hne Hr lines evs. unfold handle_read. rewrite Hr.
  rewrite (ReaderFacts.handle_read_returns F float chunk r Hne).
  cbn [final Reader.trace]. rewrite drop_app_length.
  fold lines. fold evs.
  rewrite absorb_all_stay.
  - destruct c; reflexivity.
  - intros ev Hev. unfold evs in Hev. apply in_flat_map in Hev as (l & _ & Hl).
    eapply line_events_stay; eassumption.
Qed.

(** X9. Data the reader receives never ends the connection and touches
    nothing of it but the reader and [state]: the call returns, the state
    is that of the last status record among the complete lines (unchanged
    if there is none), and writer, UDP transport, flags and notifications
    are as they were, whatever the lines hold. *)
Theorem read_data (fuel : nat) (chunk : list byte) (c : AdeptConnection F T)
    (r : Reader.AdeptReader F) :
  chunk <> [] -> reader c = Some r ->
  let lines := Py.split_bytes "010"%byte (Reader.partial_line r ++ chunk) in
  let evs := flat_map (Reader.line_events F float) (removelast lines) in
  exists c',
    handle_read F float T fuel (Reader.Received chunk) c = Some (Return c') /\
    reader c' =
      Some (Reader.mkReader (List.last lines []) (Reader.closed r)
              (Reader.server_rx_bytes r + Z.of_nat (length chunk))
              (Reader.trace r ++ evs)) /\
    state c' = assigned evs (state c) /\
    writer c' = writer c /\ udp_transport c' = udp_transport c /\
    closed c' = closed c /\ notified c' = notified c /\
    coordinator c' = coordinator c /\ started c' = started c /\
    next_udp_report c' = next_udp_report c.
Proof.
  intros Hne Hr lines evs. eexists.
  split; [apply (handle_read_data fuel chunk c r Hne Hr)|].
  cbn. repeat split.
Qed.

(** X10. A status record read from the stream sets [connection.state]:
    [synchronized with N nearby receivers] for status [ok], where N is the
    count of the record read as a decimal integer and written back,
    [clock unstable] and [not synchronized with any nearby receivers] for
    [unstable] and [no_sync], and the status followed by the count for any
    other status.  This is so for a count of at most 4300 digits, the most
    [int] accepts: a longer one raises [ValueError], which is logged, and
    the state stays, whatever the status.  Nothing else of the connection
    changes. *)
Theorem status_line (fuel : nat) (c : Connection.AdeptConnection F T)
    (r : Reader.AdeptReader F) (s : string) (n : Z) :
  Connection.reader c = Some r -> Reader.partial_line r = [] -> Py.plain s ->
  let line := String.concat Py.tab
                ["type"; "mlat_status"; "status"; s;
                 "receiver_sync_count"; Py.str n]%string in
  let long := Py.MAX_STR_DIGITS <? Z.of_nat (String.length (Py.str (Z.abs n))) in
  let text :=
    (if String.eqb s "ok" then
       "synchronized with " +:+ Py.str n +:+ " nearby receivers"
     else if String.eqb s "unstable" then "clock unstable"
     else if String.eqb s "no_sync" then
       "not synchronized with any nearby receivers"
     else s +:+ " " +:+ Py.str n)%string in
  exists c' r',
    Connection.handle_read F float T fuel
      (Reader.Received (list_byte_of_string line ++ ["010"%byte])) c =
      Some (Return c') /\
    Connection.state c' = (if long then Connection.state c else text) /\
    Connection.reader c' = Some r' /\
    Reader.trace r' =
      Reader.trace r ++ [if long then Reader.log_exc ValueError
                         else Reader.set_state text] /\
    Reader.partial_line r' = [] /\
    Connection.closed c' = Connection.closed c /\
    Connection.writer c' = Connection.writer c /\
    Connection.udp_transport c' = Connection.udp_transport c /\
    Connection.notified c' = Connection.notified c.
Proof.
  intros Hr Hp Hs line long text.
  destruct (LineFacts.status_events F float s n Hs) as [Hn He].
  fold line in Hn, He. fold long text in He.
  eexists. eexists. split.
  - apply (handle_read_data fuel _ c r); [|exact Hr].
    intros E. apply app_eq_nil in E as [_ E]. discriminate.
  - rewrite Hp. cbn [app].
    rewrite PyFacts.split_bytes_line by exact Hn.
    cbn [removelast flat_map List.last]. rewrite He.
    cbn [Connection.state Connection.reader Connection.closed Connection.writer
         Connection.udp_transport Connection.notified].
    split; [destruct long; reflexivity|]. split; [reflexivity|].
    cbn [Reader.trace Reader.partial_line]. rewrite app_nil_r.
    split; [destruct long; reflexivity|]. repeat split.
Qed.

End Reading.

Section Serving.

Variable F : Type.
Variable T : Type.
Variable after : T -> T -> bool.
Variable later : T -> T.
Variable CLIENT_VERSION : string.

Lemma send_udp_report_returns (n : Z) (w : Writer.AdeptWriter) :
  Writer.send_udp_report n w =
  Return (Writer.mkWriter
            (Writer.writebuf w ++
               list_byte_of_string
                 (String.concat Py.tab
                    ["type"; "mlat_udp_report"; "messages_sent"; Py.str n]%string)
               ++ ["010"%byte])
            (Writer.closed w) (Writer.server_tx_bytes w)).
Proof.
  unfold Writer.send_udp_report, Writer.send_message, Writer.append_line.
  cbn [flat_map fst snd app].
  rewrite PyFacts.tabbed_ascii; [reflexivity|].
  do 3 (apply List.Forall_cons; [repeat constructor|]).
  apply List.Forall_cons; [|constructor].
  apply PyFacts.plain_ascii, PyFacts.str_plain.
Qed.

Lemma perform_serving (k : Z) (w0 : Writer.AdeptWriter) (q : call T)
    (c : AdeptConnection F T) :
  serving k w0 c -> serving k w0 (final (perform F T after later q c)).
Proof.
  intros (Hs & (u & Hu & Ha & Hk) & (counts & Hw) & (t & Ht)).
  destruct c as [rd wr co cl ut st sd nx nt]. cbn in Hs, Hu, Hw, Ht. subst.
  destruct q as [m r|em om r|now r]; cbn [perform].
  - unfold send_mlat, on_udp. cbn [started udp_transport].
    pose proof (UdpMore.perform_accounted k (UdpOps.SendMlat m r) u Ha) as Ha'.
    pose proof (UdpMore.perform_sock (UdpOps.SendMlat m r) u Hk) as Hk'.
    cbn [UdpOps.perform] in Ha', Hk'.
    destruct (Udp.send_mlat m r u); cbn in *;
      (split; [reflexivity|]); (split; [eauto|]); split; eauto.
  - unfold send_sync, on_udp. cbn [started udp_transport].
    pose proof (UdpMore.perform_accounted k (UdpOps.SendSync em om r) u Ha) as Ha'.
    pose proof (UdpMore.perform_sock (UdpOps.SendSync em om r) u Hk) as Hk'.
    cbn [UdpOps.perform] in Ha', Hk'.
    destruct (Udp.send_sync em om r u); cbn in *;
      (split; [reflexivity|]); (split; [eauto|]); split; eauto.
  - unfold heartbeat, on_udp. cbn [udp_transport].
    pose proof (UdpMore.perform_accounted k (UdpOps.Flush r) u Ha) as Ha'.
    pose proof (UdpMore.perform_sock (UdpOps.Flush r) u Hk) as Hk'.
    cbn [UdpOps.perform] in Ha', Hk'.
    destruct (UdpMore.flush_returns r u Hk) as (-> & _ & _).
    cbn [bind next_udp_report set_udp].
    destruct (after now t); cbn [final].
    + unfold on_writer. cbn [writer set_next set_udp udp_transport].
      rewrite send_udp_report_returns. cbn [final].
      split; [reflexivity|]. split; [eauto|]. split; [|eauto].
      exists (counts ++ [Udp.count (final (Udp.flush r u))]).
      unfold reported. rewrite fold_left_app. cbn [fold_left].
      rewrite send_udp_report_returns. reflexivity.
    + split; [reflexivity|]. split; [eauto|]. split; eauto.
Qed.

Lemma play_serving (k : Z) (w0 : Writer.AdeptWriter) (qs : list (call T))
    (c : AdeptConnection F T) :
  serving k w0 c -> serving k w0 (play F T after later qs c).
Proof.
  revert c. induction qs as [|q qs IH]; intros c H; [exact H|].
  cbn [play]. apply IH, perform_serving, H.
Qed.

Lemma send_ready_cases (w : Writer.AdeptWriter) :
  match Py.encode_ascii CLIENT_VERSION with
  | Some _ =>
      Writer.send_ready CLIENT_VERSION w =
      Return (Writer.mkWriter
                (Writer.writebuf w ++
                   list_byte_of_string
                     (String.concat Py.tab
                        ["type"; "mlat_event"; "event"; "ready";
                         "mlat_client_version"; CLIENT_VERSION]%string)
                   ++ ["010"%byte])
                (Writer.closed w) (Writer.server_tx_bytes w))
  | None => Writer.send_ready CLIENT_VERSION w = Raise UnicodeError w
  end.
Proof.
  unfold Writer.send_ready, Writer.send_message, Writer.append_line.
  cbn [flat_map fst snd app].
  destruct (Py.encode_ascii CLIENT_VERSION) as [v|] eqn:E.
  - apply PyFacts.encode_ascii_inv in E as [_ E].
    rewrite PyFacts.tabbed_ascii; [reflexivity|].
    do 5 (apply List.Forall_cons; [repeat constructor|]).
    apply List.Forall_cons; [assumption | constructor].
  - replace (Py.encode_ascii (Writer.tabbed _)) with (@None (list byte));
      [reflexivity|].
    symmetry. destruct (Py.encode_ascii (Writer.tabbed _)) as [b|] eqn:E';
      [|reflexivity].
    apply PyFacts.encode_ascii_inv in E' as [_ E'].
    unfold Writer.tabbed in E'. rewrite PyFacts.chars_app in E'.
    apply Forall_app in E' as [E' _].
    change (String.concat Py.tab _)
      with ("type" +:+ Py.tab +:+ "mlat_event" +:+ Py.tab +:+ "event" +:+ Py.tab
              +:+ "ready" +:+ Py.tab +:+ "mlat_client_version" +:+ Py.tab
              +:+ CLIENT_VERSION)%string in E'.
    rewrite !PyFacts.chars_app, !Forall_app in E'.
    rewrite PyFacts.encode_ascii_chars in E by tauto. discriminate.
Qed.

(** X11. [start] on a new connection, in all its cases.  If there is a
    UDP transport and its [start] fails (the socket cannot be made or
    connected), the [OSError] goes to the caller: reader and writer were
    made, but the state is still [init], [send_mlat] and [send_sync] are
    not bound, nothing is queued, no timer is set and the coordinator is
    not told.  Otherwise, if the client version string is ASCII, [start]
    returns with a connection in use: a fresh reader, the UDP transport
    (if any) started, state [connected], the report timer set one interval
    after now, [server_connected] called once, and the ready event, with
    the version, as the only line in the writer.  If the version is not
    ASCII, [send_ready] raises [UnicodeError] after the state was set to
    [connected]: the coordinator is not told, no timer is set and nothing
    is queued. *)
Theorem start_spec (r : Udp.start_result) (now : T)
    (udp : option Udp.UdpServerConnection) :
  let o := start F T later CLIENT_VERSION r now (init udp) in
  let udp' := option_map (fun u => final (Udp.start r u)) udp in
  let transport_up :=
    match udp with
    | Some u => returned (Udp.start r u)
    | None => true
    end in
  if transport_up then
    match Py.encode_ascii CLIENT_VERSION with
    | Some _ =>
        exists c,
          o = Return c /\
          live c /\ state c = "connected"%string /\ started c = true /\
          notified c = [server_connected] /\
          next_udp_report c = Some (later now) /\
          reader c = Some Reader.init /\
          udp_transport c = udp' /\
          writer c =
            Some (Writer.mkWriter
                    (list_byte_of_string
                       (String.concat Py.tab
                          ["type"; "mlat_event"; "event"; "ready";
                           "mlat_client_version"; CLIENT_VERSION]%string)
                       ++ ["010"%byte]) false 0)
    | None =>
        exists c,
          o = Raise UnicodeError c /\
          state c = "connected"%string /\ started c = true /\
          notified c = [] /\ next_udp_report c = None /\ closed c = false /\
          udp_transport c = udp' /\
          writer c = Some Writer.init
    end
  else
    exists c,
      o = Raise (OSError FromSystem) c /\
      state c = "init"%string /\ started c = false /\
      notified c = [] /\ next_udp_report c = None /\ closed c = false /\
      coordinator c = true /\
      reader c = Some Reader.init /\ writer c = Some Writer.init /\
      udp_transport c = udp'.
Proof.
  pose proof (send_ready_cases Writer.init) as H.
  intros o udp' transport_up. subst o udp' transport_up. unfold start.
  destruct udp as [u|]; [destruct r|];
    cbn [option_map returned Udp.start final udp_transport init on_udp bind];
    first
      [ destruct (Py.encode_ascii CLIENT_VERSION); rewrite H;
        eexists; (split; [reflexivity|]); cbn; repeat split; eauto; fail
      | eexists; (split; [reflexivity|]); cbn; repeat split ].
Qed.

Lemma start_serving (k : Z) (now : T) (v : list byte) :
  Py.encode_ascii CLIENT_VERSION = Some v ->
  serving k (final (Writer.send_ready CLIENT_VERSION Writer.init))
    (final (start F T later CLIENT_VERSION Udp.Started now
              (init (Some (Udp.init k))))).
Proof.
  intros E. pose proof (send_ready_cases Writer.init) as H. unfold start.
  rewrite E in H. rewrite H. cbn.
  split; [reflexivity|]. split; [|split].
  - eexists. split; [reflexivity|]. split; [|discriminate].
    apply (UdpMore.perform_accounted k (UdpOps.Start Udp.Started)),
      UdpMore.init_accounted.
  - exists []. reflexivity.
  - eexists. reflexivity.
Qed.

(** X12. A connection started with a UDP transport, after any calls of
    [send_mlat], [send_sync] and [heartbeat] (also ones that raised):
    [heartbeat] returns, having handed the pending batch, if any, to the
    socket; when the report is due it queues one [mlat_udp_report] line
    whose [messages_sent] is the number of datagrams handed to the socket
    so far, the one of this very heartbeat included, and sets the timer one
    interval after now.  The writer never got anything but the ready event
    and such reports: data goes by UDP only. *)
Theorem heartbeat_report (k : Z) (now0 now : T) (qs : list (call T))
    (r : Udp.send_result) (v : list byte) :
  Py.encode_ascii CLIENT_VERSION = Some v ->
  let c := play F T after later qs
             (final (start F T later CLIENT_VERSION Udp.Started now0
                       (init (Some (Udp.init k))))) in
  exists u w t counts,
    udp_transport c = Some u /\ writer c = Some w /\
    next_udp_report c = Some t /\
    w = reported counts (final (Writer.send_ready CLIENT_VERSION Writer.init)) /\
    let u' := final (Udp.flush r u) in
    let n := Z.of_nat (length (Udp.wire u')) in
    Udp.used u' = 0%nat /\
    Udp.wire u' =
      Udp.wire u ++ (if (Udp.used u =? 0)%nat then []
                     else [(firstn (Udp.used u) (Udp.buf u), r)]) /\
    heartbeat F T after later now r c =
    Return
      (if after now t then
         mkConnection F T (reader c)
           (Some (Writer.mkWriter
                    (Writer.writebuf w ++
                       list_byte_of_string
                         (String.concat Py.tab
                            ["type"; "mlat_udp_report"; "messages_sent";
                             Py.str n]%string)
                       ++ ["010"%byte])
                    (Writer.closed w) (Writer.server_tx_bytes w)))
           (coordinator c) (closed c) (Some u') (state c) (started c)
           (Some (later now)) (notified c)
       else
         mkConnection F T (reader c) (writer c) (coordinator c) (closed c)
           (Some u') (state c) (started c) (next_udp_report c) (notified c)).
Proof.
  intros E c.
  pose proof (play_serving k _ qs _ (start_serving k now0 v E)) as H.
  fold c in H. clearbody c.
  destruct H as (Hs & (u & Hu & Ha & Hk) & (counts & Hw) & (t & Ht)).
  exists u, (reported counts (final (Writer.send_ready CLIENT_VERSION Writer.init))),
    t, counts.
  repeat (split; [assumption || reflexivity|]).
  destruct (UdpMore.flush_returns r u Hk) as (Hf & Hused & Hwire).
  split; [assumption|]. split; [assumption|].
  pose proof (UdpMore.perform_accounted k (UdpOps.Flush r) u Ha) as Ha'.
  cbn [UdpOps.perform] in Ha'. destruct Ha' as [_ _ Hcount _ _ _ _].
  destruct c as [rd wr co cl ut st sd nx nt]. cbn in Hu, Hw, Ht. subst.
  unfold heartbeat, on_udp. cbn [udp_transport]. rewrite Hf.
  cbn [bind next_udp_report set_udp]. destruct (after now t).
  - unfold on_writer. cbn [writer set_next udp_transport set_writer set_udp].
    rewrite send_udp_report_returns, Hcount. reflexivity.
  - reflexivity.
Qed.

End Serving.

Section Text.

Variable F : Type.
Variable T : Type.

(** X13. Without a UDP transport [send_mlat] goes to the writer: one line
    is queued, of type [mlat_mlat], from which the reader's parser gets
    back the address (from [hexid]) and the timestamp (the first of the two
    words of the data field), the second word being the text of the
    message.  The key of the data field is [m_short] for DF 0 to 15 and
    [m_long] above, whatever the length of the message. *)
Theorem text_mlat_round_trip (m : message) (r : Udp.send_result)
    (c : Connection.AdeptConnection F T) (w : Writer.AdeptWriter) :
  Connection.started c = true -> Connection.udp_transport c = None ->
  Connection.writer c = Some w ->
  Py.plain (text m) ->
  Forall (fun c => c <> " "%char) (list_ascii_of_string (text m)) ->
  exists line c',
    Connection.send_mlat m r c = Return c' /\
    Connection.writer c' =
      Some (Writer.mkWriter
              (Writer.writebuf w ++ list_byte_of_string line ++ ["010"%byte])
              (Writer.closed w) (Writer.server_tx_bytes w)) /\
    Connection.udp_transport c' = None /\
    Py.decode_ascii (list_byte_of_string line) = Some line /\
    Reader.parse_message line !! "type"%string = Some "mlat_mlat"%string /\
    (exists h, Reader.parse_message line !! "hexid"%string = Some h /\
               Py.int 16 h = Some (address m)) /\
    (exists v stamp,
       Reader.parse_message line
         !! (if (df m <=? 15)%Z then "m_short"%string else "m_long"%string) = Some v /\
       Py.split " " v = [stamp; text m] /\
       Py.int 16 stamp = Some (timestamp m)).
Proof.
  intros Hs Hu Hw Hp Hsp.
  set (k := (if (df m <=? 15)%Z then "m_short"%string else "m_long"%string)).
  set (v := Writer.spaced [Py.format_hex false 12 (timestamp m); text m]).
  set (kwargs := [("type"%string, "mlat_mlat"%string);
                  ("hexid"%string, Py.format_hex true 6 (address m));
                  (k, v)]).
  assert (Hk : Forall (fun kv => Py.plain kv.1 /\ Py.plain kv.2) kwargs).
  { unfold kwargs. repeat constructor; cbn [fst snd];
      try apply LineFacts.format_hex_plain; try (apply LineFacts.stamped_plain; exact Hp);
      try (unfold k; destruct (df m <=? 15); repeat constructor);
      discriminate. }
  destruct (LineFacts.send_message_line kwargs w Hk) as (H1 & H2 & H3).
  cbn zeta in *.
  assert (Hsend : Writer.send_mlat m w = Writer.send_message kwargs w).
  { unfold Writer.send_mlat, Writer.send_message, kwargs, k, v.
    destruct (df m <=? 15); reflexivity. }
  eexists. eexists. split; [|split; [|split; [|split; [exact H2|]]]].
  - unfold Connection.send_mlat, Connection.on_writer.
    rewrite Hs, Hu, Hw, Hsend, H1. reflexivity.
  - reflexivity.
  - exact Hu.
  - rewrite H3. unfold kwargs, Py.dict. cbn [fold_left fst snd].
    assert (Hk1 : k <> "type"%string)
      by (unfold k; destruct (df m <=? 15); discriminate).
    assert (Hk2 : k <> "hexid"%string)
      by (unfold k; destruct (df m <=? 15); discriminate).
    split; [|split].
    + rewrite lookup_insert_ne, lookup_insert_ne by (discriminate || congruence).
      apply lookup_insert_eq.
    + eexists. split.
      * rewrite lookup_insert_ne by congruence. apply lookup_insert_eq.
      * apply NumFacts.int_format_hex.
    + exists v, (Py.format_hex false 12 (timestamp m)). split; [|split].
      * apply lookup_insert_eq.
      * apply LineFacts.stamped_split, Hsp.
      * apply NumFacts.int_format_hex.
Qed.

End Text.

Lemma started_live (udp : option Udp.UdpServerConnection) :
  live (Sample.started_connection udp).
Proof.
  destruct udp; (split; [reflexivity|]); (split; [reflexivity|]);
    split; eexists; split; reflexivity.
Qed.

(** A witness of [teardown_once]: three ways to close a connection with a
    pending batch. *)
Lemma teardown_once_witness :
  let c := Sample.started_connection (Some Sample.one_pending) in
  (2 <= 2)%nat /\ live c /\
  exists c',
    tear_all 2 [WriterClose; Disconnect; ReaderClose] c = Some c' /\
    tear_all 2 [Disconnect] c = Some c' /\
    notified c' = [server_connected; server_disconnected] /\
    option_map Udp.used (udp_transport c') = Some 0%nat.
Proof.
  intros c.
  assert (Hf : (2 <= 2)%nat) by lia.
  assert (Hl : live c) by apply started_live.
  split; [exact Hf|]. split; [exact Hl|].
  destruct (teardown_once Empty_set Z 2 WriterClose
              [Disconnect; ReaderClose] c Hf Hl)
    as (c' & H1 & H2 & _ & _ & _ & _ & H7 & H8).
  exists c'. split; [exact H1|]. split; [apply H2|].
  split; [rewrite H8 | rewrite H7]; reflexivity.
Defined.

(** A witness of [end_of_stream]. *)
Lemma end_of_stream_witness :
  let c := Sample.started_connection None in
  (2 <= 2)%nat /\ live c /\
  handle_read Empty_set Sample.no_float Z 2 (Reader.Received []) c =
    option_map Return (disconnect 2 c).
Proof.
  intros c.
  assert (Hf : (2 <= 2)%nat) by lia.
  assert (Hl : live c) by apply started_live.
  split; [exact Hf|]. split; [exact Hl|].
  destruct (end_of_stream Empty_set Sample.no_float Z 2 c Hf Hl)
    as (r & _ & H2 & H3 & _).
  rewrite H2, H3. reflexivity.
Defined.

(** A witness of [read_data]: a line with no type and the start of the
    next one. *)
Lemma read_data_witness :
  let c := Sample.started_connection None in
  let chunk := list_byte_of_string
                 (String.concat Py.nl ["no type"; "type"]%string) in
  chunk <> [] /\ reader c = Some Reader.init /\
  exists c',
    handle_read Empty_set Sample.no_float Z 0 (Reader.Received chunk) c =
      Some (Return c') /\
    option_map Reader.trace (reader c') = Some [Reader.log_exc KeyError] /\
    state c' = "connected"%string /\ closed c' = false.
Proof.
  intros c chunk.
  assert (Hc : chunk <> []) by discriminate.
  assert (Hr : reader c = Some Reader.init) by reflexivity.
  split; [exact Hc|]. split; [exact Hr|].
  destruct (read_data Empty_set Sample.no_float Z 0 chunk c
              Reader.init Hc Hr)
    as (c' & H1 & H2 & H3 & _ & _ & H6 & _).
  exists c'. split; [exact H1|].
  split; [rewrite H2 | split; [rewrite H3 | rewrite H6]]; reflexivity.
Defined.

(** A witness of [status_line]: synchronized with five receivers. *)
Lemma status_line_witness :
  let c := Sample.started_connection None in
  let line := String.concat Py.tab
                ["type"; "mlat_status"; "status"; "ok";
                 "receiver_sync_count"; Py.str 5]%string in
  reader c = Some Reader.init /\ Py.plain "ok" /\
  exists c',
    handle_read Empty_set Sample.no_float Z 0
      (Reader.Received (list_byte_of_string line ++ ["010"%byte])) c =
      Some (Return c') /\
    state c' = "synchronized with 5 nearby receivers"%string.
Proof.
  intros c line.
  assert (Hr : reader c = Some Reader.init) by reflexivity.
  assert (Hs : Py.plain "ok") by plain_string.
  split; [exact Hr|]. split; [exact Hs|].
  destruct (status_line Empty_set Sample.no_float Z 0 c
              Reader.init "ok" 5 Hr eq_refl Hs)
    as (c' & r' & H1 & H2 & _).
  exists c'. split; [exact H1 | exact H2].
Defined.

(** A witness of [heartbeat_report]: the first report, after one message,
    counts the datagram of that message. *)
Lemma heartbeat_report_witness :
  let c := play Empty_set Z Sample.clock_after Sample.clock_later
             [CallMlat (Sample.short_message 1000) Udp.Sent]
             (Sample.started_connection (Some (Udp.init 7))) in
  Py.encode_ascii "0.2.13" = Some (list_byte_of_string "0.2.13") /\
  exists c',
    heartbeat Empty_set Z Sample.clock_after Sample.clock_later 100
      Udp.Sent c = Return c' /\
    next_udp_report c' = Some 160 /\
    option_map Writer.writebuf (writer c') =
      Some (list_byte_of_string
              (String.concat Py.nl
                 [String.concat Py.tab
                    ["type"; "mlat_event"; "event"; "ready";
                     "mlat_client_version"; "0.2.13"];
                  String.concat Py.tab
                    ["type"; "mlat_udp_report"; "messages_sent"; "1"];
                  ""]%string)).
Proof.
  intros c.
  assert (Hv : Py.encode_ascii "0.2.13" = Some (list_byte_of_string "0.2.13"))
    by reflexivity.
  split; [exact Hv|].
  destruct (heartbeat_report Empty_set Z Sample.clock_after
              Sample.clock_later "0.2.13" 7 0 100
              [CallMlat (Sample.short_message 1000) Udp.Sent] Udp.Sent _ Hv)
    as (u & w & t & counts & Hu & Hw & Ht & _ & _ & _ & Hb).
  fold (Sample.started_connection (Some (Udp.init 7))) in Hu, Hw, Ht, Hb.
  fold c in Hu, Hw, Ht, Hb.
  eexists. split; [exact Hb|].
  assert (Et : t = 60) by (vm_compute in Ht; congruence).
  subst t. change (Sample.clock_after 100 60) with true. cbv iota.
  cbn [next_udp_report writer option_map Writer.writebuf].
  split; [reflexivity|].
  assert (Ew : Some w = writer c) by (symmetry; exact Hw).
  assert (Eu : Some u = udp_transport c) by (symmetry; exact Hu).
  vm_compute in Ew. injection Ew as ->.
  vm_compute in Eu. injection Eu as ->.
  vm_compute. reflexivity.
Defined.

(** A witness of [text_mlat_round_trip]: an extended squitter stamped
    5000. *)
Lemma text_mlat_round_trip_witness :
  let c := Sample.started_connection None in
  let m := Sample.long_message 5000 1 in
  started c = true /\ udp_transport c = None /\ Py.plain (text m) /\
  exists line c',
    send_mlat m Udp.Sent c = Return c' /\
    (exists h, Reader.parse_message line !! "hexid"%string = Some h /\
               Py.int 16 h = Some 0xABCDEF) /\
    (exists v stamp,
       Reader.parse_message line !! "m_long"%string = Some v /\
       Py.split " " v = [stamp; "8dabcdef"%string] /\
       Py.int 16 stamp = Some 5000).
Proof.
  intros c m.
  assert (Hs : started c = true) by reflexivity.
  assert (Hu : udp_transport c = None) by reflexivity.
  assert (Hp : Py.plain (text m)) by plain_string.
  assert (Hn : Forall (fun c => c <> " "%char) (list_ascii_of_string (text m)))
    by (cbn [list_ascii_of_string text m Sample.long_message];
        repeat (apply List.Forall_cons; [discriminate|]); apply List.Forall_nil).
  split; [exact Hs|]. split; [exact Hu|]. split; [exact Hp|].
  destruct (text_mlat_round_trip Empty_set Z m Udp.Sent c _
              Hs Hu eq_refl Hp Hn)
    as (line & c' & H1 & _ & _ & _ & _ & H6 & H7).
  exists line, c'. split; [exact H1|]. split; [exact H6 | exact H7].
Defined.

End ConnectionFacts.
